(** * Antiriciclaggio AML: the risk scoring engine of [antiriciclaggio.py]

    A shallow embedding of the scoring and matching code of the application
    (classes [Config], [RiskCalculator], the evaluation methods of
    [AMLRiskApp] and its handlers of the client-nature and geography
    fields) together with the properties its specification states and
    further properties of the code.

    Conventions of the embedding:
    - a Python [float] is a binary64 primitive float; [round], [int / int]
      and the implicit [int] to [float] conversions are written out so that
      every computation gives the value CPython gives;
    - a Python [int] is a [Z];
    - a Python [str] is a [string]; case mapping and white space are the
      ASCII ones, so the text handled here is ASCII text;
    - a [dict] that is only looked up is a [gmap]; a [dict] that is iterated
      is the list of its items, in insertion order;
    - an exception is a value of the error monad [py];
    - the Tk variables of the form are the fields of the record [App], and
      what the user does in the modal dialog is a list of events;
    - the texts written into labels and the Word export are left out: the
      embedding keeps the values they are made of. *)

From Stdlib Require Import ZArith Floats Ascii String List Bool Lia.
From Stdlib Require Import DecimalString.
From Stdlib Require Import Sorting.Sorted Sorting.Permutation.
From stdpp Require Import base option list gmap strings.

#[local] Set Warnings "-inexact-float".
#[local] Open Scope string_scope.
#[local] Open Scope Z_scope.

(* ================================================================== *)
(** ** Exceptions *)

Inductive Eccezione : Type :=
| ValueError
| IndexError
| OverflowError
| ZeroDivisionError.

Inductive py (A : Type) : Type :=
| Ok (a : A)
| Raise (e : Eccezione).

Arguments Ok {A} a.
Arguments Raise {A} e.

#[global] Instance py_ret : MRet py := fun _ a => Ok a.

#[global] Instance py_bind : MBind py := fun _ _ k m =>
  match m with
  | Ok a => k a
  | Raise e => Raise e
  end.

(* ================================================================== *)
(** ** Python numbers *)

Module PyNum.

(** The nearest double of [n / d], ties to even. *)
Definition float_of_ratio (s : bool) (n d : positive) : float :=
  SF2Prim (SFdiv prec emax (S754_finite s n 0) (S754_finite false d 0)).

(** The least magnitude that rounds past the largest double. *)
Definition overflow_limit : Z := 2 ^ 1024 - 2 ^ 970.

(** [float(z)], also the conversion of the [int] operand of a mixed
    operation: [OverflowError] when [z] is too large for a double. *)
Definition float_of_int (z : Z) : py float :=
  if overflow_limit <=? Z.abs z then Raise OverflowError
  else Ok (SF2Prim (binary_normalize prec emax z 0 false)).

(** [a / b] on two [int]s with [b] positive (a [len]): the nearest double
    of the exact quotient. *)
Definition int_truediv (a : Z) (b : positive) : py float :=
  if overflow_limit * Zpos b <=? Z.abs a then Raise OverflowError
  else
    Ok match a with
       | Z0 => PrimFloat.zero
       | Zpos p => float_of_ratio false p b
       | Zneg p => float_of_ratio true p b
       end.

(** [a / b] with a [float] and an [int]. *)
Definition truediv_int (a : float) (b : Z) : py float :=
  n ← float_of_int b;
  if b =? 0 then Raise ZeroDivisionError else Ok (a / n)%float.

(** [a / b] rounded to the nearest integer, ties to even ([0 < b]). *)
Definition div_half_even (a b : Z) : Z :=
  let q := a / b in
  match 2 * (a mod b) ?= b with
  | Lt => q
  | Gt => q + 1
  | Eq => if Z.even q then q else q + 1
  end.

(** The integer nearest to [m * 2^e * k]. *)
Definition scaled_round (m : positive) (e : Z) (k : Z) : Z :=
  match e with
  | Zneg p => div_half_even (Zpos m * k) (2 ^ Zpos p)
  | _ => Zpos m * 2 ^ e * k
  end.

(** [round(x, ndigits)] with [ndigits] 1 or 2, as the code calls it: the
    exact value of [x] is rounded to [ndigits] decimals, ties to even, and
    the decimal is converted back to the nearest double; infinities and
    NaN round to themselves, and the sign of [x] is kept on a zero. *)
Definition round (x : float) (ndigits : positive) : float :=
  match Prim2SF x with
  | S754_finite s m e =>
      let k := 10 ^ Zpos ndigits in
      match scaled_round m e k with
      | Zpos n => float_of_ratio s n (Z.to_pos k)
      | _ => if s then PrimFloat.neg_zero else PrimFloat.zero
      end
  | _ => x
  end.

(** [sum(l)] on a list of [int]s. *)
Definition sum (l : list Z) : Z := fold_left Z.add l 0.

(** [str(z)] on an [int]. *)
Definition str_int (z : Z) : string := NilZero.string_of_int (Z.to_int z).

End PyNum.

(* ================================================================== *)
(** ** Python strings (ASCII) *)

Module PyStr.

Definition is_upper (c : ascii) : bool :=
  let n := N_of_ascii c in (65 <=? n)%N && (n <=? 90)%N.

Definition is_lower (c : ascii) : bool :=
  let n := N_of_ascii c in (97 <=? n)%N && (n <=? 122)%N.

Definition to_lower (c : ascii) : ascii :=
  if is_upper c then ascii_of_N (N_of_ascii c + 32) else c.

Definition to_upper (c : ascii) : ascii :=
  if is_lower c then ascii_of_N (N_of_ascii c - 32) else c.

(** [str.isspace] on one ASCII character. *)
Definition is_space (c : ascii) : bool :=
  let n := N_of_ascii c in
  ((9 <=? n)%N && (n <=? 13)%N) || ((28 <=? n)%N && (n <=? 32)%N).

(** [s.lower()] *)
Fixpoint lower (s : string) : string :=
  match s with
  | EmptyString => EmptyString
  | String c t => String (to_lower c) (lower t)
  end.

Fixpoint lstrip (s : string) : string :=
  match s with
  | EmptyString => EmptyString
  | String c t => if is_space c then lstrip t else s
  end.

Fixpoint rstrip (s : string) : string :=
  match s with
  | EmptyString => EmptyString
  | String c t =>
      match rstrip t with
      | EmptyString => if is_space c then EmptyString else String c EmptyString
      | t' => String c t'
      end
  end.

(** [s.strip()] *)
Definition strip (s : string) : string := rstrip (lstrip s).

Fixpoint title_from (previous_is_cased : bool) (s : string) : string :=
  match s with
  | EmptyString => EmptyString
  | String c t =>
      if is_lower c then
        String (if previous_is_cased then c else to_upper c) (title_from true t)
      else if is_upper c then
        String (if previous_is_cased then to_lower c else c) (title_from true t)
      else String c (title_from false t)
  end.

(** [s.title()] *)
Definition title (s : string) : string := title_from false s.

(** [s.startswith(p)] *)
Definition startswith (s p : string) : bool := String.prefix p s.

(** [sub in s] *)
Fixpoint contains (s sub : string) : bool :=
  String.prefix sub s ||
  match s with
  | EmptyString => false
  | String _ t => contains t sub
  end.

(** [s.replace(old, new)] for one-character [old] and [new]. *)
Fixpoint replace (s : string) (old new : ascii) : string :=
  match s with
  | EmptyString => EmptyString
  | String c t => String (if Ascii.eqb c old then new else c) (replace t old new)
  end.

(** Truth value of a string: [if s:]. *)
Definition truthy (s : string) : bool :=
  match s with
  | EmptyString => false
  | _ => true
  end.

(** [s.split(sep)[0]] for a non-empty [sep]: [s] up to the first
    occurrence of [sep], all of [s] when there is none. *)
Fixpoint split_0 (s sep : string) : string :=
  if String.prefix sep s then EmptyString
  else
    match s with
    | EmptyString => EmptyString
    | String c t => String c (split_0 t sep)
    end.

End PyStr.


(* ================================================================== *)
(** ** Python lists *)

Module PyList.
Section Sort.
Context {A K : Type} (key : A -> K) (lt : K -> K -> bool).

(** [x] goes before the first element whose key is not smaller than its
    own, so that elements of equal key keep their order. *)
Fixpoint insert (x : A) (l : list A) : list A :=
  match l with
  | [] => [x]
  | y :: l' => if lt (key y) (key x) then y :: insert x l' else x :: l
  end.

(** [l.sort(key=key)]: the stable sort by [<] on the keys. *)
Fixpoint sort (l : list A) : list A :=
  match l with
  | [] => []
  | x :: l' => insert x (sort l')
  end.
End Sort.

(** [l[:n]] *)
Definition slice_to {A : Type} (n : nat) (l : list A) : list A := firstn n l.

(** Truth value of a list: [if l:]. *)
Definition truthy {A : Type} (l : list A) : bool :=
  match l with
  | [] => false
  | _ => true
  end.
End PyList.

(* ================================================================== *)
(** ** Configuration

    What the getters of class [Config] return once the JSON files are
    loaded. *)

Record SectionDef : Type := {
  sd_name : string;
  sd_factors : list string
}.

Record Config : Type := {
  get_sections_A_manual : list SectionDef;
  get_sections_B_manual : list SectionDef;
  (** items of the registry, [nome -> (livello, descrizione)] *)
  get_natura_giuridica_database : list (string * (Z * string));
  keywords_livello_1 : list string;
  keywords_livello_2 : list string;
  keywords_livello_3 : list string;
  keywords_livello_4 : list string;
  get_natura_giuridica_categorie_manuali : gmap string Z;
  get_clienti_studio : list string;
  LUOGHI_RISCHIO_COMPLETO : gmap string Z;
  get_prestazioni_veda : gmap string Z;
  get_prestazioni_solo_tabella_a : list string;
  get_soglia_importo : float
}.

(** The items of the keyword dictionary, keys 1 to 4 in this order. *)
Definition get_natura_giuridica_keywords (cfg : Config) : list (Z * list string) :=
  [ (1, keywords_livello_1 cfg);
    (2, keywords_livello_2 cfg);
    (3, keywords_livello_3 cfg);
    (4, keywords_livello_4 cfg) ].

(** [{k: v for k, v in d.items() if not k.startswith('_')}] *)
Definition senza_chiavi_riservate (d : gmap string Z) : gmap string Z :=
  filter (fun kv => PyStr.startswith (fst kv) "_" = false) d.

(** [Config.get_province_italiane_rischio] on the dictionary
    [province_italiane] of the configuration file. *)
Definition get_province_italiane_rischio (province : gmap string Z)
  : gmap string Z :=
  senza_chiavi_riservate province.

(** [Config.get_paesi_rischio] on the dictionary [paesi_internazionali]. *)
Definition get_paesi_rischio (paesi : gmap string Z) : gmap string Z :=
  senza_chiavi_riservate paesi.

(** [d.update(other)]: the items of [other] replace those of [d]. *)
Definition dict_update (d other : gmap string Z) : gmap string Z := other ∪ d.

(** [Config.inizializza_luoghi]: the value of
    [Config.LUOGHI_RISCHIO_COMPLETO] it leaves. *)
Definition inizializza_luoghi (province paesi : gmap string Z)
  : gmap string Z :=
  let luoghi := ∅ in
  let luoghi := dict_update luoghi (get_province_italiane_rischio province) in
  dict_update luoghi (get_paesi_rischio paesi).

(* ================================================================== *)
(** ** Form state of one manual section *)

(** The dictionary [{"name", "factors", "vars", "level_vars"}] of one manual
    section, each Tk variable replaced by its current value. *)
Record SectionVars : Type := {
  name : string;
  factors : list string;
  vars : list bool;
  level_vars : list Z
}.

(** One automatic section [{"name", "value", "level"}]. *)
Record AutoSection : Type := {
  a_name : string;
  a_value : string;
  a_level : Z
}.

(** An element of [sub_medias]: the [int] level of an automatic section or
    the [float] average of a manual one. *)
Inductive Numero : Type :=
| Int (z : Z)
| Float (f : float).

(* ================================================================== *)
(** ** class RiskCalculator *)

Module RiskCalculator.

(** A suggestion [(nome, livello, descrizione, is_cliente_studio)]. *)
Record Suggerimento : Type := {
  nome : string;
  livello : option Z;
  descrizione : string;
  is_cliente_studio : bool
}.

(** [[level_vars[i].get() for i, var in enumerate(vars) if var.get()]],
    from index [i] on. *)
Fixpoint selected_levels_from (i : nat) (vs : list bool) (lvs : list Z)
  : py (list Z) :=
  match vs with
  | [] => Ok []
  | var :: vs' =>
      if var then
        match lvs !! i with
        | Some lv =>
            rest ← selected_levels_from (S i) vs' lvs;
            mret (lv :: rest)
        | None => Raise IndexError
        end
      else selected_levels_from (S i) vs' lvs
  end.

Definition calcola_media_sezione (section_data : SectionVars) : py float :=
  selected_levels ← selected_levels_from 0 (vars section_data) (level_vars section_data);
  match selected_levels with
  | [] => Ok 0%float
  | _ :: _ =>
      q ← PyNum.int_truediv (PyNum.sum selected_levels)
            (Pos.of_nat (length selected_levels));
      mret (PyNum.round q 1)
  end.

(** [totale += media] *)
Definition add_media (totale : float) (media : Numero) : py float :=
  match media with
  | Int z => f ← PyNum.float_of_int z; mret (totale + f)%float
  | Float f => Ok (totale + f)%float
  end.

Fixpoint loop_auto (auto_sections : list AutoSection)
    (acc : float * list Numero) : py (float * list Numero) :=
  match auto_sections with
  | [] => Ok acc
  | sec :: rest =>
      let media := Int (a_level sec) in
      totale ← add_media (fst acc) media;
      loop_auto rest (totale, (snd acc ++ [media])%list)
  end.

Fixpoint loop_manual (sections : list SectionVars)
    (acc : float * list Numero) : py (float * list Numero) :=
  match sections with
  | [] => Ok acc
  | sec :: rest =>
      m ← calcola_media_sezione sec;
      let media := Float m in
      totale ← add_media (fst acc) media;
      loop_manual rest (totale, (snd acc ++ [media])%list)
  end.

Definition calcola_totale_sezioni (sections : list SectionVars)
    (auto_sections : list AutoSection) : py (float * list Numero) :=
  acc ← loop_auto auto_sections (0%float, []);
  loop_manual sections acc.

Definition calcola_livello_rischio (somma : float) : string :=
  if (somma <=? 2.5)%float then
    "BASSO/POCO SIGNIFICATIVO - Adeguata Verifica Semplificata"
  else if (somma <=? 3.5)%float then
    "ABBASTANZA SIGNIFICATIVO - Adeguata Verifica Ordinaria"
  else
    "MOLTO SIGNIFICATIVO - Adeguata Verifica Rafforzata".

Definition calcola_livello_da_importo (importo : float) : Z :=
  if (importo <? 50000)%float then 1
  else if (importo <? 250000)%float then 2
  else if (importo <? 1000000)%float then 3
  else 4.

Definition get_livello_paese (cfg : Config) (paese : string) : Z :=
  let paese_norm := PyStr.title (PyStr.strip paese) in
  default 0 (LUOGHI_RISCHIO_COMPLETO cfg !! paese_norm).

(** The dictionary [tipo_generico]; it is only read at the keys 1 to 4 of
    the keyword dictionary. *)
Definition tipo_generico (lvl : Z) : string :=
  match lvl with
  | 1 => "Soggetto vigilato / Grande azienda"
  | 2 => "Media impresa / Studio professionale"
  | 3 => "PMI / Piccola società"
  | 4 => "Alto rischio / Trust / Offshore"
  | _ => ""
  end.

(** Tier 1: the loop over [database.items()]. *)
Definition risultati_database (cfg : Config) (testo_lower : string)
  : list Suggerimento :=
  omap (fun '(n, (lvl, d)) =>
          if PyStr.contains (PyStr.lower n) testo_lower
          then Some {| nome := n; livello := Some lvl; descrizione := d;
                       is_cliente_studio := false |}
          else None)
       (get_natura_giuridica_database cfg).

(** Tier 2: the loop over [clienti_studio]. *)
Definition risultati_clienti (cfg : Config) (testo_lower : string)
  : list Suggerimento :=
  omap (fun cliente =>
          if PyStr.contains (PyStr.lower cliente) testo_lower
          then Some {| nome := cliente; livello := None;
                       descrizione := "Cliente studio";
                       is_cliente_studio := true |}
          else None)
       (get_clienti_studio cfg).

(** The inner loop of tier 3: the first [keyword in testo_lower] appends
    one suggestion and breaks. *)
Fixpoint loop_keyword (lvl : Z) (keyword_list : list string)
    (testo_lower : string) : list Suggerimento :=
  match keyword_list with
  | [] => []
  | keyword :: rest =>
      if PyStr.contains testo_lower keyword
      then [ {| nome := "Categoria: " +:+ tipo_generico lvl;
                livello := Some lvl;
                descrizione := tipo_generico lvl;
                is_cliente_studio := false |} ]
      else loop_keyword lvl rest testo_lower
  end.

(** The outer loop of tier 3: [if risultati: break] after each level. *)
Fixpoint loop_livelli (keywords : list (Z * list string))
    (testo_lower : string) : list Suggerimento :=
  match keywords with
  | [] => []
  | (lvl, keyword_list) :: rest =>
      match loop_keyword lvl keyword_list testo_lower with
      | [] => loop_livelli rest testo_lower
      | risultati => risultati
      end
  end.

(** [x[1] if x[1] else 999] *)
Definition livello_o_999 (l : option Z) : Z :=
  match l with
  | Some z => if z =? 0 then 999 else z
  | None => 999
  end.

(** The sort key [lambda x: (x[3], x[1] if x[1] else 999, x[0])]. *)
Definition chiave (x : Suggerimento) : bool * Z * string :=
  (is_cliente_studio x, livello_o_999 (livello x), nome x).

Definition bool_ltb (a b : bool) : bool := negb a && b.

(** [<] on the key tuples. *)
Definition chiave_ltb (a b : bool * Z * string) : bool :=
  let '(a3, a1, a0) := a in
  let '(b3, b1, b0) := b in
  if bool_ltb a3 b3 then true
  else if bool_ltb b3 a3 then false
  else if a1 <? b1 then true
  else if b1 <? a1 then false
  else String.ltb a0 b0.

Definition cerca_natura_giuridica (cfg : Config) (testo : string)
  : list Suggerimento :=
  let testo_lower := PyStr.strip (PyStr.lower testo) in
  if (String.length testo_lower <? 2)%nat then []
  else
    let risultati :=
      (risultati_database cfg testo_lower
         ++ risultati_clienti cfg testo_lower)%list in
    let risultati :=
      if negb (PyList.truthy risultati)
      then loop_livelli (get_natura_giuridica_keywords cfg) testo_lower
      else risultati in
    PyList.slice_to 10 (PyList.sort chiave chiave_ltb risultati).

(** The sort key
    [lambda x: (not x[0].lower().startswith(testo_lower), x[1], x[0])]. *)
Definition chiave_luogo (testo_lower : string) (x : string * Z)
  : bool * Z * string :=
  (negb (PyStr.startswith (PyStr.lower (fst x)) testo_lower), snd x, fst x).

(** [luoghi] is [Config.LUOGHI_RISCHIO_COMPLETO.items()], the items of the
    dictionary of places in insertion order. *)
Definition cerca_luogo (luoghi : list (string * Z)) (testo : string)
  : list (string * Z) :=
  let testo_lower := PyStr.strip (PyStr.lower testo) in
  if (String.length testo_lower <? 2)%nat then []
  else
    let risultati :=
      List.filter
        (fun x => PyStr.contains (PyStr.lower (fst x)) testo_lower) luoghi in
    PyList.slice_to 10
      (PyList.sort (chiave_luogo testo_lower) chiave_ltb risultati).

End RiskCalculator.

(* ================================================================== *)
(** ** What the embedding takes from the Python runtime *)

(** [float(s)] on a non-empty stripped text ([ValueError] when [s] is not a
    number) and the format [f"{x:,.2f}"]. *)
Class Runtime : Type := {
  py_float : string -> py float;
  format_2f : float -> string
}.

(* ================================================================== *)
(** ** class AMLRiskApp *)

Module AMLRiskApp.

(** The dictionary returned by the acknowledgement dialog. *)
Record Dichiarazione : Type := {
  accepted : bool;
  timestamp : string;
  d_somma_ponderata : float;
  d_livello : string
}.

(** The dictionary [self.dati_export]. *)
Record DatiExport : Type := {
  data_valutazione : string;
  cliente : string;
  titolare_effettivo : string;
  scopo_operazione : string;
  descrizione_attivita : string;
  rischio_inerente : Z;
  prestazione_veda : string;
  avvocato : string;
  importo : option float;
  total_A : float;
  total_B : float;
  rischio_specifico : float;
  inerente_ponderato : float;
  specifico_ponderato : float;
  somma : float;
  livello : string;
  anomalie : option string;
  sections_A_manual : list SectionVars;
  sections_A_auto : list AutoSection;
  sections_B_manual : list SectionVars;
  sections_B_auto : list AutoSection;
  sub_medias_A : list Numero;
  sub_medias_B : list Numero;
  usa_solo_tabella_a : bool;
  num_fattori_a : Z;
  dichiarazione_rafforzata : option Dichiarazione
}.

(** The attributes of [self] that the evaluation reads or writes, each
    widget replaced by its current content. *)
Record App : Type := {
  entry_data : string;
  entry_cliente : string;
  entry_titolare : string;
  text_scopo : string;
  text_attivita : string;
  entry_avvocato : string;
  combo_prestazione : string;
  entry_importo : string;
  entry_natura_giuridica : string;
  combo_natura_fallback : string;
  entry_area_cliente : string;
  entry_area_destinazione : string;
  check_b3_incongruo : bool;
  check_b3_frazionamenti : bool;
  check_b3_altro : bool;
  section_vars_A_manual : list SectionVars;
  section_vars_B_manual : list SectionVars;
  a1_manual_factors : option SectionVars;
  dati_export : option DatiExport
}.

(** [self.dati_export = d] *)
Definition set_dati_export (self : App) (d : DatiExport) : App :=
  {| entry_data := entry_data self;
     entry_cliente := entry_cliente self;
     entry_titolare := entry_titolare self;
     text_scopo := text_scopo self;
     text_attivita := text_attivita self;
     entry_avvocato := entry_avvocato self;
     combo_prestazione := combo_prestazione self;
     entry_importo := entry_importo self;
     entry_natura_giuridica := entry_natura_giuridica self;
     combo_natura_fallback := combo_natura_fallback self;
     entry_area_cliente := entry_area_cliente self;
     entry_area_destinazione := entry_area_destinazione self;
     check_b3_incongruo := check_b3_incongruo self;
     check_b3_frazionamenti := check_b3_frazionamenti self;
     check_b3_altro := check_b3_altro self;
     section_vars_A_manual := section_vars_A_manual self;
     section_vars_B_manual := section_vars_B_manual self;
     a1_manual_factors := a1_manual_factors self;
     dati_export := Some d |}.

(** The user sets the three aggravating check boxes of B.3. *)
Definition set_check_b3 (self : App) (incongruo frazionamenti altro : bool) : App :=
  {| entry_data := entry_data self;
     entry_cliente := entry_cliente self;
     entry_titolare := entry_titolare self;
     text_scopo := text_scopo self;
     text_attivita := text_attivita self;
     entry_avvocato := entry_avvocato self;
     combo_prestazione := combo_prestazione self;
     entry_importo := entry_importo self;
     entry_natura_giuridica := entry_natura_giuridica self;
     combo_natura_fallback := combo_natura_fallback self;
     entry_area_cliente := entry_area_cliente self;
     entry_area_destinazione := entry_area_destinazione self;
     check_b3_incongruo := incongruo;
     check_b3_frazionamenti := frazionamenti;
     check_b3_altro := altro;
     section_vars_A_manual := section_vars_A_manual self;
     section_vars_B_manual := section_vars_B_manual self;
     a1_manual_factors := a1_manual_factors self;
     dati_export := dati_export self |}.

(** The user changes the boxes and levels of the subjective factors of A.1. *)
Definition set_a1_manual_factors (self : App) (a1 : option SectionVars) : App :=
  {| entry_data := entry_data self;
     entry_cliente := entry_cliente self;
     entry_titolare := entry_titolare self;
     text_scopo := text_scopo self;
     text_attivita := text_attivita self;
     entry_avvocato := entry_avvocato self;
     combo_prestazione := combo_prestazione self;
     entry_importo := entry_importo self;
     entry_natura_giuridica := entry_natura_giuridica self;
     combo_natura_fallback := combo_natura_fallback self;
     entry_area_cliente := entry_area_cliente self;
     entry_area_destinazione := entry_area_destinazione self;
     check_b3_incongruo := check_b3_incongruo self;
     check_b3_frazionamenti := check_b3_frazionamenti self;
     check_b3_altro := check_b3_altro self;
     section_vars_A_manual := section_vars_A_manual self;
     section_vars_B_manual := section_vars_B_manual self;
     a1_manual_factors := a1;
     dati_export := dati_export self |}.

(** The user changes the manual B sections and the destination area. *)
Definition set_tabella_B (self : App) (sezioni_B : list SectionVars)
    (destinazione : string) : App :=
  {| entry_data := entry_data self;
     entry_cliente := entry_cliente self;
     entry_titolare := entry_titolare self;
     text_scopo := text_scopo self;
     text_attivita := text_attivita self;
     entry_avvocato := entry_avvocato self;
     combo_prestazione := combo_prestazione self;
     entry_importo := entry_importo self;
     entry_natura_giuridica := entry_natura_giuridica self;
     combo_natura_fallback := combo_natura_fallback self;
     entry_area_cliente := entry_area_cliente self;
     entry_area_destinazione := destinazione;
     check_b3_incongruo := check_b3_incongruo self;
     check_b3_frazionamenti := check_b3_frazionamenti self;
     check_b3_altro := check_b3_altro self;
     section_vars_A_manual := section_vars_A_manual self;
     section_vars_B_manual := sezioni_B;
     a1_manual_factors := a1_manual_factors self;
     dati_export := dati_export self |}.

(** *** Building the form *)

(** One unchecked box and one level variable set to 1 per factor. *)
Definition _create_factors_ui (fs : list string) : list bool * list Z :=
  (map (fun _ => false) fs, map (fun _ => 1) fs).

Definition nuova_sezione (sec : SectionDef) : SectionVars :=
  let '(vs, lvs) := _create_factors_ui (sd_factors sec) in
  {| name := sd_name sec; factors := sd_factors sec;
     vars := vs; level_vars := lvs |}.

(** [self.section_vars_A_manual] as [_create_section_panel_A] fills it:
    the definitions whose name contains "A.1" are skipped. *)
Fixpoint _create_section_panel_A (sections_a : list SectionDef)
  : list SectionVars :=
  match sections_a with
  | [] => []
  | sec :: rest =>
      if PyStr.contains (sd_name sec) "A.1"
      then _create_section_panel_A rest
      else nuova_sezione sec :: _create_section_panel_A rest
  end.

(** [self.section_vars_B_manual] as [_create_section_panel_B] fills it. *)
Definition _create_section_panel_B (sections_b : list SectionDef)
  : list SectionVars :=
  map nuova_sezione sections_b.

(** The factors of the first definition whose name starts with "A.1". *)
Fixpoint a1_factors (fattori_a1 : list SectionDef) : option (list string) :=
  match fattori_a1 with
  | [] => None
  | sec :: rest =>
      if PyStr.startswith (sd_name sec) "A.1"
      then Some (sd_factors sec)
      else a1_factors rest
  end.

(** [self.a1_manual_factors] as [_create_natura_giuridica_section] sets it. *)
Definition _create_natura_giuridica_section (cfg : Config)
  : option SectionVars :=
  match a1_factors (get_sections_A_manual cfg) with
  | Some (f :: fs) =>
      let '(vs, lvs) := _create_factors_ui (f :: fs) in
      Some {| name := "A.1 - Natura giuridica"; factors := f :: fs;
              vars := vs; level_vars := lvs |}
  | _ => None
  end.

(** *** The B.3 labels *)

(** What [_aggiorna_b3_livello_finale] writes into [label_b3_base] and
    [label_b3_livello_finale]. *)
Inductive EtichetteB3 : Type :=
| B3_inserisci_importo
    (** "Inserisci l'importo per calcolare il livello base", and "" *)
| B3_importo_non_valido
    (** "Importo non valido", and "" *)
| B3_livelli (livello_base livello_finale aggravanti : Z)
    (** "Livello BASE da importo: {livello_base} ..." and
        "LIVELLO FINALE B.3: {livello_finale} ..." *).

Section Valutazione.
Context `{Runtime}.
Variable cfg : Config.

(** [self.entry_importo.get().replace(',', '.').strip()] *)
Definition importo_str (self : App) : string :=
  PyStr.strip (PyStr.replace (entry_importo self) "," ".").

Definition _aggiorna_b3_livello_finale (self : App) : py EtichetteB3 :=
  let importo_str := importo_str self in
  if negb (PyStr.truthy importo_str) then Ok B3_inserisci_importo
  else
    match py_float importo_str with
    | Raise ValueError => Ok B3_importo_non_valido
    | Raise e => Raise e
    | Ok importo =>
        let livello_base := RiskCalculator.calcola_livello_da_importo importo in
        let aggravanti := 0 in
        let aggravanti :=
          if check_b3_incongruo self then aggravanti + 1 else aggravanti in
        let aggravanti :=
          if check_b3_frazionamenti self then aggravanti + 1 else aggravanti in
        let aggravanti :=
          if check_b3_altro self then aggravanti + 1 else aggravanti in
        let livello_finale := Z.min (livello_base + aggravanti) 4 in
        Ok (B3_livelli livello_base livello_finale aggravanti)
    end.

(** *** Automatic sections *)

(** The loop over [database.items()]: the first [nome] whose lower case
    is contained in the text gives [(natura_level, descrizione)]. *)
Fixpoint loop_database (database : list (string * (Z * string)))
    (natura_text : string) : Z * string :=
  match database with
  | [] => (0, "")
  | (nome, (lvl, desc)) :: rest =>
      if PyStr.contains (PyStr.lower natura_text) (PyStr.lower nome)
      then (lvl, desc)
      else loop_database rest natura_text
  end.

Fixpoint loop_keyword_list (lvl : Z) (keyword_list : list string)
    (natura_lower : string) (natura_level : Z) : Z :=
  match keyword_list with
  | [] => natura_level
  | keyword :: rest =>
      if PyStr.contains natura_lower keyword then lvl
      else loop_keyword_list lvl rest natura_lower natura_level
  end.

Fixpoint loop_keywords (keywords : list (Z * list string))
    (natura_lower : string) (natura_level : Z) : Z :=
  match keywords with
  | [] => natura_level
  | (lvl, keyword_list) :: rest =>
      let natura_level :=
        loop_keyword_list lvl keyword_list natura_lower natura_level in
      if natura_level >? 0 then natura_level
      else loop_keywords rest natura_lower natura_level
  end.

(** The section A.4 or B.6 of one geography entry. *)
Definition sezione_area (nome_sezione : string) (entry : string)
  : AutoSection :=
  let area := PyStr.strip entry in
  if PyStr.truthy area then
    let area_level := RiskCalculator.get_livello_paese cfg area in
    let area_level := if area_level =? 0 then 1 else area_level in
    {| a_name := nome_sezione; a_value := area; a_level := area_level |}
  else
    {| a_name := nome_sezione; a_value := "Non specificato"; a_level := 1 |}.

Definition _get_automatic_sections_A (self : App) : list AutoSection :=
  let natura_text := PyStr.strip (entry_natura_giuridica self) in
  let '(natura_level, descrizione) :=
    loop_database (get_natura_giuridica_database cfg) natura_text in
  let natura_level :=
    if natura_level =? 0
    then loop_keywords (get_natura_giuridica_keywords cfg)
                       (PyStr.lower natura_text) natura_level
    else natura_level in
  let '(natura_level, descrizione) :=
    if natura_level =? 0 then
      let selected_cat := combo_natura_fallback self in
      if PyStr.truthy selected_cat
      then (default 3 (get_natura_giuridica_categorie_manuali cfg !! selected_cat), "")
      else (natura_level, descrizione)
    else (natura_level, descrizione) in
  let '(natura_level, descrizione) :=
    if natura_level =? 0
    then (3, "Livello default - verificare manualmente")
    else (natura_level, descrizione) in
  let value_text :=
    if PyStr.truthy descrizione
    then natura_text +:+ " (" +:+ descrizione +:+ ")"
    else natura_text in
  [ {| a_name := "A.1 - Natura giuridica"; a_value := value_text;
       a_level := natura_level |};
    sezione_area "A.4 - Area geografica cliente" (entry_area_cliente self) ].

(** The dictionary [fascia_text]; it is only read at a level of
    [calcola_livello_da_importo], 1 to 4. *)
Definition fascia_text (lvl : Z) : string :=
  match lvl with
  | 1 => "< €50.000"
  | 2 => "€50.000 - €250.000"
  | 3 => "€250.000 - €1.000.000"
  | 4 => "> €1.000.000"
  | _ => ""
  end.

Definition _get_automatic_sections_B (self : App) (importo : option float)
  : list AutoSection :=
  let b3 :=
    match importo with
    | Some importo =>
        let importo_level_base :=
          RiskCalculator.calcola_livello_da_importo importo in
        let descrizione :=
          "€ " +:+ format_2f importo +:+ " ("
               +:+ fascia_text importo_level_base +:+ ")" in
        {| a_name := "B.3 - Ammontare operazione"; a_value := descrizione;
           a_level := importo_level_base |}
    | None =>
        {| a_name := "B.3 - Ammontare operazione";
           a_value := "Non specificato"; a_level := 0 |}
    end in
  [ b3;
    sezione_area "B.6 - Area geografica destinazione"
                 (entry_area_destinazione self) ].

(** [RiskCalculator.valida_anomalia_importo]: a text when the amount is
    missing, [None] otherwise. *)
Definition valida_anomalia_importo (importo : option float) : option string :=
  match importo with
  | None =>
      Some ("Importo non specificato - Nessuna anomalia per soglia €"
              +:+ format_2f (get_soglia_importo cfg))
  | Some _ => None
  end.

(** *** The acknowledgement dialog *)

(** What the user does while the modal dialog is open. *)
Inductive Evento : Type :=
| spunta_casella
    (** a click on the acceptance check box *)
| premi_conferma (adesso : string)
    (** the button "Confermo e Procedo"; [adesso] is the formatted
        [datetime.now()] *)
| premi_annulla (risposta : bool)
    (** the button "Annulla Valutazione", then the answer to [askyesno] *)
| chiudi_finestra (risposta : bool)
    (** the window's close button, then the answer to [askyesno] *).

(** The dialog is open with its check box, or destroyed with
    [risultato["value"]]. *)
Inductive Dialog : Type :=
| Aperto (checkbox_var : bool)
| Distrutto (risultato : option Dichiarazione).

Definition conferma (somma_ponderata : float) (livello : string)
    (checkbox_var : bool) (adesso : string) : Dialog :=
  if negb checkbox_var then Aperto checkbox_var
  else Distrutto (Some {| accepted := true;
                          timestamp := adesso;
                          d_somma_ponderata := somma_ponderata;
                          d_livello := livello |}).

Definition annulla (checkbox_var : bool) (risposta : bool) : Dialog :=
  if risposta then Distrutto None else Aperto checkbox_var.

Definition on_closing (checkbox_var : bool) (risposta : bool) : Dialog :=
  annulla checkbox_var risposta.

Definition passo (somma_ponderata : float) (livello : string)
    (d : Dialog) (e : Evento) : Dialog :=
  match d with
  | Distrutto r => Distrutto r
  | Aperto checkbox_var =>
      match e with
      | spunta_casella => Aperto (negb checkbox_var)
      | premi_conferma adesso =>
          conferma somma_ponderata livello checkbox_var adesso
      | premi_annulla risposta => annulla checkbox_var risposta
      | chiudi_finestra risposta => on_closing checkbox_var risposta
      end
  end.

Definition esegui_dialog (somma_ponderata : float) (livello : string)
    (eventi : list Evento) : Dialog :=
  fold_left (passo somma_ponderata livello) eventi (Aperto false).

(** [None] while [dialog.wait_window()] has not returned, otherwise the
    value returned. *)
Definition _mostra_dialog_rischio_rafforzato (somma_ponderata : float)
    (livello : string) (eventi : list Evento)
  : option (option Dichiarazione) :=
  match esegui_dialog somma_ponderata livello eventi with
  | Aperto _ => None
  | Distrutto risultato => Some risultato
  end.

(** *** valuta_rischio *)

(** The computation of [valuta_rischio] between the two input checks and
    the dialog: every field of [dati_export], the declaration apart. *)
Definition valuta_calcoli (self : App) : py DatiExport :=
  let data_valutazione := PyStr.strip (entry_data self) in
  let cliente := PyStr.strip (entry_cliente self) in
  let titolare_effettivo := PyStr.strip (entry_titolare self) in
  let scopo_operazione := PyStr.strip (text_scopo self) in
  let descrizione_attivita := PyStr.strip (text_attivita self) in
  let avvocato := PyStr.strip (entry_avvocato self) in
  let prestazione := combo_prestazione self in
  let rischio_inerente := default 2 (get_prestazioni_veda cfg !! prestazione) in
  let usa_solo_tabella_a :=
    bool_decide (prestazione ∈ get_prestazioni_solo_tabella_a cfg) in
  let importo_str := importo_str self in
  importo ← (if PyStr.truthy importo_str
             then f ← py_float importo_str; mret (Some f)
             else mret None);
  let anomalie := valida_anomalia_importo importo in
  let sections_A_auto := _get_automatic_sections_A self in
  let sections_B_auto :=
    if negb usa_solo_tabella_a
    then _get_automatic_sections_B self importo else [] in
  '(total_A, sub_medias_A) ←
    RiskCalculator.calcola_totale_sezioni
      (section_vars_A_manual self) sections_A_auto;
  '(total_B, sub_medias_B, rischio_specifico, num_fattori_a) ←
    (if usa_solo_tabella_a then
       let total_B := 0%float in
       let num_fattori_a :=
         Z.of_nat (length sections_A_auto)
         + Z.of_nat (length (section_vars_A_manual self)) in
       q ← PyNum.truediv_int total_A num_fattori_a;
       mret (total_B, [], PyNum.round q 2, num_fattori_a)
     else
       '(total_B, sub_medias_B) ←
         RiskCalculator.calcola_totale_sezioni
           (section_vars_B_manual self) sections_B_auto;
       mret (total_B, sub_medias_B,
             PyNum.round ((total_A + total_B) / 10)%float 2, 0));
  ri ← PyNum.float_of_int rischio_inerente;
  let inerente_ponderato := PyNum.round (ri * 0.3)%float 2 in
  let specifico_ponderato := PyNum.round (rischio_specifico * 0.7)%float 2 in
  let somma := PyNum.round (inerente_ponderato + specifico_ponderato)%float 2 in
  let livello := RiskCalculator.calcola_livello_rischio somma in
  mret {| data_valutazione := data_valutazione;
          cliente := cliente;
          titolare_effettivo := titolare_effettivo;
          scopo_operazione := scopo_operazione;
          descrizione_attivita := descrizione_attivita;
          rischio_inerente := rischio_inerente;
          prestazione_veda := prestazione;
          avvocato := avvocato;
          importo := importo;
          total_A := total_A;
          total_B := total_B;
          rischio_specifico := rischio_specifico;
          inerente_ponderato := inerente_ponderato;
          specifico_ponderato := specifico_ponderato;
          somma := somma;
          livello := livello;
          anomalie := anomalie;
          sections_A_manual := section_vars_A_manual self;
          sections_A_auto := sections_A_auto;
          sections_B_manual := section_vars_B_manual self;
          sections_B_auto := sections_B_auto;
          sub_medias_A := sub_medias_A;
          sub_medias_B := sub_medias_B;
          usa_solo_tabella_a := usa_solo_tabella_a;
          num_fattori_a := if usa_solo_tabella_a then num_fattori_a else 0;
          dichiarazione_rafforzata := None |}.

(** [dati_export] with the declaration returned by the dialog. *)
Definition con_dichiarazione (d : DatiExport)
    (dichiarazione : option Dichiarazione) : DatiExport :=
  {| data_valutazione := data_valutazione d;
     cliente := cliente d;
     titolare_effettivo := titolare_effettivo d;
     scopo_operazione := scopo_operazione d;
     descrizione_attivita := descrizione_attivita d;
     rischio_inerente := rischio_inerente d;
     prestazione_veda := prestazione_veda d;
     avvocato := avvocato d;
     importo := importo d;
     total_A := total_A d;
     total_B := total_B d;
     rischio_specifico := rischio_specifico d;
     inerente_ponderato := inerente_ponderato d;
     specifico_ponderato := specifico_ponderato d;
     somma := somma d;
     livello := livello d;
     anomalie := anomalie d;
     sections_A_manual := sections_A_manual d;
     sections_A_auto := sections_A_auto d;
     sections_B_manual := sections_B_manual d;
     sections_B_auto := sections_B_auto d;
     sub_medias_A := sub_medias_A d;
     sub_medias_B := sub_medias_B d;
     usa_solo_tabella_a := usa_solo_tabella_a d;
     num_fattori_a := num_fattori_a d;
     dichiarazione_rafforzata := dichiarazione |}.

(** How one call of [valuta_rischio] ends. *)
Inductive Esito : Type :=
| Avviso (messaggio : string)
    (** [messagebox.showwarning], nothing stored *)
| Errore_input
    (** [except ValueError]: "Controlla gli input" *)
| Errore_imprevisto
    (** [except Exception]: "Errore imprevisto" *)
| In_attesa
    (** the dialog is open and [valuta_rischio] waits for it *)
| Annullata
    (** the dialog returned [None]: [return] before the result is stored *)
| Successo
    (** [self.dati_export] is set: "Valutazione completata con successo!" *).

(** One click on "Valuta Rischio", followed by what the user does in the
    dialog if it opens. *)
Definition valuta_rischio (self : App) (eventi : list Evento) : App * Esito :=
  let data_valutazione := PyStr.strip (entry_data self) in
  if negb (PyStr.truthy data_valutazione)
  then (self, Avviso "Inserire la data di valutazione!")
  else
    let cliente := PyStr.strip (entry_cliente self) in
    if negb (PyStr.truthy cliente)
    then (self, Avviso "Inserire il nome del cliente!")
    else
      match valuta_calcoli self with
      | Raise ValueError => (self, Errore_input)
      | Raise _ => (self, Errore_imprevisto)
      | Ok d =>
          if (3.5 <? somma d)%float then
            match _mostra_dialog_rischio_rafforzato (somma d) (livello d) eventi with
            | None => (self, In_attesa)
            | Some None => (self, Annullata)
            | Some (Some dichiarazione) =>
                (set_dati_export self (con_dichiarazione d (Some dichiarazione)),
                 Successo)
            end
          else (set_dati_export self (con_dichiarazione d None), Successo)
      end.

(** *** The automatic detection of the client nature *)

(** [self.combo_natura_fallback.set(testo)] *)
Definition set_combo_natura_fallback (self : App) (testo : string) : App :=
  {| entry_data := entry_data self;
     entry_cliente := entry_cliente self;
     entry_titolare := entry_titolare self;
     text_scopo := text_scopo self;
     text_attivita := text_attivita self;
     entry_avvocato := entry_avvocato self;
     combo_prestazione := combo_prestazione self;
     entry_importo := entry_importo self;
     entry_natura_giuridica := entry_natura_giuridica self;
     combo_natura_fallback := testo;
     entry_area_cliente := entry_area_cliente self;
     entry_area_destinazione := entry_area_destinazione self;
     check_b3_incongruo := check_b3_incongruo self;
     check_b3_frazionamenti := check_b3_frazionamenti self;
     check_b3_altro := check_b3_altro self;
     section_vars_A_manual := section_vars_A_manual self;
     section_vars_B_manual := section_vars_B_manual self;
     a1_manual_factors := a1_manual_factors self;
     dati_export := dati_export self |}.

(** [re.sub(r'[.,\-]', '', s)] *)
Fixpoint senza_punteggiatura (s : string) : string :=
  match s with
  | EmptyString => EmptyString
  | String c t =>
      if Ascii.eqb c "." || Ascii.eqb c "," || Ascii.eqb c "-"
      then senza_punteggiatura t
      else String c (senza_punteggiatura t)
  end.

(** The local function [normalizza] of [_auto_detect_natura_giuridica]. *)
Definition normalizza (s : string) : string :=
  senza_punteggiatura (PyStr.strip (PyStr.lower s)).

(** The local function [get_dropdown_text_for_level]: the first key of
    [categorie_manuali.items()] whose value is [livello]. *)
Fixpoint get_dropdown_text_for_level (categorie_manuali : list (string * Z))
    (livello : Z) : string :=
  match categorie_manuali with
  | [] => ""
  | (key, val) :: rest =>
      if val =? livello then key
      else get_dropdown_text_for_level rest livello
  end.

(** The dictionary [livello_text] of the labels: [None] stands for the
    [KeyError] of a level outside 1 to 4. *)
Definition livello_text (livello : Z) : option string :=
  match livello with
  | 1 => Some "NON SIGNIFICATIVO"
  | 2 => Some "POCO SIGNIFICATIVO"
  | 3 => Some "ABBASTANZA SIGNIFICATIVO"
  | 4 => Some "MOLTO SIGNIFICATIVO"
  | _ => None
  end.

(** What [_auto_detect_natura_giuridica] writes into
    [label_natura_livello]. *)
Inductive EtichettaNatura : Type :=
| Natura_rilevato_database (livello : Z) (testo_livello : string)
    (** "RILEVATO AUTOMATICAMENTE - NON SELEZIONARE NULLA DAL MENU A
        TENDINA SOTTOSTANTE: Livello {livello} - {livello_text[livello]}" *)
| Natura_rilevato_keyword (livello : Z) (testo_livello : string)
    (** "RILEVATO AUTOMATICAMENTE: Livello {livello} -
        {livello_text[livello]}" *)
| Natura_nessun_match
    (** "Nessun match automatico - Seleziona manualmente" *).

(** The loop over [database.items()]: the level of the first name whose
    normal form is contained in the normal form of the text. *)
Fixpoint rileva_database (database : list (string * (Z * string)))
    (testo_norm : string) : option Z :=
  match database with
  | [] => None
  | (nome, (lvl, _)) :: rest =>
      if PyStr.contains testo_norm (normalizza nome) then Some lvl
      else rileva_database rest testo_norm
  end.

Fixpoint rileva_keyword_list (keyword_list : list string)
    (testo_norm : string) : bool :=
  match keyword_list with
  | [] => false
  | keyword :: rest =>
      if PyStr.contains testo_norm (normalizza keyword) then true
      else rileva_keyword_list rest testo_norm
  end.

(** The loop over [keywords.items()]. *)
Fixpoint rileva_keywords (keywords : list (Z * list string))
    (testo_norm : string) : option Z :=
  match keywords with
  | [] => None
  | (lvl, keyword_list) :: rest =>
      if rileva_keyword_list keyword_list testo_norm then Some lvl
      else rileva_keywords rest testo_norm
  end.

(** [categorie_manuali] is the list of the items of
    [Config.get_natura_giuridica_categorie_manuali()], in the order of the
    configuration file.  The result is the form with the menu set and the
    label written; [None] when [livello_text[livello]] raises [KeyError],
    which happens before anything is written. *)
Definition _auto_detect_natura_giuridica
    (categorie_manuali : list (string * Z)) (self : App) (testo : string)
  : option (App * EtichettaNatura) :=
  let testo_norm := normalizza testo in
  match rileva_database (get_natura_giuridica_database cfg) testo_norm with
  | Some livello =>
      testo_livello ← livello_text livello;
      let dropdown_text :=
        get_dropdown_text_for_level categorie_manuali livello in
      Some (set_combo_natura_fallback self dropdown_text,
            Natura_rilevato_database livello testo_livello)
  | None =>
      match rileva_keywords (get_natura_giuridica_keywords cfg) testo_norm with
      | Some livello =>
          testo_livello ← livello_text livello;
          let dropdown_text :=
            get_dropdown_text_for_level categorie_manuali livello in
          Some (set_combo_natura_fallback self dropdown_text,
                Natura_rilevato_keyword livello testo_livello)
      | None =>
          Some (set_combo_natura_fallback self "", Natura_nessun_match)
      end
  end.

(** *** The geography fields *)

(** [event.keysym], as far as the handler tells the keys apart. *)
Inductive Tasto : Type :=
| Tasto_Escape
| Tasto_Return
| Tasto_altro.

(** What the handlers write into the label of a geography section. *)
Inductive EtichettaLuogo : Type :=
| Luogo_etichetta_vuota
    (** "" *)
| Luogo_non_trovato
    (** "Luogo non trovato nel database. Inserisci il livello
        manualmente (1-4)" *)
| Luogo_rilevato (livello : Z) (testo_livello : string)
    (** "RILEVATO AUTOMATICAMENTE: Livello {livello} -
        {livello_text[livello]}" *).

(** The widgets of one geography section: the entry, the lines of the
    list box and whether it is packed, the label. *)
Record SezioneLuogo : Type := {
  luogo_entry : string;
  luogo_listbox : list string;
  luogo_listbox_visibile : bool;
  luogo_label : EtichettaLuogo
}.

(** How [_on_location_keyrelease], which has no [try] of its own, ends:
    it returns, or the [KeyError] of a label dictionary leaves it with the
    widgets as they are then. *)
Inductive Gestito : Type :=
| Completato (s : SezioneLuogo)
| Interrotto (s : SezioneLuogo).

(** The dictionary [livello_text] of [_on_location_keyrelease]. *)
Definition livello_text_luogo (livello : Z) : option string :=
  match livello with
  | 1 => Some "BASSO"
  | 2 => Some "MEDIO"
  | 3 => Some "MEDIO-ALTO"
  | 4 => Some "ALTO"
  | _ => None
  end.

(** The loop [for luogo, livello in suggerimenti: listbox.insert(...)]:
    the lines of the list box, and whether [livello_text[livello]] raised
    [KeyError]. *)
Fixpoint inserisci_righe (suggerimenti : list (string * Z))
    (righe : list string) : list string * bool :=
  match suggerimenti with
  | [] => (righe, false)
  | (luogo, livello) :: rest =>
      match livello_text_luogo livello with
      | Some testo_livello =>
          inserisci_righe rest
            (righe ++ [luogo +:+ " [Livello " +:+ PyNum.str_int livello
                             +:+ " - " +:+ testo_livello +:+ "]"])%list
      | None => (righe, true)
      end
  end.

(** [luoghi] is [Config.LUOGHI_RISCHIO_COMPLETO.items()]; [event] is
    [None] when the handler is called without an event. *)
Definition _on_location_keyrelease (luoghi : list (string * Z))
    (event : option Tasto) (s : SezioneLuogo) : Gestito :=
  let nascondi :=
    {| luogo_entry := luogo_entry s; luogo_listbox := luogo_listbox s;
       luogo_listbox_visibile := false; luogo_label := luogo_label s |} in
  match event with
  | Some Tasto_Escape => Completato nascondi
  | Some Tasto_Return => Completato nascondi
  | _ =>
      let testo := luogo_entry s in
      if (String.length testo <? 2)%nat then
        Completato
          {| luogo_entry := luogo_entry s; luogo_listbox := luogo_listbox s;
             luogo_listbox_visibile := false;
             luogo_label := Luogo_etichetta_vuota |}
      else
        let suggerimenti := RiskCalculator.cerca_luogo luoghi testo in
        if PyList.truthy suggerimenti then
          match inserisci_righe suggerimenti [] with
          | (righe, false) =>
              Completato
                {| luogo_entry := luogo_entry s; luogo_listbox := righe;
                   luogo_listbox_visibile := true;
                   luogo_label := luogo_label s |}
          | (righe, true) =>
              Interrotto
                {| luogo_entry := luogo_entry s; luogo_listbox := righe;
                   luogo_listbox_visibile := luogo_listbox_visibile s;
                   luogo_label := luogo_label s |}
          end
        else
          Completato
            {| luogo_entry := luogo_entry s; luogo_listbox := luogo_listbox s;
               luogo_listbox_visibile := false;
               luogo_label := Luogo_non_trovato |}
  end.

(** [selection] is [listbox.curselection()].  The [KeyError] of
    [livello_text[livello]] is caught by the handler: the entry is already
    replaced, the label and the list box stay as they are. *)
Definition _on_location_select (selection : list nat) (s : SezioneLuogo)
  : SezioneLuogo :=
  match selection with
  | [] => s
  | i :: _ =>
      let value := default "" (luogo_listbox s !! i) in
      let luogo := PyStr.split_0 value " [" in
      let livello := RiskCalculator.get_livello_paese cfg luogo in
      match livello_text livello with
      | Some testo_livello =>
          {| luogo_entry := luogo; luogo_listbox := luogo_listbox s;
             luogo_listbox_visibile := false;
             luogo_label := Luogo_rilevato livello testo_livello |}
      | None =>
          {| luogo_entry := luogo; luogo_listbox := luogo_listbox s;
             luogo_listbox_visibile := luogo_listbox_visibile s;
             luogo_label := luogo_label s |}
      end
  end.

End Valutazione.

End AMLRiskApp.

(* ================================================================== *)
(** ** A runtime and a configuration for the examples *)

Module Esempio.

(** Reads [digits] or [digits.digits]: the value and the number of
    decimals. *)
Fixpoint leggi_decimale (s : string) (acc : Z) (dopo_punto : option nat)
    (cifre : nat) : option (Z * nat) :=
  match s with
  | EmptyString =>
      match cifre with
      | O => None
      | _ => Some (acc, default O dopo_punto)
      end
  | String c t =>
      let n := N_of_ascii c in
      if ((48 <=? n) && (n <=? 57))%N then
        leggi_decimale t (10 * acc + Z.of_N (n - 48)) (S <$> dopo_punto) (S cifre)
      else if Ascii.eqb c "." then
        match dopo_punto with
        | None => leggi_decimale t acc (Some O) cifre
        | Some _ => None
        end
      else None
  end.

(** [float(s)] on the numerals [digits] and [digits.digits]; the examples
    give it no other text. *)
Definition float_decimale (s : string) : py float :=
  match leggi_decimale s 0 None O with
  | Some (Zpos n, d) =>
      Ok (PyNum.float_of_ratio false n (Z.to_pos (10 ^ Z.of_nat d)))
  | Some (_, _) => Ok 0%float
  | None => Raise ValueError
  end.

(** Groups of three digits from the right, separated by commas. *)
Fixpoint migliaia (rev_cifre : list ascii) (n : nat) (acc : list ascii)
  : list ascii :=
  match rev_cifre with
  | [] => acc
  | c :: rest =>
      match n with
      | 3%nat => migliaia rest 1 (c :: ","%char :: acc)
      | _ => migliaia rest (S n) (c :: acc)
      end
  end.

Definition due_cifre (z : Z) : string :=
  let t := NilZero.string_of_uint (N.to_uint (Z.to_N z)) in
  if z <? 10 then "0" +:+ t else t.

(** [f"{x:,.2f}"] on a finite [x]. *)
Definition formato_2f (x : float) : string :=
  match Prim2SF x with
  | S754_finite sg m e =>
      let centesimi := PyNum.scaled_round m e 100 in
      let intero := NilZero.string_of_uint (N.to_uint (Z.to_N (centesimi / 100))) in
      (if sg then "-" else "")
        +:+ string_of_list_ascii
              (migliaia (rev (list_ascii_of_string intero)) 0 [])
        +:+ "." +:+ due_cifre (centesimi mod 100)
  | S754_zero sg => (if sg then "-" else "") +:+ "0.00"
  | S754_infinity sg => (if sg then "-" else "") +:+ "inf"
  | S754_nan => "nan"
  end.

#[local] Instance runtime : Runtime :=
  {| py_float := float_decimale; format_2f := formato_2f |}.

Definition sezioni_A : list SectionDef :=
  [ {| sd_name := "A.1 - Natura giuridica";
       sd_factors := ["Struttura opaca"; "Cariche pubbliche"] |};
    {| sd_name := "A.2 - Prevalente attivita svolta";
       sd_factors := ["Uso di contante"; "Settore a rischio"] |};
    {| sd_name := "A.3 - Comportamento tenuto";
       sd_factors := ["Reticenza"; "Scarsa collaborazione"] |} ].

Definition sezioni_B : list SectionDef :=
  [ {| sd_name := "B.1 - Tipologia"; sd_factors := ["Operazione inusuale"] |};
    {| sd_name := "B.2 - Modalita"; sd_factors := ["Contante"; "Interposti"] |} ].

Definition cfg : Config :=
  {| get_sections_A_manual := sezioni_A;
     get_sections_B_manual := sezioni_B;
     get_natura_giuridica_database :=
       [ ("Intesa Sanpaolo", (1, "Banca italiana"));
         ("Generali", (1, "Assicurazione"));
         ("Trust Intesa Fiduciaria", (4, "Trust")) ];
     keywords_livello_1 := ["banca"; "assicurazion"];
     keywords_livello_2 := ["studio"];
     keywords_livello_3 := ["srl"; "snc"];
     keywords_livello_4 := ["trust"; "offshore"];
     get_natura_giuridica_categorie_manuali :=
       {[ "Societa quotata" := 1; "PMI" := 3 ]};
     get_clienti_studio := ["Garage Raw"; "Intesa Immobiliare"];
     LUOGHI_RISCHIO_COMPLETO :=
       {[ "Genova" := 1; "Napoli" := 3; "Milano" := 4 ]};
     get_prestazioni_veda :=
       {[ "Consulenza contrattuale" := 1;
          "Operazioni societarie" := 3;
          "Assistenza continuativa" := 4 ]};
     get_prestazioni_solo_tabella_a := ["Assistenza continuativa"];
     get_soglia_importo := 15000%float |}.

Definition sezione (n : string) (fs : list string) (vs : list bool)
    (lvs : list Z) : SectionVars :=
  {| name := n; factors := fs; vars := vs; level_vars := lvs |}.

(** A filled form: service of level 3, both registry and geography at
    level 4, an amount in the third band, no manual factor selected. *)
Definition app : AMLRiskApp.App :=
  {| AMLRiskApp.entry_data := "03/11/2026";
     AMLRiskApp.entry_cliente := "Trust Intesa Fiduciaria";
     AMLRiskApp.entry_titolare := "Mario Rossi";
     AMLRiskApp.text_scopo := "Acquisto immobile";
     AMLRiskApp.text_attivita := "Fiduciaria";
     AMLRiskApp.entry_avvocato := "Bianchi";
     AMLRiskApp.combo_prestazione := "Operazioni societarie";
     AMLRiskApp.entry_importo := "300000";
     AMLRiskApp.entry_natura_giuridica := "Trust Intesa Fiduciaria";
     AMLRiskApp.combo_natura_fallback := "";
     AMLRiskApp.entry_area_cliente := "milano";
     AMLRiskApp.entry_area_destinazione := "Napoli";
     AMLRiskApp.check_b3_incongruo := false;
     AMLRiskApp.check_b3_frazionamenti := false;
     AMLRiskApp.check_b3_altro := false;
     AMLRiskApp.section_vars_A_manual :=
       AMLRiskApp._create_section_panel_A sezioni_A;
     AMLRiskApp.section_vars_B_manual :=
       AMLRiskApp._create_section_panel_B sezioni_B;
     AMLRiskApp.a1_manual_factors :=
       AMLRiskApp._create_natura_giuridica_section cfg;
     AMLRiskApp.dati_export := None |}.

(** A service scored on table A alone, everything at level 4. *)
Definition app_solo_a : AMLRiskApp.App :=
  {| AMLRiskApp.entry_data := "03/11/2026";
     AMLRiskApp.entry_cliente := "Trust Intesa Fiduciaria";
     AMLRiskApp.entry_titolare := "Mario Rossi";
     AMLRiskApp.text_scopo := "Assistenza";
     AMLRiskApp.text_attivita := "Fiduciaria";
     AMLRiskApp.entry_avvocato := "Bianchi";
     AMLRiskApp.combo_prestazione := "Assistenza continuativa";
     AMLRiskApp.entry_importo := "";
     AMLRiskApp.entry_natura_giuridica := "Trust Intesa Fiduciaria";
     AMLRiskApp.combo_natura_fallback := "";
     AMLRiskApp.entry_area_cliente := "Milano";
     AMLRiskApp.entry_area_destinazione := "";
     AMLRiskApp.check_b3_incongruo := false;
     AMLRiskApp.check_b3_frazionamenti := false;
     AMLRiskApp.check_b3_altro := false;
     AMLRiskApp.section_vars_A_manual :=
       [ sezione "A.2 - Prevalente attivita svolta"
           ["Uso di contante"; "Settore a rischio"] [true; true] [4; 4];
         sezione "A.3 - Comportamento tenuto"
           ["Reticenza"; "Scarsa collaborazione"] [true; false] [4; 1] ];
     AMLRiskApp.section_vars_B_manual :=
       AMLRiskApp._create_section_panel_B sezioni_B;
     AMLRiskApp.a1_manual_factors :=
       AMLRiskApp._create_natura_giuridica_section cfg;
     AMLRiskApp.dati_export := None |}.

(** A service of level 1 and totals 3.5 and 1.0: the specific risk is
    0.45. *)
Definition app_arrotondamento : AMLRiskApp.App :=
  {| AMLRiskApp.entry_data := "03/11/2026";
     AMLRiskApp.entry_cliente := "Intesa Sanpaolo";
     AMLRiskApp.entry_titolare := "";
     AMLRiskApp.text_scopo := "";
     AMLRiskApp.text_attivita := "";
     AMLRiskApp.entry_avvocato := "Bianchi";
     AMLRiskApp.combo_prestazione := "Consulenza contrattuale";
     AMLRiskApp.entry_importo := "";
     AMLRiskApp.entry_natura_giuridica := "Intesa Sanpaolo";
     AMLRiskApp.combo_natura_fallback := "";
     AMLRiskApp.entry_area_cliente := "Genova";
     AMLRiskApp.entry_area_destinazione := "Genova";
     AMLRiskApp.check_b3_incongruo := false;
     AMLRiskApp.check_b3_frazionamenti := false;
     AMLRiskApp.check_b3_altro := false;
     AMLRiskApp.section_vars_A_manual :=
       [ sezione "A.2 - Prevalente attivita svolta"
           ["Uso di contante"; "Settore a rischio"] [true; true] [1; 2];
         sezione "A.3 - Comportamento tenuto"
           ["Reticenza"; "Scarsa collaborazione"] [false; false] [1; 1] ];
     AMLRiskApp.section_vars_B_manual :=
       AMLRiskApp._create_section_panel_B sezioni_B;
     AMLRiskApp.a1_manual_factors :=
       AMLRiskApp._create_natura_giuridica_section cfg;
     AMLRiskApp.dati_export := None |}.

(** A client whose name matches neither the registry nor a keyword. *)
Definition app_sconosciuto : AMLRiskApp.App :=
  {| AMLRiskApp.entry_data := "03/11/2026";
     AMLRiskApp.entry_cliente := "Mario Rossi";
     AMLRiskApp.entry_titolare := "";
     AMLRiskApp.text_scopo := "";
     AMLRiskApp.text_attivita := "";
     AMLRiskApp.entry_avvocato := "Bianchi";
     AMLRiskApp.combo_prestazione := "Operazioni societarie";
     AMLRiskApp.entry_importo := "80000,50";
     AMLRiskApp.entry_natura_giuridica := " Mario Rossi ";
     AMLRiskApp.combo_natura_fallback := "";
     AMLRiskApp.entry_area_cliente := "";
     AMLRiskApp.entry_area_destinazione := "Atlantide";
     AMLRiskApp.check_b3_incongruo := true;
     AMLRiskApp.check_b3_frazionamenti := false;
     AMLRiskApp.check_b3_altro := true;
     AMLRiskApp.section_vars_A_manual :=
       AMLRiskApp._create_section_panel_A sezioni_A;
     AMLRiskApp.section_vars_B_manual :=
       AMLRiskApp._create_section_panel_B sezioni_B;
     AMLRiskApp.a1_manual_factors :=
       AMLRiskApp._create_natura_giuridica_section cfg;
     AMLRiskApp.dati_export := None |}.

(** The items of the dictionary of places of [cfg]. *)
Definition luoghi : list (string * Z) :=
  [ ("Genova", 1); ("Napoli", 3); ("Milano", 4) ].

(** The items of the manual categories of [cfg]. *)
Definition categorie_manuali : list (string * Z) :=
  [ ("Societa quotata", 1); ("PMI", 3) ].

End Esempio.

(* ================================================================== *)
(** ** Vocabulary of the statements *)

(** Whether the selected service is scored on table A alone. *)
Definition solo_tabella_a (cfg : Config) (self : AMLRiskApp.App) : bool :=
  bool_decide (AMLRiskApp.combo_prestazione self
                 ∈ get_prestazioni_solo_tabella_a cfg).

(** The number of boxes ticked among three. *)
Definition conta_spunte (c1 c2 c3 : bool) : Z :=
  Z.b2z c1 + Z.b2z c2 + Z.b2z c3.

(** In a list sorted by [key], [x] can stand before [y]: the key of [y] is
    not smaller than the key of [x]. *)
Definition non_dopo {A K : Type} (key : A -> K) (lt : K -> K -> bool)
    (x y : A) : Prop :=
  lt (key y) (key x) = false.

(** [sub] occurs inside [s]. *)
Definition sottostringa (sub s : string) : Prop :=
  exists pre post, s = pre +:+ sub +:+ post.

(** The level of a suggestion in the ranking, a missing level counting
    as 999. *)
Definition livello_spec (l : option Z) : Z :=
  match l with
  | Some z => z
  | None => 999
  end.

(** The ranking key: client-registry flag, level, name. *)
Definition chiave_spec (x : RiskCalculator.Suggerimento) : bool * Z * string :=
  (RiskCalculator.is_cliente_studio x,
   livello_spec (RiskCalculator.livello x),
   RiskCalculator.nome x).

(** Ascending order on the keys, component by component. *)
Definition chiave_le (a b : bool * Z * string) : Prop :=
  let '(a3, a1, a0) := a in
  let '(b3, b1, b0) := b in
  (a3 = false /\ b3 = true) \/
  (a3 = b3 /\ (a1 < b1 \/ (a1 = b1 /\ String.leb a0 b0 = true))).

(** [x] is ranked no later than [y]. *)
Definition ordine_spec (x y : RiskCalculator.Suggerimento) : Prop :=
  chiave_le (chiave_spec x) (chiave_spec y).

(** The keywords in the order the fallback tries them: level 1 to 4, each
    list in its own order. *)
Definition parole_chiave (cfg : Config) : list (Z * string) :=
  flat_map (fun '(lvl, keyword_list) => map (pair lvl) keyword_list)
           (get_natura_giuridica_keywords cfg).

(** The synthetic suggestion of level [lvl]. *)
Definition categoria (lvl : Z) : RiskCalculator.Suggerimento :=
  {| RiskCalculator.nome := "Categoria: " +:+ RiskCalculator.tipo_generico lvl;
     RiskCalculator.livello := Some lvl;
     RiskCalculator.descrizione := RiskCalculator.tipo_generico lvl;
     RiskCalculator.is_cliente_studio := false |}.

(** [d'] holds the value of [d] in every field but the declaration. *)
Definition stessi_valori (d d' : AMLRiskApp.DatiExport) : Prop :=
  AMLRiskApp.data_valutazione d' = AMLRiskApp.data_valutazione d /\
  AMLRiskApp.cliente d' = AMLRiskApp.cliente d /\
  AMLRiskApp.titolare_effettivo d' = AMLRiskApp.titolare_effettivo d /\
  AMLRiskApp.scopo_operazione d' = AMLRiskApp.scopo_operazione d /\
  AMLRiskApp.descrizione_attivita d' = AMLRiskApp.descrizione_attivita d /\
  AMLRiskApp.rischio_inerente d' = AMLRiskApp.rischio_inerente d /\
  AMLRiskApp.prestazione_veda d' = AMLRiskApp.prestazione_veda d /\
  AMLRiskApp.avvocato d' = AMLRiskApp.avvocato d /\
  AMLRiskApp.importo d' = AMLRiskApp.importo d /\
  AMLRiskApp.total_A d' = AMLRiskApp.total_A d /\
  AMLRiskApp.total_B d' = AMLRiskApp.total_B d /\
  AMLRiskApp.rischio_specifico d' = AMLRiskApp.rischio_specifico d /\
  AMLRiskApp.inerente_ponderato d' = AMLRiskApp.inerente_ponderato d /\
  AMLRiskApp.specifico_ponderato d' = AMLRiskApp.specifico_ponderato d /\
  AMLRiskApp.somma d' = AMLRiskApp.somma d /\
  AMLRiskApp.livello d' = AMLRiskApp.livello d /\
  AMLRiskApp.anomalie d' = AMLRiskApp.anomalie d /\
  AMLRiskApp.sections_A_manual d' = AMLRiskApp.sections_A_manual d /\
  AMLRiskApp.sections_A_auto d' = AMLRiskApp.sections_A_auto d /\
  AMLRiskApp.sections_B_manual d' = AMLRiskApp.sections_B_manual d /\
  AMLRiskApp.sections_B_auto d' = AMLRiskApp.sections_B_auto d /\
  AMLRiskApp.sub_medias_A d' = AMLRiskApp.sub_medias_A d /\
  AMLRiskApp.sub_medias_B d' = AMLRiskApp.sub_medias_B d /\
  AMLRiskApp.usa_solo_tabella_a d' = AMLRiskApp.usa_solo_tabella_a d /\
  AMLRiskApp.num_fattori_a d' = AMLRiskApp.num_fattori_a d.

(** An [int] that converts to a [float]. *)
Definition rappresentabile (z : Z) : Prop := Z.abs z < PyNum.overflow_limit.

(** A manual section as [_create_factors_ui] and its level menus keep it:
    one level variable per box, each between 1 and 4. *)
Definition sezione_regolare (sec : SectionVars) : Prop :=
  length (vars sec) = length (level_vars sec) /\
  Forall (fun z => 1 <= z <= 4) (level_vars sec).

(** Every level of the configuration converts to a [float]. *)
Definition config_regolare (cfg : Config) : Prop :=
  Forall (fun e => rappresentabile (fst (snd e)))
         (get_natura_giuridica_database cfg) /\
  map_Forall (fun _ z => rappresentabile z)
             (get_natura_giuridica_categorie_manuali cfg) /\
  map_Forall (fun _ z => rappresentabile z) (LUOGHI_RISCHIO_COMPLETO cfg) /\
  map_Forall (fun _ z => rappresentabile z) (get_prestazioni_veda cfg).

(** [luoghi] lists the items of the dictionary of places of [cfg]. *)
Definition voci_luoghi (cfg : Config) (luoghi : list (string * Z)) : Prop :=
  NoDup luoghi.*1 /\ list_to_map luoghi = LUOGHI_RISCHIO_COMPLETO cfg.


(** The ranking of the places for the query [q]: the names that start with
    [q] first, then by level, then by name. *)
Definition ordine_luogo (q : string) (x y : string * Z) : Prop :=
  chiave_le (negb (String.prefix q (PyStr.lower (fst x))), snd x, fst x)
            (negb (String.prefix q (PyStr.lower (fst y))), snd y, fst y).

(** The section with the level menu of its factor [i] set to [z]. *)
Definition con_livello (sec : SectionVars) (i : nat) (z : Z) : SectionVars :=
  {| name := name sec; factors := factors sec; vars := vars sec;
     level_vars := <[i := z]> (level_vars sec) |}.


(* ================================================================== *)
(** * Properties *)

(** ** The embedding on values CPython gives *)

(** [round]: 2.675 and 1.005 lie below the decimal tie, 0.125 and 0.375 are
    exact ties and go to the even digit. *)
Example round_esempi :
  PyNum.round 2.675 2 = 2.67%float /\
  PyNum.round 1.005 2 = 1%float /\
  PyNum.round 0.125 2 = 0.12%float /\
  PyNum.round 0.375 2 = 0.38%float /\
  PyNum.round 0.25 1 = 0.2%float /\
  PyNum.round 0.35 1 = 0.3%float /\
  PyNum.round (0.45 * 0.7) 2 = 0.32%float /\
  PyNum.round (-0.001) 2 = (-0)%float.
Proof. repeat split; vm_compute; reflexivity. Qed.

(** [7 / 3], [10 / 4] and [float(3)]. *)
Example int_esempi :
  PyNum.int_truediv 7 3 = Ok 2.3333333333333335%float /\
  PyNum.int_truediv 10 4 = Ok 2.5%float /\
  PyNum.float_of_int 3 = Ok 3%float /\
  PyNum.truediv_int 1.5 0 = Raise ZeroDivisionError.
Proof. repeat split; vm_compute; reflexivity. Qed.

(** [overflow_limit] is the first integer that rounds to infinity; the one
    before it rounds to the largest double. *)
Example overflow_limit_esatto :
  binary_normalize prec emax PyNum.overflow_limit 0 false = S754_infinity false /\
  binary_normalize prec emax (PyNum.overflow_limit - 1) 0 false
    = S754_finite false (2 ^ 53 - 1) 971 /\
  PyNum.float_of_int PyNum.overflow_limit = Raise OverflowError.
Proof. repeat split; vm_compute; reflexivity. Qed.

Example str_esempi :
  PyStr.strip "  Reggio  Emilia  " = "Reggio  Emilia" /\
  PyStr.title "reggio nell'emilia" = "Reggio Nell'Emilia" /\
  PyStr.title "USA" = "Usa" /\
  PyStr.lower "Mario Rossi SRL" = "mario rossi srl" /\
  PyStr.contains "mario rossi srl" "srl" = true /\
  PyStr.contains "srl" "mario rossi srl" = false /\
  PyStr.replace "80000,50" "," "." = "80000.50".
Proof. repeat split. Qed.

(** The query "intesa": the registry entries by level and name, then the
    client-registry entry. *)
Example cerca_intesa :
  map RiskCalculator.nome (RiskCalculator.cerca_natura_giuridica Esempio.cfg "intesa")
    = ["Intesa Sanpaolo"; "Trust Intesa Fiduciaria"; "Intesa Immobiliare"] /\
  map RiskCalculator.is_cliente_studio
      (RiskCalculator.cerca_natura_giuridica Esempio.cfg "intesa")
    = [false; false; true].
Proof. split; vm_compute; reflexivity. Qed.

(** No registry or client name contains the query, the keyword "srl" of
    level 3 is in it. *)
Example cerca_mario_rossi_srl :
  RiskCalculator.cerca_natura_giuridica Esempio.cfg "Mario Rossi SRL"
    = [categoria 3].
Proof. vm_compute. reflexivity. Qed.

(** ** The error monad *)

Lemma bind_Ok {A B : Type} (m : py A) (k : A -> py B) (b : B) :
  (m ≫= k) = Ok b -> exists a, m = Ok a /\ k a = Ok b.
Proof.
  destruct m as [a|e]; simpl; intros Hk.
  - exists a. split; [reflexivity | exact Hk].
  - discriminate Hk.
Qed.

Lemma bind_Ok_l {A B : Type} (a : A) (k : A -> py B) :
  (Ok a ≫= k) = k a.
Proof. reflexivity. Qed.

(** Splits a hypothesis [x ← m; k = Ok b] into [m = Ok x] and [k x = Ok b]. *)
Ltac inv_bind H :=
  let a := fresh "a" in
  let Ha := fresh "Hm" in
  apply bind_Ok in H; destruct H as (a & Ha & H).

(** ** Strings *)

Lemma prefix_spec (p s : string) :
  String.prefix p s = true <-> exists post, s = p +:+ post.
Proof.
  revert s. induction p as [|a p IH]; intros s.
  - destruct s; simpl; split; eauto.
  - destruct s as [|b s]; simpl.
    + split; [discriminate | intros [post Hpost]; discriminate Hpost].
    + destruct (ascii_dec a b) as [->|Hab].
      * rewrite IH. split; intros [post Hpost]; exists post.
        -- now rewrite Hpost.
        -- now injection Hpost.
      * split; [discriminate |].
        intros [post Hpost]. injection Hpost as Hb _. now subst.
Qed.

(** [sub in s] holds exactly when [s] is [pre + sub + post]. *)
Lemma contains_spec (s sub : string) :
  PyStr.contains s sub = true <-> exists pre post, s = pre +:+ sub +:+ post.
Proof.
  induction s as [|c s IH]; cbn [PyStr.contains].
  - rewrite orb_false_r, prefix_spec. split.
    + intros [post Hpost]. now exists "", post.
    + intros (pre & post & Hs). destruct pre; [now exists post | discriminate Hs].
  - rewrite orb_true_iff, prefix_spec, IH. split.
    + intros [[post Hpost] | (pre & post & Hs)].
      * now exists "", post.
      * exists (String c pre), post. cbn. now rewrite Hs.
    + intros (pre & post & Hs). destruct pre as [|c' pre].
      * left. now exists post.
      * right. injection Hs as _ Hs. now exists pre, post.
Qed.

Lemma startswith_contains (s p : string) :
  PyStr.startswith s p = true -> PyStr.contains s p = true.
Proof.
  unfold PyStr.startswith. intros Hp.
  destruct s; cbn [PyStr.contains]; rewrite Hp; reflexivity.
Qed.

(** ** The stable sort *)

Section SortFacts.
Context {A K : Type} (key : A -> K) (lt : K -> K -> bool).

Hypothesis lt_asym : forall a b, lt a b = true -> lt b a = false.
Hypothesis non_dopo_trans : forall x y z,
  non_dopo key lt x y -> non_dopo key lt y z -> non_dopo key lt x z.

Lemma insert_Permutation (x : A) (l : list A) :
  Permutation (PyList.insert key lt x l) (x :: l).
Proof.
  induction l as [|y l IH]; simpl; [reflexivity |].
  destruct (lt (key y) (key x)); [| reflexivity].
  rewrite IH. apply perm_swap.
Qed.

Lemma sort_Permutation (l : list A) : Permutation (PyList.sort key lt l) l.
Proof.
  induction l as [|x l IH]; simpl; [reflexivity |].
  rewrite insert_Permutation. now constructor.
Qed.

Lemma insert_Forall (P : A -> Prop) (x : A) (l : list A) :
  P x -> Forall P l -> Forall P (PyList.insert key lt x l).
Proof.
  intros Hx Hl. induction Hl as [|y l Hy Hl IH]; simpl.
  - now constructor.
  - destruct (lt (key y) (key x)); repeat constructor; assumption.
Qed.

Lemma insert_StronglySorted (x : A) (l : list A) :
  StronglySorted (non_dopo key lt) l ->
  StronglySorted (non_dopo key lt) (PyList.insert key lt x l).
Proof.
  induction 1 as [|y l Hl IH Hy]; simpl.
  - constructor; constructor.
  - destruct (lt (key y) (key x)) eqn:Hyx.
    + constructor; [exact IH |].
      apply insert_Forall; [apply lt_asym, Hyx | exact Hy].
    + constructor; [now constructor |].
      constructor; [exact Hyx |].
      eapply Forall_impl; [exact Hy |].
      intros z Hz. now apply (non_dopo_trans x y z).
Qed.

Lemma sort_StronglySorted (l : list A) :
  StronglySorted (non_dopo key lt) (PyList.sort key lt l).
Proof.
  induction l as [|x l IH]; simpl; [constructor |].
  now apply insert_StronglySorted.
Qed.
End SortFacts.

(** A list sorted for [R] is sorted for any relation that contains [R] on
    its elements. *)
Lemma StronglySorted_on {A : Type} (R R' : A -> A -> Prop) (P : A -> Prop)
    (l : list A) :
  (forall x y, P x -> P y -> R x y -> R' x y) ->
  Forall P l -> StronglySorted R l -> StronglySorted R' l.
Proof.
  intros HR HP Hs. induction Hs as [|x l Hs IH Hx]; [constructor |].
  apply Forall_cons_1 in HP. destruct HP as [Px Pl].
  constructor; [now apply IH |].
  rewrite Forall_forall in Hx, Pl |- *.
  intros y Hy. apply HR; auto.
Qed.

(* ================================================================== *)
(** ** Amount bands *)

(** C7. [calcola_livello_da_importo] is a step function of the amount alone:
    below 50 000 it gives 1, otherwise below 250 000 it gives 2, otherwise
    below 1 000 000 it gives 3, and 4 for every other amount; each threshold
    belongs to the higher band, as the six boundary amounts show. *)
Theorem calcola_livello_da_importo_step (importo : float) :
  ((importo <? 50000)%float = true ->
     RiskCalculator.calcola_livello_da_importo importo = 1) /\
  ((importo <? 50000)%float = false -> (importo <? 250000)%float = true ->
     RiskCalculator.calcola_livello_da_importo importo = 2) /\
  ((importo <? 50000)%float = false -> (importo <? 250000)%float = false ->
   (importo <? 1000000)%float = true ->
     RiskCalculator.calcola_livello_da_importo importo = 3) /\
  ((importo <? 50000)%float = false -> (importo <? 250000)%float = false ->
   (importo <? 1000000)%float = false ->
     RiskCalculator.calcola_livello_da_importo importo = 4) /\
  RiskCalculator.calcola_livello_da_importo 49999.99 = 1 /\
  RiskCalculator.calcola_livello_da_importo 50000 = 2 /\
  RiskCalculator.calcola_livello_da_importo 249999.99 = 2 /\
  RiskCalculator.calcola_livello_da_importo 250000 = 3 /\
  RiskCalculator.calcola_livello_da_importo 999999.99 = 3 /\
  RiskCalculator.calcola_livello_da_importo 1000000 = 4.
Proof.
  unfold RiskCalculator.calcola_livello_da_importo.
  repeat split; try reflexivity.
  - now intros ->.
  - now intros -> ->.
  - now intros -> -> ->.
  - now intros -> -> ->.
Qed.

Lemma calcola_livello_da_importo_range (importo : float) :
  1 <= RiskCalculator.calcola_livello_da_importo importo <= 4.
Proof.
  unfold RiskCalculator.calcola_livello_da_importo.
  repeat destruct (_ <? _)%float; lia.
Qed.

(* ================================================================== *)
(** ** Automatic sections *)

Section AutomaticSections.
Context `{Runtime}.
Variable cfg : Config.

Lemma sezione_area_level_ne_0 (nome_sezione entry : string) :
  a_level (AMLRiskApp.sezione_area cfg nome_sezione entry) <> 0.
Proof.
  unfold AMLRiskApp.sezione_area.
  destruct (PyStr.truthy (PyStr.strip entry)); cbn; [| discriminate].
  destruct (Z.eqb_spec (RiskCalculator.get_livello_paese cfg (PyStr.strip entry)) 0);
    [discriminate | assumption].
Qed.

Lemma sezione_area_level_1 (nome_sezione entry : string) :
  PyStr.strip entry = "" \/
  RiskCalculator.get_livello_paese cfg (PyStr.strip entry) = 0 ->
  a_level (AMLRiskApp.sezione_area cfg nome_sezione entry) = 1.
Proof.
  unfold AMLRiskApp.sezione_area. intros [-> | ->]; [reflexivity |].
  now destruct (PyStr.truthy (PyStr.strip entry)).
Qed.

Lemma sezione_area_name (nome_sezione entry : string) :
  a_name (AMLRiskApp.sezione_area cfg nome_sezione entry) = nome_sezione.
Proof.
  unfold AMLRiskApp.sezione_area.
  now destruct (PyStr.truthy (PyStr.strip entry)).
Qed.

(** The two automatic A sections, A.1 first; the level of A.1 is never 0. *)
Lemma _get_automatic_sections_A_shape (self : AMLRiskApp.App) :
  exists a1,
    AMLRiskApp._get_automatic_sections_A cfg self =
      [ a1; AMLRiskApp.sezione_area cfg "A.4 - Area geografica cliente"
              (AMLRiskApp.entry_area_cliente self) ] /\
    a_name a1 = "A.1 - Natura giuridica" /\
    a_level a1 <> 0.
Proof.
  unfold AMLRiskApp._get_automatic_sections_A.
  destruct (AMLRiskApp.loop_database _ _) as [l0 d0].
  set (l1 := if l0 =? 0 then _ else l0).
  destruct (if l1 =? 0 then _ else (l1, d0)) as [l2 d2].
  destruct (Z.eqb_spec l2 0) as [-> | Hl2];
    eexists; (split; [reflexivity |]); cbn; (split; [reflexivity |]);
    [discriminate | assumption].
Qed.

(** The two automatic B sections, B.3 first, at the unadjusted level of the
    amount or at 0 without an amount. *)
Lemma _get_automatic_sections_B_shape (self : AMLRiskApp.App)
    (importo : option float) :
  exists b3,
    AMLRiskApp._get_automatic_sections_B cfg self importo =
      [ b3; AMLRiskApp.sezione_area cfg "B.6 - Area geografica destinazione"
              (AMLRiskApp.entry_area_destinazione self) ] /\
    a_name b3 = "B.3 - Ammontare operazione" /\
    a_level b3 =
      match importo with
      | Some f => RiskCalculator.calcola_livello_da_importo f
      | None => 0
      end.
Proof.
  unfold AMLRiskApp._get_automatic_sections_B.
  destruct importo; eexists; repeat split.
Qed.

(** C9. An empty geography field, or one whose lookup gives 0, is scored 1
    in A.4 and in B.6, so no geography section has level 0; A.1 never has
    level 0 either, and B.3 has level 0 exactly when the amount is not
    specified: it is the only automatic section that can contribute 0. *)
Theorem geografia_mai_zero (self : AMLRiskApp.App) (importo : option float) :
  exists a1 a4 b3 b6,
    AMLRiskApp._get_automatic_sections_A cfg self = [a1; a4] /\
    AMLRiskApp._get_automatic_sections_B cfg self importo = [b3; b6] /\
    a_name a1 = "A.1 - Natura giuridica" /\
    a_name a4 = "A.4 - Area geografica cliente" /\
    a_name b3 = "B.3 - Ammontare operazione" /\
    a_name b6 = "B.6 - Area geografica destinazione" /\
    (PyStr.strip (AMLRiskApp.entry_area_cliente self) = "" \/
     RiskCalculator.get_livello_paese cfg
       (PyStr.strip (AMLRiskApp.entry_area_cliente self)) = 0 ->
     a_level a4 = 1) /\
    (PyStr.strip (AMLRiskApp.entry_area_destinazione self) = "" \/
     RiskCalculator.get_livello_paese cfg
       (PyStr.strip (AMLRiskApp.entry_area_destinazione self)) = 0 ->
     a_level b6 = 1) /\
    a_level a4 <> 0 /\ a_level b6 <> 0 /\ a_level a1 <> 0 /\
    (a_level b3 = 0 <-> importo = None).
Proof.
  destruct (_get_automatic_sections_A_shape self) as (a1 & HA & Hn1 & Hl1).
  destruct (_get_automatic_sections_B_shape self importo) as (b3 & HB & Hn3 & Hl3).
  exists a1, (AMLRiskApp.sezione_area cfg "A.4 - Area geografica cliente"
                (AMLRiskApp.entry_area_cliente self)),
         b3, (AMLRiskApp.sezione_area cfg "B.6 - Area geografica destinazione"
                (AMLRiskApp.entry_area_destinazione self)).
  repeat match goal with |- _ /\ _ => split end;
    try assumption;
    try apply sezione_area_name;
    try apply sezione_area_level_1;
    try apply sezione_area_level_ne_0.
  rewrite Hl3. destruct importo as [f|]; [| easy].
  pose proof (calcola_livello_da_importo_range f). split; [lia | discriminate].
Qed.

End AutomaticSections.

(* ================================================================== *)
(** ** The computation of valuta_rischio *)

Section Calcoli.
Context `{Runtime}.
Variable cfg : Config.

(** What a successful computation has stored in each field. *)
Lemma valuta_calcoli_Ok (self : AMLRiskApp.App) (d : AMLRiskApp.DatiExport) :
  AMLRiskApp.valuta_calcoli cfg self = Ok d ->
  AMLRiskApp.sections_A_auto d = AMLRiskApp._get_automatic_sections_A cfg self /\
  AMLRiskApp.usa_solo_tabella_a d = solo_tabella_a cfg self /\
  AMLRiskApp.rischio_inerente d =
    default 2 (get_prestazioni_veda cfg !! AMLRiskApp.combo_prestazione self) /\
  RiskCalculator.calcola_totale_sezioni
    (AMLRiskApp.section_vars_A_manual self) (AMLRiskApp.sections_A_auto d)
    = Ok (AMLRiskApp.total_A d, AMLRiskApp.sub_medias_A d) /\
  (solo_tabella_a cfg self = false ->
     AMLRiskApp.sections_B_auto d =
       AMLRiskApp._get_automatic_sections_B cfg self (AMLRiskApp.importo d) /\
     RiskCalculator.calcola_totale_sezioni
       (AMLRiskApp.section_vars_B_manual self) (AMLRiskApp.sections_B_auto d)
       = Ok (AMLRiskApp.total_B d, AMLRiskApp.sub_medias_B d) /\
     AMLRiskApp.rischio_specifico d =
       PyNum.round ((AMLRiskApp.total_A d + AMLRiskApp.total_B d) / 10)%float 2 /\
     AMLRiskApp.num_fattori_a d = 0) /\
  (solo_tabella_a cfg self = true ->
     AMLRiskApp.sections_B_auto d = [] /\
     AMLRiskApp.total_B d = 0%float /\
     AMLRiskApp.sub_medias_B d = [] /\
     AMLRiskApp.num_fattori_a d =
       Z.of_nat (length (AMLRiskApp.sections_A_auto d))
       + Z.of_nat (length (AMLRiskApp.section_vars_A_manual self)) /\
     exists n,
       PyNum.float_of_int (AMLRiskApp.num_fattori_a d) = Ok n /\
       AMLRiskApp.num_fattori_a d <> 0 /\
       AMLRiskApp.rischio_specifico d =
         PyNum.round (AMLRiskApp.total_A d / n)%float 2) /\
  (exists ri,
     PyNum.float_of_int (AMLRiskApp.rischio_inerente d) = Ok ri /\
     AMLRiskApp.inerente_ponderato d = PyNum.round (ri * 0.3)%float 2) /\
  AMLRiskApp.specifico_ponderato d =
    PyNum.round (AMLRiskApp.rischio_specifico d * 0.7)%float 2 /\
  AMLRiskApp.somma d =
    PyNum.round (AMLRiskApp.inerente_ponderato d
                 + AMLRiskApp.specifico_ponderato d)%float 2 /\
  AMLRiskApp.livello d = RiskCalculator.calcola_livello_rischio (AMLRiskApp.somma d) /\
  AMLRiskApp.dichiarazione_rafforzata d = None.
Proof.
  unfold AMLRiskApp.valuta_calcoli. fold (solo_tabella_a cfg self).
  intros Hd.
  inv_bind Hd. rename a into importo.
  inv_bind Hd. destruct a as [tA smA].
  inv_bind Hd. destruct a as [[[tB smB] rs] nf].
  inv_bind Hd. rename a into ri.
  injection Hd as <-.
  cbn [AMLRiskApp.sections_A_auto AMLRiskApp.usa_solo_tabella_a
       AMLRiskApp.rischio_inerente AMLRiskApp.total_A AMLRiskApp.sub_medias_A
       AMLRiskApp.sections_B_auto AMLRiskApp.importo AMLRiskApp.total_B
       AMLRiskApp.sub_medias_B AMLRiskApp.rischio_specifico
       AMLRiskApp.num_fattori_a AMLRiskApp.inerente_ponderato
       AMLRiskApp.specifico_ponderato AMLRiskApp.somma AMLRiskApp.livello
       AMLRiskApp.dichiarazione_rafforzata].
  repeat match goal with |- _ /\ _ => split end;
    try reflexivity; try exact Hm0; try (now exists ri).
  - intros Hs. rewrite Hs in Hm1 |- *. cbn [negb] in *.
    inv_bind Hm1. destruct a as [tB' smB'].
    injection Hm1 as <- <- <- <-. now rewrite Hm3.
  - intros Hs. rewrite Hs in Hm1 |- *. cbn [negb].
    inv_bind Hm1. rename a into q.
    injection Hm1 as <- <- <- <-.
    unfold PyNum.truediv_int in Hm3. inv_bind Hm3. rename a into n.
    destruct (Z.eqb_spec
                (Z.of_nat (length (AMLRiskApp._get_automatic_sections_A cfg self))
                 + Z.of_nat (length (AMLRiskApp.section_vars_A_manual self))) 0)
      as [_ | Hnz]; [discriminate |].
    injection Hm3 as <-.
    repeat split. now exists n.
Qed.

(** C1. In standard mode the specific risk is the sum of the two totals
    divided by the constant 10 and rounded to two decimals, the totals
    being those of [calcola_totale_sezioni] on tables A and B; two forms of
    whatever sections and factors whose totals have the same sum get the
    same specific risk. *)
Theorem rischio_specifico_standard (self : AMLRiskApp.App)
    (d : AMLRiskApp.DatiExport) :
  solo_tabella_a cfg self = false ->
  AMLRiskApp.valuta_calcoli cfg self = Ok d ->
  RiskCalculator.calcola_totale_sezioni
    (AMLRiskApp.section_vars_A_manual self)
    (AMLRiskApp._get_automatic_sections_A cfg self)
    = Ok (AMLRiskApp.total_A d, AMLRiskApp.sub_medias_A d) /\
  RiskCalculator.calcola_totale_sezioni
    (AMLRiskApp.section_vars_B_manual self)
    (AMLRiskApp._get_automatic_sections_B cfg self (AMLRiskApp.importo d))
    = Ok (AMLRiskApp.total_B d, AMLRiskApp.sub_medias_B d) /\
  AMLRiskApp.rischio_specifico d =
    PyNum.round ((AMLRiskApp.total_A d + AMLRiskApp.total_B d) / 10)%float 2 /\
  forall (self' : AMLRiskApp.App) (d' : AMLRiskApp.DatiExport),
    solo_tabella_a cfg self' = false ->
    AMLRiskApp.valuta_calcoli cfg self' = Ok d' ->
    (AMLRiskApp.total_A d' + AMLRiskApp.total_B d')%float
      = (AMLRiskApp.total_A d + AMLRiskApp.total_B d)%float ->
    AMLRiskApp.rischio_specifico d' = AMLRiskApp.rischio_specifico d.
Proof.
  intros Hs Hd.
  destruct (valuta_calcoli_Ok self d Hd)
    as (HA & _ & _ & HtA & Hstd & _).
  destruct (Hstd Hs) as (HB & HtB & Hrs & _).
  rewrite <- HA, <- HB. repeat split; try assumption.
  intros self' d' Hs' Hd' Hsum.
  destruct (valuta_calcoli_Ok self' d' Hd') as (_ & _ & _ & _ & Hstd' & _).
  destruct (Hstd' Hs') as (_ & _ & Hrs' & _).
  now rewrite Hrs', Hrs, Hsum.
Qed.

(** C2. In table-A-only mode no B section is evaluated: the B lists are
    empty and [total_B] is 0 whatever the B part of the form holds, also
    when it changes; the specific risk is [total_A] divided by the number of
    A sections, the two automatic ones plus the manual ones of the form,
    whatever the number of factors inside them. *)
Theorem rischio_specifico_solo_tabella_a (self : AMLRiskApp.App)
    (d : AMLRiskApp.DatiExport) :
  solo_tabella_a cfg self = true ->
  AMLRiskApp.valuta_calcoli cfg self = Ok d ->
  AMLRiskApp.sections_B_auto d = [] /\
  AMLRiskApp.total_B d = 0%float /\
  AMLRiskApp.sub_medias_B d = [] /\
  AMLRiskApp.num_fattori_a d =
    Z.of_nat (length (AMLRiskApp._get_automatic_sections_A cfg self))
    + Z.of_nat (length (AMLRiskApp.section_vars_A_manual self)) /\
  length (AMLRiskApp._get_automatic_sections_A cfg self) = 2%nat /\
  (exists n,
     PyNum.float_of_int (AMLRiskApp.num_fattori_a d) = Ok n /\
     AMLRiskApp.rischio_specifico d =
       PyNum.round (AMLRiskApp.total_A d / n)%float 2) /\
  forall (sezioni_B : list SectionVars) (destinazione : string),
  exists d',
    AMLRiskApp.valuta_calcoli cfg
      (AMLRiskApp.set_tabella_B self sezioni_B destinazione) = Ok d' /\
    AMLRiskApp.sections_B_auto d' = [] /\
    AMLRiskApp.total_A d' = AMLRiskApp.total_A d /\
    AMLRiskApp.total_B d' = 0%float /\
    AMLRiskApp.rischio_specifico d' = AMLRiskApp.rischio_specifico d /\
    AMLRiskApp.somma d' = AMLRiskApp.somma d /\
    AMLRiskApp.livello d' = AMLRiskApp.livello d.
Proof.
  intros Hs Hd.
  destruct (valuta_calcoli_Ok self d Hd) as (HA & _ & _ & _ & _ & Hsolo & _).
  destruct (Hsolo Hs) as (HB & HtB & HsB & Hn & n & Hfn & Hnz & Hrs).
  rewrite HA in Hn.
  repeat match goal with |- _ /\ _ => split end; try assumption.
  - destruct (_get_automatic_sections_A_shape cfg self) as (a1 & -> & _).
    reflexivity.
  - now exists n.
  - intros sezioni_B destinazione.
    set (self' := AMLRiskApp.set_tabella_B self sezioni_B destinazione).
    revert Hd. unfold AMLRiskApp.valuta_calcoli.
    change (bool_decide _) with (solo_tabella_a cfg self).
    change (bool_decide (AMLRiskApp.combo_prestazione self' ∈ _))
      with (solo_tabella_a cfg self).
    change (AMLRiskApp.importo_str self') with (AMLRiskApp.importo_str self).
    change (AMLRiskApp._get_automatic_sections_A cfg self')
      with (AMLRiskApp._get_automatic_sections_A cfg self).
    change (AMLRiskApp.section_vars_A_manual self')
      with (AMLRiskApp.section_vars_A_manual self).
    change (AMLRiskApp.combo_prestazione self')
      with (AMLRiskApp.combo_prestazione self).
    rewrite Hs. cbn [negb].
    intros Hd.
    inv_bind Hd. rename a into importo. rewrite Hm, bind_Ok_l.
    inv_bind Hd. destruct a as [tA smA]. rewrite Hm0, bind_Ok_l.
    inv_bind Hd. destruct a as [[[tB smB] rs] nf]. rewrite Hm1, bind_Ok_l.
    inv_bind Hd. rename a into ri. rewrite Hm2, bind_Ok_l.
    injection Hd as <-.
    eexists. split; [reflexivity |].
    cbn [AMLRiskApp.sections_B_auto AMLRiskApp.total_A AMLRiskApp.total_B
         AMLRiskApp.rischio_specifico AMLRiskApp.somma AMLRiskApp.livello].
    repeat split.
    inv_bind Hm1. now injection Hm1 as <- _ _ _.
Qed.

(** C4, as the code computes it. The weighted sum rounds each weighted
    term to two decimals before adding them and rounds the sum again:
    [somma = round(round(inerente * 0.3, 2) + round(specifico * 0.7, 2), 2)],
    and the band is that of [somma]. For a service of level 3 in standard
    mode with totals 8.0 and 6.0 the specific risk is 1.4, the weighted sum
    1.88 and the band the lowest one. *)
Theorem somma_ponderata_arrotondata (self : AMLRiskApp.App)
    (d : AMLRiskApp.DatiExport) :
  AMLRiskApp.valuta_calcoli cfg self = Ok d ->
  (exists ri,
     PyNum.float_of_int (AMLRiskApp.rischio_inerente d) = Ok ri /\
     AMLRiskApp.somma d =
       PyNum.round
         (PyNum.round (ri * 0.3)%float 2
          + PyNum.round (AMLRiskApp.rischio_specifico d * 0.7)%float 2)%float 2) /\
  AMLRiskApp.livello d =
    RiskCalculator.calcola_livello_rischio (AMLRiskApp.somma d) /\
  (AMLRiskApp.rischio_inerente d = 3 ->
   solo_tabella_a cfg self = false ->
   AMLRiskApp.total_A d = 8%float ->
   AMLRiskApp.total_B d = 6%float ->
   AMLRiskApp.rischio_specifico d = 1.4%float /\
   AMLRiskApp.somma d = 1.88%float /\
   AMLRiskApp.livello d =
     "BASSO/POCO SIGNIFICATIVO - Adeguata Verifica Semplificata").
Proof.
  intros Hd.
  destruct (valuta_calcoli_Ok self d Hd)
    as (_ & _ & _ & _ & Hstd & _ & (ri & Hri & Hip) & Hsp & Hso & Hli & _).
  split; [| split].
  - exists ri. split; [exact Hri |]. now rewrite Hso, Hip, Hsp.
  - exact Hli.
  - intros Hinh Hs HtA HtB.
    destruct (Hstd Hs) as (_ & _ & Hrs & _).
    rewrite HtA, HtB in Hrs.
    rewrite Hinh in Hri. injection Hri as <-.
    assert (Hrs' : AMLRiskApp.rischio_specifico d = 1.4%float)
      by (rewrite Hrs; vm_compute; reflexivity).
    assert (Hso' : AMLRiskApp.somma d = 1.88%float)
      by (rewrite Hso, Hip, Hsp, Hrs'; vm_compute; reflexivity).
    repeat split; [exact Hrs' | exact Hso' |].
    rewrite Hli, Hso'. vm_compute. reflexivity.
Qed.

(** C8. The subjective factors of A.1 are kept apart from the manual A
    sections: changing their boxes and levels changes nothing in the
    computation, in how the evaluation ends, or in what is stored; no
    section built by [_create_section_panel_A] has a name with "A.1", in
    particular none is the definition the A.1 factors come from. *)
Theorem fattori_a1_senza_effetto (self : AMLRiskApp.App)
    (a1 : option SectionVars) (eventi : list AMLRiskApp.Evento) :
  let self' := AMLRiskApp.set_a1_manual_factors self a1 in
  AMLRiskApp.valuta_calcoli cfg self' = AMLRiskApp.valuta_calcoli cfg self /\
  snd (AMLRiskApp.valuta_rischio cfg self' eventi)
    = snd (AMLRiskApp.valuta_rischio cfg self eventi) /\
  AMLRiskApp.dati_export (fst (AMLRiskApp.valuta_rischio cfg self' eventi))
    = AMLRiskApp.dati_export (fst (AMLRiskApp.valuta_rischio cfg self eventi)) /\
  (forall sec,
     In sec (AMLRiskApp._create_section_panel_A (get_sections_A_manual cfg)) ->
     PyStr.contains (name sec) "A.1" = false /\
     PyStr.startswith (name sec) "A.1" = false) /\
  (forall g,
     AMLRiskApp._create_natura_giuridica_section cfg = Some g ->
     exists def,
       In def (get_sections_A_manual cfg) /\
       PyStr.startswith (sd_name def) "A.1" = true /\
       factors g = sd_factors def /\
       forall sec,
         In sec (AMLRiskApp._create_section_panel_A (get_sections_A_manual cfg)) ->
         name sec <> sd_name def).
Proof.
  intros self'.
  assert (Hc : AMLRiskApp.valuta_calcoli cfg self'
               = AMLRiskApp.valuta_calcoli cfg self) by reflexivity.
  assert (Hpanel : forall defs sec,
            In sec (AMLRiskApp._create_section_panel_A defs) ->
            PyStr.contains (name sec) "A.1" = false).
  { induction defs as [|def defs IH]; cbn [AMLRiskApp._create_section_panel_A];
      [intros sec [] |].
    intros sec. destruct (PyStr.contains (sd_name def) "A.1") eqn:Hdef;
      [apply IH |].
    intros [<- | Hin]; [| now apply IH].
    unfold AMLRiskApp.nuova_sezione, AMLRiskApp._create_factors_ui. exact Hdef. }
  assert (Hstart : forall n, PyStr.contains n "A.1" = false ->
                             PyStr.startswith n "A.1" = false).
  { intros n Hn. destruct (PyStr.startswith n "A.1") eqn:Hsw; [| reflexivity].
    apply startswith_contains in Hsw. congruence. }
  repeat match goal with |- _ /\ _ => split end.
  - exact Hc.
  - unfold AMLRiskApp.valuta_rischio. rewrite Hc.
    change (AMLRiskApp.entry_data self') with (AMLRiskApp.entry_data self).
    change (AMLRiskApp.entry_cliente self') with (AMLRiskApp.entry_cliente self).
    repeat case_match; simplify_eq; reflexivity.
  - unfold AMLRiskApp.valuta_rischio. rewrite Hc.
    change (AMLRiskApp.entry_data self') with (AMLRiskApp.entry_data self).
    change (AMLRiskApp.entry_cliente self') with (AMLRiskApp.entry_cliente self).
    repeat case_match; simplify_eq; reflexivity.
  - intros sec Hin. pose proof (Hpanel _ _ Hin). auto.
  - unfold AMLRiskApp._create_natura_giuridica_section.
    intros g Hg.
    assert (Ha1 : forall defs fs, AMLRiskApp.a1_factors defs = Some fs ->
              exists def, In def defs /\
                PyStr.startswith (sd_name def) "A.1" = true /\
                fs = sd_factors def).
    { induction defs as [|def defs IH]; cbn [AMLRiskApp.a1_factors];
        [discriminate |].
      intros fs. destruct (PyStr.startswith (sd_name def) "A.1") eqn:Hsw.
      - intros [= <-]. exists def. repeat split; [now left | exact Hsw].
      - intros Hfs. destruct (IH fs Hfs) as (def' & Hin & Hsw' & ->).
        exists def'. repeat split; [now right | exact Hsw']. }
    destruct (AMLRiskApp.a1_factors (get_sections_A_manual cfg)) as [fs|] eqn:Hfs;
      [| discriminate].
    destruct (Ha1 _ _ Hfs) as (def & Hin & Hsw & ->).
    exists def. repeat split; try assumption.
    + destruct (sd_factors def); [discriminate |]. now injection Hg as <-.
    + intros sec Hsec Heq. apply Hpanel, Hstart in Hsec.
      rewrite Heq in Hsec. congruence.
Qed.

Lemma loop_database_no_match (database : list (string * (Z * string)))
    (natura_text : string) :
  (forall nome lvl desc, In (nome, (lvl, desc)) database ->
     PyStr.contains (PyStr.lower natura_text) (PyStr.lower nome) = false) ->
  AMLRiskApp.loop_database database natura_text = (0, "").
Proof.
  induction database as [|[nome [lvl desc]] rest IH]; intros Hno;
    cbn [AMLRiskApp.loop_database]; [reflexivity |].
  rewrite (Hno nome lvl desc) by now left.
  apply IH. intros n l d' Hin. apply (Hno n l d'). now right.
Qed.

Lemma loop_keyword_list_no_match (lvl : Z) (keyword_list : list string)
    (natura_lower : string) (natura_level : Z) :
  (forall kw, In kw keyword_list -> PyStr.contains natura_lower kw = false) ->
  AMLRiskApp.loop_keyword_list lvl keyword_list natura_lower natura_level
    = natura_level.
Proof.
  induction keyword_list as [|kw rest IH]; intros Hno;
    cbn [AMLRiskApp.loop_keyword_list]; [reflexivity |].
  rewrite (Hno kw) by now left.
  apply IH. intros kw' Hin. apply Hno. now right.
Qed.

Lemma loop_keywords_no_match (keywords : list (Z * list string))
    (natura_lower : string) :
  (forall lvl kws kw, In (lvl, kws) keywords -> In kw kws ->
     PyStr.contains natura_lower kw = false) ->
  AMLRiskApp.loop_keywords keywords natura_lower 0 = 0.
Proof.
  induction keywords as [|[lvl kws] rest IH]; intros Hno;
    cbn [AMLRiskApp.loop_keywords]; [reflexivity |].
  rewrite loop_keyword_list_no_match
    by (intros kw Hkw; apply (Hno lvl kws kw); [now left | exact Hkw]).
  cbn. apply IH. intros l k kw Hin. apply (Hno l k kw). now right.
Qed.

(** The loop over the manual sections adds the average of each section, in
    order, to the total it starts from. *)
Lemma loop_manual_fold (sections : list SectionVars) (t0 : float)
    (sm0 : list Numero) (t : float) (sm : list Numero) :
  RiskCalculator.loop_manual sections (t0, sm0) = Ok (t, sm) ->
  exists medie,
    Forall2 (fun sec m => RiskCalculator.calcola_media_sezione sec = Ok m)
            sections medie /\
    t = fold_left (fun acc m => (acc + m)%float) medie t0 /\
    sm = (sm0 ++ map Float medie)%list.
Proof.
  revert t0 sm0. induction sections as [|sec rest IH]; intros t0 sm0 Hl.
  - cbn in Hl. injection Hl as -> ->. exists [].
    split; [constructor |]. split; [reflexivity | now rewrite app_nil_r].
  - cbn [RiskCalculator.loop_manual fst snd] in Hl. inv_bind Hl.
    cbn [RiskCalculator.add_media] in Hl. rewrite bind_Ok_l in Hl.
    apply IH in Hl. destruct Hl as (medie & Hmedie & -> & ->).
    exists (a :: medie). split; [now constructor |].
    cbn [fold_left map]. split; [reflexivity | now rewrite <- app_assoc].
Qed.

(** C10. When the client-nature text contains no registry name, contains
    no keyword, and no manual category is selected, the automatic section
    A.1 gets level 3 with the text "Livello default - verificare
    manualmente", and this 3 enters [total_A]: the result stored has this
    section first among its automatic A sections, [sub_medias_A] starts
    with 3 and the A.4 level, and [total_A] is 0.0 + 3 + the A.4 level plus
    the averages of the manual sections, added from left to right. *)
Theorem natura_default_livello_3 (self : AMLRiskApp.App) :
  let natura_text := PyStr.strip (AMLRiskApp.entry_natura_giuridica self) in
  let a4 := AMLRiskApp.sezione_area cfg "A.4 - Area geografica cliente"
              (AMLRiskApp.entry_area_cliente self) in
  (forall nome lvl desc,
     In (nome, (lvl, desc)) (get_natura_giuridica_database cfg) ->
     PyStr.contains (PyStr.lower natura_text) (PyStr.lower nome) = false) ->
  (forall lvl kws kw,
     In (lvl, kws) (get_natura_giuridica_keywords cfg) -> In kw kws ->
     PyStr.contains (PyStr.lower natura_text) kw = false) ->
  AMLRiskApp.combo_natura_fallback self = "" ->
  AMLRiskApp._get_automatic_sections_A cfg self =
    [ {| a_name := "A.1 - Natura giuridica";
         a_value := natura_text +:+ " (Livello default - verificare manualmente)";
         a_level := 3 |};
      a4 ] /\
  forall d,
    AMLRiskApp.valuta_calcoli cfg self = Ok d ->
    exists f4 medie,
      PyNum.float_of_int (a_level a4) = Ok f4 /\
      RiskCalculator.loop_manual (AMLRiskApp.section_vars_A_manual self)
        ((0 + 3 + f4)%float, [Int 3; Int (a_level a4)])
        = Ok (AMLRiskApp.total_A d, AMLRiskApp.sub_medias_A d) /\
      Forall2 (fun sec m => RiskCalculator.calcola_media_sezione sec = Ok m)
              (AMLRiskApp.section_vars_A_manual self) medie /\
      AMLRiskApp.sections_A_auto d =
        [ {| a_name := "A.1 - Natura giuridica";
             a_value :=
               natura_text +:+ " (Livello default - verificare manualmente)";
             a_level := 3 |};
          a4 ] /\
      AMLRiskApp.sub_medias_A d =
        Int 3 :: Int (a_level a4) :: map Float medie /\
      AMLRiskApp.total_A d =
        fold_left (fun acc m => (acc + m)%float) medie (0 + 3 + f4)%float.
Proof.
  intros natura_text a4 Hdb Hkw Hcombo.
  assert (HA : AMLRiskApp._get_automatic_sections_A cfg self =
    [ {| a_name := "A.1 - Natura giuridica";
         a_value := natura_text +:+ " (Livello default - verificare manualmente)";
         a_level := 3 |};
      a4 ]).
  { unfold AMLRiskApp._get_automatic_sections_A.
    fold natura_text. rewrite (loop_database_no_match _ _ Hdb).
    cbn [Z.eqb]. rewrite (loop_keywords_no_match _ _ Hkw).
    rewrite Hcombo. reflexivity. }
  split; [exact HA |].
  intros d Hd.
  destruct (valuta_calcoli_Ok self d Hd) as (HAd & _ & _ & Htot & _).
  rewrite HAd, HA in Htot.
  unfold RiskCalculator.calcola_totale_sezioni in Htot.
  inv_bind Htot.
  cbn [RiskCalculator.loop_auto a_level fst snd app] in Hm.
  change (RiskCalculator.add_media 0%float (Int 3))
    with (Ok (0 + 3)%float : py float) in Hm.
  rewrite bind_Ok_l in Hm. inv_bind Hm.
  cbn [RiskCalculator.add_media] in Hm0. inv_bind Hm0.
  injection Hm0 as <-. injection Hm as <-.
  destruct (loop_manual_fold _ _ _ _ _ Htot) as (medie & Hmedie & Ht & Hsm).
  exists a1, medie.
  split; [exact Hm1 |]. split; [exact Htot |]. split; [exact Hmedie |].
  split; [now rewrite HAd |]. split; [exact Hsm | exact Ht].
Qed.

(** C5. Each ticked aggravating box adds 1 to the final B.3 level that
    is displayed, up to 4; the boxes change nothing in the automatic B
    sections, whose B.3 level is the one of [calcola_livello_da_importo], the
    level [total_B] is summed from, and nothing in the computation. *)
Theorem b3_aggravanti_solo_informativi (self : AMLRiskApp.App)
    (c1 c2 c3 : bool) :
  let self' := AMLRiskApp.set_check_b3 self c1 c2 c3 in
  (forall f,
     PyStr.truthy (AMLRiskApp.importo_str self) = true ->
     py_float (AMLRiskApp.importo_str self) = Ok f ->
     AMLRiskApp._aggiorna_b3_livello_finale self' =
       Ok (AMLRiskApp.B3_livelli
             (RiskCalculator.calcola_livello_da_importo f)
             (Z.min (RiskCalculator.calcola_livello_da_importo f
                     + conta_spunte c1 c2 c3) 4)
             (conta_spunte c1 c2 c3))) /\
  (forall importo,
     AMLRiskApp._get_automatic_sections_B cfg self' importo
       = AMLRiskApp._get_automatic_sections_B cfg self importo) /\
  (forall f,
     exists b3 b6,
       AMLRiskApp._get_automatic_sections_B cfg self' (Some f) = [b3; b6] /\
       a_name b3 = "B.3 - Ammontare operazione" /\
       a_level b3 = RiskCalculator.calcola_livello_da_importo f) /\
  (forall d f,
     solo_tabella_a cfg self' = false ->
     AMLRiskApp.valuta_calcoli cfg self' = Ok d ->
     AMLRiskApp.importo d = Some f ->
     exists b3 b6,
       a_level b3 = RiskCalculator.calcola_livello_da_importo f /\
       RiskCalculator.calcola_totale_sezioni
         (AMLRiskApp.section_vars_B_manual self') [b3; b6]
         = Ok (AMLRiskApp.total_B d, AMLRiskApp.sub_medias_B d)) /\
  AMLRiskApp.valuta_calcoli cfg self' = AMLRiskApp.valuta_calcoli cfg self.
Proof.
  intros self'. repeat match goal with |- _ /\ _ => split end.
  - intros f Hstr Hf. unfold AMLRiskApp._aggiorna_b3_livello_finale.
    change (AMLRiskApp.importo_str self') with (AMLRiskApp.importo_str self).
    rewrite Hstr, Hf. cbn [negb].
    now destruct c1, c2, c3.
  - reflexivity.
  - intros f.
    destruct (_get_automatic_sections_B_shape cfg self' (Some f))
      as (b3 & HB & Hn & Hl).
    eauto 6.
  - intros d f Hs Hd Hf.
    destruct (valuta_calcoli_Ok self' d Hd) as (_ & _ & _ & _ & Hstd & _).
    destruct (Hstd Hs) as (HB & Htot & _).
    rewrite Hf in HB.
    destruct (_get_automatic_sections_B_shape cfg self' (Some f))
      as (b3 & HB' & _ & Hl).
    rewrite HB, HB' in Htot. eauto.
  - reflexivity.
Qed.

(** *** The acknowledgement dialog *)

Lemma esegui_Distrutto (somma : float) (livello : string)
    (eventi : list AMLRiskApp.Evento) (r : option AMLRiskApp.Dichiarazione) :
  fold_left (AMLRiskApp.passo somma livello) eventi (AMLRiskApp.Distrutto r)
    = AMLRiskApp.Distrutto r.
Proof. induction eventi as [|e eventi IH]; [reflexivity | exact IH]. Qed.

(** A dialog destroyed with a declaration was open with its box ticked
    when "Confermo e Procedo" was pressed. *)
Lemma dialog_accettato (somma : float) (livello : string)
    (eventi : list AMLRiskApp.Evento) (checkbox_var : bool)
    (dich : AMLRiskApp.Dichiarazione) :
  fold_left (AMLRiskApp.passo somma livello) eventi
    (AMLRiskApp.Aperto checkbox_var) = AMLRiskApp.Distrutto (Some dich) ->
  exists prima adesso dopo,
    eventi = (prima ++ AMLRiskApp.premi_conferma adesso :: dopo)%list /\
    fold_left (AMLRiskApp.passo somma livello) prima
      (AMLRiskApp.Aperto checkbox_var) = AMLRiskApp.Aperto true /\
    dich = {| AMLRiskApp.accepted := true;
              AMLRiskApp.timestamp := adesso;
              AMLRiskApp.d_somma_ponderata := somma;
              AMLRiskApp.d_livello := livello |}.
Proof.
  revert checkbox_var.
  induction eventi as [|e eventi IH]; intros cb Hrun; [discriminate |].
  cbn [fold_left] in Hrun.
  destruct (AMLRiskApp.passo somma livello (AMLRiskApp.Aperto cb) e)
    as [cb' | r] eqn:Hpasso.
  - destruct (IH cb' Hrun) as (prima & adesso & dopo & -> & Hprima & ->).
    exists (e :: prima), adesso, dopo.
    cbn [fold_left]. rewrite Hpasso. repeat split. exact Hprima.
  - rewrite esegui_Distrutto in Hrun. injection Hrun as ->.
    destruct e as [|adesso|[]|[]], cb; try discriminate Hpasso.
    injection Hpasso as <-.
    exists [], adesso, eventi. repeat split.
Qed.

(** C3. Above 3.5 the evaluation waits in the dialog and stores nothing;
    it ends either cancelled, with nothing stored, or with the result
    stored together with a declaration whose [accepted] is true, and then
    "Confermo e Procedo" was pressed while the acceptance box was ticked:
    [self.dati_export] then holds every computed value and that
    declaration. Closing the window or pressing "Annulla" without
    confirming the cancellation, as pressing "Confermo" with the box
    unticked, leaves the dialog open and the evaluation waiting. Whatever
    the user does, an evaluation that ends with a result stored has stored
    it with an accepted declaration, and one that ends otherwise has left
    [self.dati_export] as it was. *)
Theorem accettazione_esplicita (self : AMLRiskApp.App)
    (d : AMLRiskApp.DatiExport) :
  PyStr.truthy (PyStr.strip (AMLRiskApp.entry_data self)) = true ->
  PyStr.truthy (PyStr.strip (AMLRiskApp.entry_cliente self)) = true ->
  AMLRiskApp.valuta_calcoli cfg self = Ok d ->
  (3.5 <? AMLRiskApp.somma d)%float = true ->
  let esegui := AMLRiskApp.esegui_dialog (AMLRiskApp.somma d) (AMLRiskApp.livello d) in
  AMLRiskApp.valuta_rischio cfg self [] = (self, AMLRiskApp.In_attesa) /\
  (forall eventi,
     (exists checkbox_var,
        esegui eventi = AMLRiskApp.Aperto checkbox_var /\
        AMLRiskApp.valuta_rischio cfg self eventi = (self, AMLRiskApp.In_attesa)) \/
     (esegui eventi = AMLRiskApp.Distrutto None /\
      AMLRiskApp.valuta_rischio cfg self eventi = (self, AMLRiskApp.Annullata)) \/
     (exists prima adesso dopo dich,
        eventi = (prima ++ AMLRiskApp.premi_conferma adesso :: dopo)%list /\
        esegui prima = AMLRiskApp.Aperto true /\
        dich = {| AMLRiskApp.accepted := true;
                  AMLRiskApp.timestamp := adesso;
                  AMLRiskApp.d_somma_ponderata := AMLRiskApp.somma d;
                  AMLRiskApp.d_livello := AMLRiskApp.livello d |} /\
        AMLRiskApp.valuta_rischio cfg self eventi =
          (AMLRiskApp.set_dati_export self
             (AMLRiskApp.con_dichiarazione d (Some dich)),
           AMLRiskApp.Successo) /\
        exists memorizzato,
          AMLRiskApp.dati_export (fst (AMLRiskApp.valuta_rischio cfg self eventi))
            = Some memorizzato /\
          AMLRiskApp.dichiarazione_rafforzata memorizzato = Some dich /\
          AMLRiskApp.accepted dich = true /\
          stessi_valori d memorizzato)) /\
  (forall eventi,
     (snd (AMLRiskApp.valuta_rischio cfg self eventi) = AMLRiskApp.Successo ->
      exists memorizzato dich,
        AMLRiskApp.dati_export (fst (AMLRiskApp.valuta_rischio cfg self eventi))
          = Some memorizzato /\
        AMLRiskApp.dichiarazione_rafforzata memorizzato = Some dich /\
        AMLRiskApp.accepted dich = true /\
        AMLRiskApp.d_somma_ponderata dich = AMLRiskApp.somma d /\
        stessi_valori d memorizzato) /\
     (snd (AMLRiskApp.valuta_rischio cfg self eventi) <> AMLRiskApp.Successo ->
      AMLRiskApp.dati_export (fst (AMLRiskApp.valuta_rischio cfg self eventi))
        = AMLRiskApp.dati_export self)) /\
  (forall eventi checkbox_var e,
     esegui eventi = AMLRiskApp.Aperto checkbox_var ->
     e = AMLRiskApp.chiudi_finestra false \/
     e = AMLRiskApp.premi_annulla false \/
     (checkbox_var = false /\ exists adesso, e = AMLRiskApp.premi_conferma adesso) ->
     esegui (eventi ++ [e])%list = AMLRiskApp.Aperto checkbox_var /\
     AMLRiskApp.valuta_rischio cfg self (eventi ++ [e])%list
       = (self, AMLRiskApp.In_attesa)).
Proof.
  intros Hdata Hcliente Hd Hsomma esegui.
  assert (Hv : forall eventi,
    AMLRiskApp.valuta_rischio cfg self eventi =
      match esegui eventi with
      | AMLRiskApp.Aperto _ => (self, AMLRiskApp.In_attesa)
      | AMLRiskApp.Distrutto None => (self, AMLRiskApp.Annullata)
      | AMLRiskApp.Distrutto (Some dich) =>
          (AMLRiskApp.set_dati_export self
             (AMLRiskApp.con_dichiarazione d (Some dich)),
           AMLRiskApp.Successo)
      end).
  { intros eventi. unfold AMLRiskApp.valuta_rischio.
    rewrite Hdata, Hcliente, Hd, Hsomma. cbn [negb].
    unfold AMLRiskApp._mostra_dialog_rischio_rafforzato. fold esegui.
    now destruct (esegui eventi) as [cb | [dich|]]. }
  assert (Hvalori : forall dich,
    stessi_valori d (AMLRiskApp.con_dichiarazione d (Some dich)))
    by (intros dich; unfold stessi_valori; cbn; tauto).
  split; [| split; [| split]].
  - now rewrite Hv.
  - intros eventi. rewrite Hv.
    destruct (esegui eventi) as [cb | [dich|]] eqn:Hrun.
    + left. now exists cb.
    + right; right.
      destruct (dialog_accettato _ _ _ _ _ Hrun)
        as (prima & adesso & dopo & Hev & Hprima & Hdich).
      exists prima, adesso, dopo, dich.
      repeat (split; [assumption || reflexivity |]).
      exists (AMLRiskApp.con_dichiarazione d (Some dich)).
      cbn [fst AMLRiskApp.set_dati_export AMLRiskApp.dati_export].
      split; [reflexivity |]. split; [reflexivity |].
      split; [now rewrite Hdich | apply Hvalori].
    + right; left. now split.
  - intros eventi. rewrite Hv.
    destruct (esegui eventi) as [cb | [dich|]] eqn:Hrun; cbn [fst snd];
      (split; [intros Hs; try discriminate Hs | intros Hs; try reflexivity]).
    + destruct (dialog_accettato _ _ _ _ _ Hrun)
        as (prima & adesso & dopo & Hev & Hprima & Hdich).
      exists (AMLRiskApp.con_dichiarazione d (Some dich)), dich.
      cbn [AMLRiskApp.set_dati_export AMLRiskApp.dati_export].
      split; [reflexivity |]. split; [reflexivity |].
      split; [now rewrite Hdich |]. split; [now rewrite Hdich | apply Hvalori].
    + now destruct Hs.
  - intros eventi cb e Hrun He.
    assert (Hrun' : esegui (eventi ++ [e])%list = AMLRiskApp.Aperto cb).
    { unfold esegui, AMLRiskApp.esegui_dialog in *.
      rewrite fold_left_app, Hrun. cbn [fold_left].
      destruct He as [-> | [-> | [-> [adesso ->]]]]; reflexivity. }
    split; [exact Hrun' |]. now rewrite Hv, Hrun'.
Qed.

End Calcoli.

(* ================================================================== *)
(** ** Entity search *)

Section Ricerca.
Import RiskCalculator.

(** *** The order of the keys *)

Lemma string_ltb_leb (a b : string) :
  String.ltb b a = false <-> String.leb a b = true.
Proof.
  unfold String.ltb, String.leb. rewrite (String.compare_antisym a b).
  destruct (String.compare b a); cbn; split; congruence.
Qed.

Lemma string_leb_trans (a b c : string) :
  String.leb a b = true -> String.leb b c = true -> String.leb a c = true.
Proof.
  intros Hab Hbc. apply Is_true_true.
  apply Is_true_true in Hab, Hbc.
  exact (transitivity (R := String.le) Hab Hbc).
Qed.

Lemma chiave_ltb_false (a b : bool * Z * string) :
  chiave_ltb b a = false <-> chiave_le a b.
Proof.
  destruct a as [[a3 a1] a0], b as [[b3 b1] b0].
  unfold chiave_ltb, chiave_le, bool_ltb.
  destruct a3, b3; cbn [negb andb];
    destruct (Z.ltb_spec b1 a1), (Z.ltb_spec a1 b1);
    try rewrite string_ltb_leb;
    intuition (try congruence; try lia).
Qed.

Lemma chiave_le_trans (a b c : bool * Z * string) :
  chiave_le a b -> chiave_le b c -> chiave_le a c.
Proof.
  destruct a as [[a3 a1] a0], b as [[b3 b1] b0], c as [[c3 c1] c0].
  unfold chiave_le.
  intros [[-> ->] | [-> Hab]] [[Hb ->] | [-> Hbc]];
    try discriminate; try (left; now split).
  right. split; [reflexivity |].
  destruct Hab as [Hab | [-> Hab]], Hbc as [Hbc | [<- Hbc]];
    try (left; lia).
  right. split; [reflexivity |]. now apply (string_leb_trans a0 b0 c0).
Qed.

Lemma chiave_ltb_asym (a b : bool * Z * string) :
  chiave_ltb a b = true -> chiave_ltb b a = false.
Proof.
  destruct a as [[a3 a1] a0], b as [[b3 b1] b0].
  unfold chiave_ltb, bool_ltb.
  destruct a3, b3; cbn [negb andb];
    destruct (Z.ltb_spec b1 a1), (Z.ltb_spec a1 b1);
    try congruence; try lia;
    unfold String.ltb; rewrite (String.compare_antisym a0 b0);
    destruct (String.compare b0 a0); cbn; congruence.
Qed.

(** The sort of the code ranks by [chiave]. *)
Lemma sort_chiave_sorted (l : list Suggerimento) :
  StronglySorted (fun x y => chiave_le (chiave x) (chiave y))
                 (PyList.sort chiave chiave_ltb l).
Proof.
  apply (StronglySorted_on (non_dopo chiave chiave_ltb) _ (fun _ => True)).
  - intros x y _ _. apply chiave_ltb_false.
  - apply Forall_forall. intros; exact I.
  - apply sort_StronglySorted.
    + apply chiave_ltb_asym.
    + intros x y z Hxy Hyz. unfold non_dopo in *.
      rewrite chiave_ltb_false in *. now apply (chiave_le_trans _ (chiave y)).
Qed.

(** With a level other than 0 the key of the code is the ranking key. *)
Lemma chiave_chiave_spec (x : Suggerimento) :
  livello x <> Some 0 -> chiave x = chiave_spec x.
Proof.
  unfold chiave, chiave_spec, livello_o_999, livello_spec.
  destruct (livello x) as [z|]; [| reflexivity].
  intros Hz. destruct (Z.eqb_spec z 0) as [-> | _]; [now destruct Hz | reflexivity].
Qed.

(** *** The three tiers *)

Variable cfg : Config.

Lemma risultati_database_In (q : string) (x : Suggerimento) :
  In x (risultati_database cfg q) <->
  exists n lvl d,
    In (n, (lvl, d)) (get_natura_giuridica_database cfg) /\
    sottostringa q (PyStr.lower n) /\
    x = {| nome := n; livello := Some lvl; descrizione := d;
           is_cliente_studio := false |}.
Proof.
  unfold risultati_database, sottostringa.
  rewrite <- list_elem_of_In, list_elem_of_omap. split.
  - intros ([n [lvl d]] & Hin & Hx). apply list_elem_of_In in Hin.
    destruct (PyStr.contains (PyStr.lower n) q) eqn:Hc; [| discriminate].
    injection Hx as <-. apply contains_spec in Hc. now exists n, lvl, d.
  - intros (n & lvl & d & Hin & Hc & ->). exists (n, (lvl, d)).
    apply list_elem_of_In in Hin. apply contains_spec in Hc.
    split; [exact Hin | now rewrite Hc].
Qed.

Lemma risultati_clienti_In (q : string) (x : Suggerimento) :
  In x (risultati_clienti cfg q) <->
  exists c,
    In c (get_clienti_studio cfg) /\
    sottostringa q (PyStr.lower c) /\
    x = {| nome := c; livello := None; descrizione := "Cliente studio";
           is_cliente_studio := true |}.
Proof.
  unfold risultati_clienti, sottostringa.
  rewrite <- list_elem_of_In, list_elem_of_omap. split.
  - intros (c & Hin & Hx). apply list_elem_of_In in Hin.
    destruct (PyStr.contains (PyStr.lower c) q) eqn:Hc; [| discriminate].
    injection Hx as <-. apply contains_spec in Hc. now exists c.
  - intros (c & Hin & Hc & ->). exists c.
    apply list_elem_of_In in Hin. apply contains_spec in Hc.
    split; [exact Hin | now rewrite Hc].
Qed.

Lemma not_contains_spec (s sub : string) :
  PyStr.contains s sub = false <-> ~ sottostringa sub s.
Proof.
  unfold sottostringa. rewrite <- contains_spec.
  destruct (PyStr.contains s sub); split; congruence.
Qed.

(** The inner loop stops at the first keyword found in the query. *)
Lemma loop_keyword_spec (lvl : Z) (keyword_list : list string) (q : string) :
  (loop_keyword lvl keyword_list q = [] /\
   forall kw, In kw keyword_list -> ~ sottostringa kw q) \/
  (exists prima kw dopo,
     keyword_list = (prima ++ kw :: dopo)%list /\
     (forall k, In k prima -> ~ sottostringa k q) /\
     sottostringa kw q /\
     loop_keyword lvl keyword_list q = [categoria lvl]).
Proof.
  induction keyword_list as [|kw rest IH]; cbn [loop_keyword].
  - left. split; [reflexivity | intros kw []].
  - destruct (PyStr.contains q kw) eqn:Hkw.
    + right. exists [], kw, rest. apply contains_spec in Hkw.
      repeat split; [intros k [] | exact Hkw].
    + apply not_contains_spec in Hkw.
      destruct IH as [[Hnil Hno] | (prima & k & dopo & -> & Hprima & Hk & Hres)].
      * left. split; [exact Hnil |]. intros k [<- | Hin]; auto.
      * right. exists (kw :: prima), k, dopo.
        repeat split; try assumption.
        intros k' [<- | Hin]; auto.
Qed.

(** The outer loop tries the levels in order and stops at the first
    keyword found. *)
Lemma loop_livelli_spec (keywords : list (Z * list string)) (q : string) :
  let parole :=
    flat_map (fun '(lvl, keyword_list) => map (pair lvl) keyword_list) keywords in
  (loop_livelli keywords q = [] /\
   forall lvl kw, In (lvl, kw) parole -> ~ sottostringa kw q) \/
  (exists prima lvl kw dopo,
     parole = (prima ++ (lvl, kw) :: dopo)%list /\
     (forall p, In p prima -> ~ sottostringa (snd p) q) /\
     sottostringa kw q /\
     loop_livelli keywords q = [categoria lvl]).
Proof.
  induction keywords as [|[lvl kws] rest IH]; cbn [loop_livelli flat_map].
  - left. split; [reflexivity | intros lvl kw []].
  - destruct (loop_keyword_spec lvl kws q)
      as [[Hnil Hno] | (prima & kw & dopo & -> & Hprima & Hkw & Hres)].
    + rewrite Hnil.
      assert (Hno' : forall p, In p (map (pair lvl) kws) -> ~ sottostringa (snd p) q).
      { intros p Hp. apply in_map_iff in Hp. destruct Hp as (k & <- & Hk).
        now apply Hno. }
      destruct IH as [[Hnil' Hrest] | (prima & l & kw & dopo & Hpar & Hprima & Hkw & Hres)].
      * left. split; [exact Hnil' |]. intros l kw Hin.
        apply in_app_or in Hin. destruct Hin as [Hin | Hin];
          [exact (Hno' _ Hin) | exact (Hrest _ _ Hin)].
      * right. exists (map (pair lvl) kws ++ prima)%list, l, kw, dopo.
        repeat split; try assumption.
        -- rewrite Hpar. now rewrite <- app_assoc.
        -- intros p Hp. apply in_app_or in Hp. destruct Hp; auto.
    + right. rewrite Hres.
      exists (map (pair lvl) prima), lvl, kw,
             (map (pair lvl) dopo ++
              flat_map (fun '(l, ks) => map (pair l) ks) rest)%list.
      repeat split; try assumption.
      * rewrite map_app, <- app_assoc. reflexivity.
      * intros p Hp. apply in_map_iff in Hp. destruct Hp as (k & <- & Hk).
        now apply Hprima.
Qed.

Lemma parole_chiave_livello (lvl : Z) (kw : string) :
  In (lvl, kw) (parole_chiave cfg) -> 1 <= lvl <= 4.
Proof.
  unfold parole_chiave, get_natura_giuridica_keywords. cbn [flat_map].
  rewrite !in_app_iff, !in_map_iff.
  intros [H | [H | [H | [H | []]]]]; destruct H as (k & [= <- _] & _); lia.
Qed.

(** C6. The query is the text in lower case, stripped. Shorter than two
    characters it gives no result. Otherwise the registry names and the
    client-registry names that contain the query are both collected and
    merged; only when there is none of either, the keywords are tried from
    level 1 to level 4 and the first one contained in the query gives the
    one synthetic suggestion of its level. The candidates are sorted by
    (client-registry flag, level with a missing level as 999, name), all
    ascending, and the first ten are returned. The registry levels are those
    of the data model, none of them 0. *)
Theorem cerca_natura_giuridica_tiers (testo : string) :
  Forall (fun e => fst (snd e) <> 0) (get_natura_giuridica_database cfg) ->
  let q := PyStr.strip (PyStr.lower testo) in
  let registro := risultati_database cfg q in
  let clienti := risultati_clienti cfg q in
  let parole := loop_livelli (get_natura_giuridica_keywords cfg) q in
  let candidati :=
    match (registro ++ clienti)%list with
    | [] => parole
    | trovati => trovati
    end in
  ((String.length q < 2)%nat -> cerca_natura_giuridica cfg testo = []) /\
  ((2 <= String.length q)%nat ->
     exists ordinati,
       cerca_natura_giuridica cfg testo = firstn 10 ordinati /\
       Permutation ordinati candidati /\
       StronglySorted ordine_spec ordinati) /\
  (length (cerca_natura_giuridica cfg testo) <= 10)%nat /\
  (forall x,
     In x registro <->
     exists n lvl d,
       In (n, (lvl, d)) (get_natura_giuridica_database cfg) /\
       sottostringa q (PyStr.lower n) /\
       x = {| nome := n; livello := Some lvl; descrizione := d;
              is_cliente_studio := false |}) /\
  (forall x,
     In x clienti <->
     exists c,
       In c (get_clienti_studio cfg) /\
       sottostringa q (PyStr.lower c) /\
       x = {| nome := c; livello := None; descrizione := "Cliente studio";
              is_cliente_studio := true |}) /\
  ((parole = [] /\
    forall lvl kw, In (lvl, kw) (parole_chiave cfg) -> ~ sottostringa kw q) \/
   (exists prima lvl kw dopo,
      parole_chiave cfg = (prima ++ (lvl, kw) :: dopo)%list /\
      (forall p, In p prima -> ~ sottostringa (snd p) q) /\
      sottostringa kw q /\
      parole = [categoria lvl])).
Proof.
  intros Hdb q registro clienti parole candidati.
  assert (Hcerca : cerca_natura_giuridica cfg testo =
            if (String.length q <? 2)%nat then []
            else firstn 10 (PyList.sort chiave chiave_ltb candidati)).
  { unfold cerca_natura_giuridica. fold q. fold registro clienti parole.
    unfold candidati, PyList.slice_to.
    now destruct (registro ++ clienti)%list. }
  pose proof (loop_livelli_spec (get_natura_giuridica_keywords cfg) q) as Hparole.
  cbn zeta in Hparole. fold parole (parole_chiave cfg) in Hparole.
  repeat match goal with |- _ /\ _ => split end.
  - intros Hq. apply Nat.ltb_lt in Hq. now rewrite Hcerca, Hq.
  - intros Hq. apply Nat.ltb_ge in Hq. rewrite Hcerca, Hq.
    exists (PyList.sort chiave chiave_ltb candidati).
    split; [reflexivity |]. split; [apply sort_Permutation |].
    apply (StronglySorted_on (fun x y => chiave_le (chiave x) (chiave y)) _
             (fun x => livello x <> Some 0)).
    + intros x y Hx Hy. unfold ordine_spec.
      now rewrite (chiave_chiave_spec x Hx), (chiave_chiave_spec y Hy).
    + eapply Permutation_Forall; [symmetry; apply sort_Permutation |].
      apply Forall_forall. intros x Hx. apply list_elem_of_In in Hx.
      unfold candidati in Hx.
      assert (Hx' : In x (registro ++ clienti)%list \/ In x parole).
      { revert Hx. generalize (registro ++ clienti)%list.
        intros [|y l] Hx; [right | left]; exact Hx. }
      destruct Hx' as [Hx' | Hx'].
      * apply in_app_or in Hx'. destruct Hx' as [Hr | Hc].
        -- apply risultati_database_In in Hr.
           destruct Hr as (n & lvl & d & Hin & _ & ->). cbn.
           rewrite Forall_forall in Hdb. apply list_elem_of_In in Hin.
           specialize (Hdb _ Hin). cbn in Hdb.
           congruence.
        -- apply risultati_clienti_In in Hc.
           destruct Hc as (c & _ & _ & ->). discriminate.
      * destruct Hparole as [[Hnil _] | (prima & lvl & kw & dopo & Hpar & _ & _ & Hres)].
        -- rewrite Hnil in Hx'. destruct Hx'.
        -- rewrite Hres in Hx'. destruct Hx' as [<- | []]. cbn.
           assert (Hin : In (lvl, kw) (parole_chiave cfg))
             by (rewrite Hpar; apply in_elt).
           apply parole_chiave_livello in Hin. intros [= ->]. lia.
    + apply sort_chiave_sorted.
  - rewrite Hcerca. destruct (String.length q <? 2)%nat; cbn [length]; [lia |].
    apply firstn_le_length.
  - apply risultati_database_In.
  - apply risultati_clienti_In.
  - exact Hparole.
Qed.

End Ricerca.

(* ================================================================== *)
(** ** The computation returns *)

Section Totale.
Context `{Runtime}.
Variable cfg : Config.

Lemma overflow_limit_gt : 2 ^ 64 < PyNum.overflow_limit.
Proof. vm_compute. reflexivity. Qed.

Lemma rappresentabile_small (z : Z) : Z.abs z <= 2 ^ 64 -> rappresentabile z.
Proof. unfold rappresentabile. pose proof overflow_limit_gt. lia. Qed.

Lemma float_of_int_Ok (z : Z) :
  rappresentabile z -> exists f, PyNum.float_of_int z = Ok f.
Proof.
  unfold rappresentabile, PyNum.float_of_int. intros Hz.
  destruct (Z.leb_spec PyNum.overflow_limit (Z.abs z)); [lia | eauto].
Qed.

Lemma sum_bounds (l : list Z) (acc : Z) :
  Forall (fun z => 1 <= z <= 4) l ->
  acc + Z.of_nat (length l) <= fold_left Z.add l acc
    <= acc + 4 * Z.of_nat (length l).
Proof.
  intros Hl. revert acc. induction Hl as [|z l Hz Hl IH]; intros acc.
  - cbn. lia.
  - cbn [fold_left length]. specialize (IH (acc + z)). lia.
Qed.

Lemma selected_levels_from_Ok (i : nat) (vs : list bool) (lvs : list Z) :
  (i + length vs <= length lvs)%nat ->
  Forall (fun z => 1 <= z <= 4) lvs ->
  exists sel,
    RiskCalculator.selected_levels_from i vs lvs = Ok sel /\
    Forall (fun z => 1 <= z <= 4) sel.
Proof.
  intros Hlen Hl. revert i Hlen.
  induction vs as [|var vs IH]; intros i Hlen;
    cbn [RiskCalculator.selected_levels_from].
  - exists []. split; [reflexivity | constructor].
  - cbn [length] in Hlen.
    destruct (IH (S i)) as (rest & Hrest & Hall); [lia |].
    destruct var; [| now exists rest].
    destruct (lookup_lt_is_Some_2 lvs i) as [lv Hlv]; [lia |].
    rewrite Hlv, Hrest. exists (lv :: rest). split; [reflexivity |].
    constructor; [| exact Hall].
    rewrite Forall_forall in Hl. apply Hl. eapply list_elem_of_lookup_2, Hlv.
Qed.

Lemma calcola_media_sezione_Ok (sec : SectionVars) :
  sezione_regolare sec ->
  exists m, RiskCalculator.calcola_media_sezione sec = Ok m.
Proof.
  intros [Hlen Hl]. unfold RiskCalculator.calcola_media_sezione.
  destruct (selected_levels_from_Ok 0 (vars sec) (level_vars sec))
    as (sel & -> & Hsel); [lia | exact Hl |].
  rewrite bind_Ok_l. destruct sel as [|z sel]; [eauto |].
  unfold PyNum.int_truediv.
  pose proof (sum_bounds (z :: sel) 0 Hsel) as Hsum. fold (PyNum.sum (z :: sel)) in Hsum.
  pose proof overflow_limit_gt as Hlim.
  assert (Hpos : Z.pos (Pos.of_nat (length (z :: sel))) = Z.of_nat (length (z :: sel)))
    by (cbn [length]; lia).
  rewrite Hpos.
  destruct (Z.leb_spec (PyNum.overflow_limit * Z.of_nat (length (z :: sel)))
                       (Z.abs (PyNum.sum (z :: sel)))) as [Hle | _];
    [| rewrite bind_Ok_l; eauto].
  cbn [length] in *. nia.
Qed.

Lemma loop_manual_Ok (sections : list SectionVars) (acc : float * list Numero) :
  Forall sezione_regolare sections ->
  exists r, RiskCalculator.loop_manual sections acc = Ok r.
Proof.
  intros Hs. revert acc. induction Hs as [|sec sections Hsec Hs IH]; intros acc;
    cbn [RiskCalculator.loop_manual]; [eauto |].
  destruct (calcola_media_sezione_Ok sec Hsec) as (m & ->).
  rewrite bind_Ok_l. cbn [RiskCalculator.add_media]. rewrite bind_Ok_l. apply IH.
Qed.

Lemma loop_auto_Ok (auto_sections : list AutoSection) (acc : float * list Numero) :
  Forall (fun sec => rappresentabile (a_level sec)) auto_sections ->
  exists r, RiskCalculator.loop_auto auto_sections acc = Ok r.
Proof.
  intros Hs. revert acc. induction Hs as [|sec rest Hsec Hs IH]; intros acc;
    cbn [RiskCalculator.loop_auto]; [eauto |].
  cbn [RiskCalculator.add_media].
  destruct (float_of_int_Ok _ Hsec) as (f & ->).
  rewrite !bind_Ok_l. apply IH.
Qed.

Lemma calcola_totale_sezioni_Ok (sections : list SectionVars)
    (auto_sections : list AutoSection) :
  Forall sezione_regolare sections ->
  Forall (fun sec => rappresentabile (a_level sec)) auto_sections ->
  exists totale sub_medias,
    RiskCalculator.calcola_totale_sezioni sections auto_sections
      = Ok (totale, sub_medias).
Proof.
  intros Hs Ha. unfold RiskCalculator.calcola_totale_sezioni.
  destruct (loop_auto_Ok auto_sections (0%float, []) Ha) as (acc & ->).
  rewrite bind_Ok_l.
  destruct (loop_manual_Ok sections acc Hs) as ([totale sub_medias] & ->).
  eauto.
Qed.

Lemma rappresentabile_1_4 (z : Z) : 0 <= z <= 4 -> rappresentabile z.
Proof. intros Hz. apply rappresentabile_small. lia. Qed.

Lemma loop_database_rappresentabile (database : list (string * (Z * string)))
    (natura_text : string) :
  Forall (fun e => rappresentabile (fst (snd e))) database ->
  rappresentabile (fst (AMLRiskApp.loop_database database natura_text)).
Proof.
  induction 1 as [|[nome [lvl desc]] rest Hlvl Hrest IH];
    cbn [AMLRiskApp.loop_database].
  - apply rappresentabile_1_4. cbn. lia.
  - destruct (PyStr.contains _ _); [exact Hlvl | exact IH].
Qed.

Lemma loop_keywords_rappresentabile (keywords : list (Z * list string))
    (natura_lower : string) (natura_level : Z) :
  Forall (fun e => rappresentabile (fst e)) keywords ->
  rappresentabile natura_level ->
  rappresentabile (AMLRiskApp.loop_keywords keywords natura_lower natura_level).
Proof.
  intros Hk. revert natura_level.
  induction Hk as [|[lvl kws] rest Hlvl Hrest IH]; intros nl Hnl;
    cbn [AMLRiskApp.loop_keywords]; [exact Hnl |].
  assert (Hin : rappresentabile
                  (AMLRiskApp.loop_keyword_list lvl kws natura_lower nl)).
  { clear IH. cbn [fst] in Hlvl. induction kws as [|kw kws IHk];
      cbn [AMLRiskApp.loop_keyword_list]; [exact Hnl |].
    destruct (PyStr.contains natura_lower kw); [exact Hlvl | exact IHk]. }
  destruct (_ >? 0); [exact Hin | now apply IH].
Qed.

Lemma sezione_area_rappresentabile (nome_sezione entry : string) :
  config_regolare cfg ->
  rappresentabile (a_level (AMLRiskApp.sezione_area cfg nome_sezione entry)).
Proof.
  intros (_ & _ & Hluoghi & _). unfold AMLRiskApp.sezione_area.
  destruct (PyStr.truthy (PyStr.strip entry)); cbn [a_level];
    [| apply rappresentabile_1_4; lia].
  destruct (Z.eqb_spec (RiskCalculator.get_livello_paese cfg (PyStr.strip entry)) 0);
    [apply rappresentabile_1_4; lia |].
  unfold RiskCalculator.get_livello_paese in *.
  destruct (LUOGHI_RISCHIO_COMPLETO cfg !! _) as [z|] eqn:Hz; cbn in *;
    [exact (Hluoghi _ _ Hz) | congruence].
Qed.

Lemma sections_A_rappresentabili (self : AMLRiskApp.App) :
  config_regolare cfg ->
  Forall (fun sec => rappresentabile (a_level sec))
         (AMLRiskApp._get_automatic_sections_A cfg self).
Proof.
  intros Hcfg. pose proof Hcfg as (Hdb & Hcat & _ & _).
  unfold AMLRiskApp._get_automatic_sections_A.
  pose proof (loop_database_rappresentabile
                (get_natura_giuridica_database cfg)
                (PyStr.strip (AMLRiskApp.entry_natura_giuridica self)) Hdb) as H0.
  destruct (AMLRiskApp.loop_database _ _) as [l0 d0]. cbn [fst] in H0.
  assert (H1 : rappresentabile
                 (if l0 =? 0
                  then AMLRiskApp.loop_keywords (get_natura_giuridica_keywords cfg)
                         (PyStr.lower (PyStr.strip (AMLRiskApp.entry_natura_giuridica self))) l0
                  else l0)).
  { destruct (l0 =? 0); [| exact H0].
    apply loop_keywords_rappresentabile; [| exact H0].
    repeat constructor; apply rappresentabile_1_4; cbn; lia. }
  set (l1 := if l0 =? 0 then _ else l0) in *.
  assert (H2 : rappresentabile
                 (fst (if l1 =? 0
                       then if PyStr.truthy (AMLRiskApp.combo_natura_fallback self)
                            then (default 3 (get_natura_giuridica_categorie_manuali cfg
                                             !! AMLRiskApp.combo_natura_fallback self), "")
                            else (l1, d0)
                       else (l1, d0)))).
  { destruct (l1 =? 0); [| exact H1].
    destruct (PyStr.truthy _); [| exact H1]. cbn [fst].
    destruct (get_natura_giuridica_categorie_manuali cfg !! _) as [z|] eqn:Hz;
      cbn; [exact (Hcat _ _ Hz) | apply rappresentabile_1_4; lia]. }
  destruct (if l1 =? 0 then _ else (l1, d0)) as [l2 d2]. cbn [fst] in H2.
  destruct (l2 =? 0);
    (constructor;
     [| constructor; [now apply sezione_area_rappresentabile | constructor]]);
    cbn [a_level]; [apply rappresentabile_1_4; lia | exact H2].
Qed.

Lemma sections_B_rappresentabili (self : AMLRiskApp.App) (importo : option float) :
  config_regolare cfg ->
  Forall (fun sec => rappresentabile (a_level sec))
         (AMLRiskApp._get_automatic_sections_B cfg self importo).
Proof.
  intros Hcfg. unfold AMLRiskApp._get_automatic_sections_B.
  constructor; [| constructor; [now apply sezione_area_rappresentabile | constructor]].
  destruct importo as [f|]; cbn [a_level];
    [| apply rappresentabile_1_4; lia].
  pose proof (calcola_livello_da_importo_range f).
  apply rappresentabile_1_4. lia.
Qed.

(** X19. The computation of [valuta_rischio] returns its result whenever the
    amount is empty or a number, the manual sections evaluated hold one level
    from 1 to 4 per box, and the levels of the configuration and the number
    of A sections convert to a [float]. *)
Theorem valuta_calcoli_restituisce (self : AMLRiskApp.App) :
  config_regolare cfg ->
  (PyStr.truthy (AMLRiskApp.importo_str self) = true ->
   exists f, py_float (AMLRiskApp.importo_str self) = Ok f) ->
  Forall sezione_regolare (AMLRiskApp.section_vars_A_manual self) ->
  (solo_tabella_a cfg self = false ->
   Forall sezione_regolare (AMLRiskApp.section_vars_B_manual self)) ->
  rappresentabile (2 + Z.of_nat (length (AMLRiskApp.section_vars_A_manual self))) ->
  exists d, AMLRiskApp.valuta_calcoli cfg self = Ok d.
Proof.
  intros Hcfg Himporto HA HB Hnum.
  unfold AMLRiskApp.valuta_calcoli.
  change (bool_decide _) with (solo_tabella_a cfg self).
  assert (Hi : exists importo,
            (if PyStr.truthy (AMLRiskApp.importo_str self)
             then py_float (AMLRiskApp.importo_str self) ≫= (fun f => mret (Some f))
             else mret None) = Ok importo).
  { destruct (PyStr.truthy _); [| now exists None].
    destruct (Himporto eq_refl) as (f & ->). now exists (Some f). }
  destruct Hi as (importo & ->). rewrite bind_Ok_l.
  destruct (calcola_totale_sezioni_Ok _ _ HA (sections_A_rappresentabili self Hcfg))
    as (tA & smA & ->).
  rewrite bind_Ok_l.
  pose proof Hcfg as (_ & _ & _ & Hprest).
  assert (Hri : exists ri,
            PyNum.float_of_int
              (default 2 (get_prestazioni_veda cfg
                          !! AMLRiskApp.combo_prestazione self)) = Ok ri).
  { apply float_of_int_Ok.
    destruct (get_prestazioni_veda cfg !! _) as [z|] eqn:Hz; cbn;
      [exact (Hprest _ _ Hz) | apply rappresentabile_1_4; lia]. }
  destruct Hri as (ri & Hri).
  destruct (solo_tabella_a cfg self) eqn:Hs; cbn [negb].
  - destruct (_get_automatic_sections_A_shape cfg self) as (a1 & HAs & _).
    rewrite HAs. cbn [length]. change (Z.of_nat 2) with 2.
    unfold PyNum.truediv_int.
    destruct (float_of_int_Ok _ Hnum) as (n & ->). rewrite bind_Ok_l.
    destruct (Z.eqb_spec (2 + Z.of_nat (length (AMLRiskApp.section_vars_A_manual self))) 0);
      [lia |].
    rewrite !bind_Ok_l, Hri, bind_Ok_l. eauto.
  - destruct (calcola_totale_sezioni_Ok _ _ (HB eq_refl)
                (sections_B_rappresentabili self importo Hcfg))
      as (tB & smB & ->).
    rewrite !bind_Ok_l, Hri, bind_Ok_l. eauto.
Qed.

End Totale.

(* ================================================================== *)
(** ** The properties on the example forms *)

Section Esempi.
#[local] Existing Instance Esempio.runtime.
Import AMLRiskApp.

Lemma config_esempio_regolare : config_regolare Esempio.cfg.
Proof.
  assert (Hz : forall z, Z.abs z <= 4 -> rappresentabile z)
    by (intros z Hz; apply rappresentabile_small; lia).
  repeat split; cbn.
  - repeat constructor; apply Hz; cbn; lia.
  - repeat (apply map_Forall_insert_2; [apply Hz; lia |]). apply map_Forall_empty.
  - repeat (apply map_Forall_insert_2; [apply Hz; lia |]). apply map_Forall_empty.
  - repeat (apply map_Forall_insert_2; [apply Hz; lia |]). apply map_Forall_empty.
Qed.

(** The form of level 3 with totals 8.0 and 6.0: specific risk 1.4. *)
Lemma rischio_specifico_standard_witness :
  solo_tabella_a Esempio.cfg Esempio.app = false /\
  exists d,
    valuta_calcoli Esempio.cfg Esempio.app = Ok d /\
    total_A d = 8%float /\ total_B d = 6%float /\
    rischio_specifico d = PyNum.round ((8 + 6) / 10)%float 2 /\
    rischio_specifico d = 1.4%float.
Proof.
  split; [reflexivity |].
  eexists. split; [vm_compute; reflexivity |].
  split; [reflexivity |]. split; [reflexivity |].
  split; [| reflexivity].
  refine (proj1 (proj2 (proj2
    (rischio_specifico_standard Esempio.cfg Esempio.app _ _ _)))).
  - reflexivity.
  - vm_compute. reflexivity.
Defined.

(** Table A alone: two automatic and two manual sections holding four
    factors, three of them ticked; the divisor is 4. *)
Lemma rischio_specifico_solo_tabella_a_witness :
  solo_tabella_a Esempio.cfg Esempio.app_solo_a = true /\
  exists d,
    valuta_calcoli Esempio.cfg Esempio.app_solo_a = Ok d /\
    sections_B_auto d = [] /\ total_B d = 0%float /\
    total_A d = 16%float /\ num_fattori_a d = 4 /\
    rischio_specifico d = 4%float.
Proof.
  split; [reflexivity |].
  eexists. split; [vm_compute; reflexivity |].
  pose proof (rischio_specifico_solo_tabella_a Esempio.cfg Esempio.app_solo_a _
                eq_refl eq_refl) as (HB & HtB & _).
  split; [exact HB |]. split; [exact HtB |].
  repeat split.
Defined.

(** Above 3.5 with the dialog: the first "Confermo" with the box unticked
    and the unconfirmed close leave it open and nothing is stored; ticking
    the box and pressing "Confermo" stores the result, of sum 4.0, with
    the accepted declaration. *)
Lemma accettazione_esplicita_witness :
  exists d,
    valuta_calcoli Esempio.cfg Esempio.app_solo_a = Ok d /\
    (3.5 <? somma d)%float = true /\
    dati_export Esempio.app_solo_a = None /\
    valuta_rischio Esempio.cfg Esempio.app_solo_a [] = (Esempio.app_solo_a, In_attesa) /\
    valuta_rischio Esempio.cfg Esempio.app_solo_a
      [premi_conferma "03/11/2026 alle ore 10:00:00"; chiudi_finestra false]
      = (Esempio.app_solo_a, In_attesa) /\
    snd (valuta_rischio Esempio.cfg Esempio.app_solo_a
           [spunta_casella; premi_conferma "03/11/2026 alle ore 10:00:00"])
      = Successo /\
    exists memorizzato,
      dati_export
        (fst (valuta_rischio Esempio.cfg Esempio.app_solo_a
                [spunta_casella; premi_conferma "03/11/2026 alle ore 10:00:00"]))
        = Some memorizzato /\
      dichiarazione_rafforzata memorizzato =
        Some {| accepted := true;
                timestamp := "03/11/2026 alle ore 10:00:00";
                d_somma_ponderata := 4%float;
                d_livello := "MOLTO SIGNIFICATIVO - Adeguata Verifica Rafforzata" |} /\
      somma memorizzato = 4%float /\
      total_A memorizzato = 16%float /\
      rischio_specifico memorizzato = 4%float /\
      livello memorizzato = "MOLTO SIGNIFICATIVO - Adeguata Verifica Rafforzata".
Proof.
  eexists. split; [vm_compute; reflexivity |].
  split; [reflexivity |].
  split; [reflexivity |].
  pose proof (accettazione_esplicita Esempio.cfg Esempio.app_solo_a _
                eq_refl eq_refl eq_refl eq_refl) as (Hvuoto & _ & _ & Hresta).
  split; [exact Hvuoto |].
  split;
    [refine (proj2 (Hresta [premi_conferma "03/11/2026 alle ore 10:00:00"] false
                      (chiudi_finestra false) eq_refl _));
     left; reflexivity |].
  split; [reflexivity |].
  eexists. split; [vm_compute; reflexivity |].
  repeat split.
Defined.

(** The scenario of level 3 with totals 8.0 and 6.0. *)
Lemma somma_ponderata_arrotondata_witness :
  exists d,
    valuta_calcoli Esempio.cfg Esempio.app = Ok d /\
    rischio_inerente d = 3 /\ total_A d = 8%float /\ total_B d = 6%float /\
    rischio_specifico d = 1.4%float /\
    somma d = 1.88%float /\
    livello d = "BASSO/POCO SIGNIFICATIVO - Adeguata Verifica Semplificata".
Proof.
  eexists. split; [vm_compute; reflexivity |].
  split; [reflexivity |]. split; [reflexivity |]. split; [reflexivity |].
  refine (proj2 (proj2
    (somma_ponderata_arrotondata Esempio.cfg Esempio.app _ eq_refl))
    eq_refl eq_refl eq_refl eq_refl).
Defined.

(** C4 as stated fails: for a service of level 1 and a specific risk of
    0.45 the code stores 0.62, while rounding the weighted sum once,
    [round(1 * 0.3 + 0.45 * 0.7, 2)], gives 0.61. *)
Lemma somma_ponderata_controesempio :
  exists d ri,
    valuta_calcoli Esempio.cfg Esempio.app_arrotondamento = Ok d /\
    PyNum.float_of_int (rischio_inerente d) = Ok ri /\
    rischio_specifico d = 0.45%float /\
    somma d = 0.62%float /\
    PyNum.round (ri * 0.3 + rischio_specifico d * 0.7)%float 2 = 0.61%float /\
    somma d <> PyNum.round (ri * 0.3 + rischio_specifico d * 0.7)%float 2.
Proof.
  eexists. eexists. split; [vm_compute; reflexivity |].
  split; [vm_compute; reflexivity |].
  split; [reflexivity |]. split; [reflexivity |].
  split; [vm_compute; reflexivity |].
  intros Heq.
  apply (f_equal (fun x => (x =? 0.62)%float)) in Heq.
  vm_compute in Heq. discriminate Heq.
Qed.

(** An amount of 80000,50 with two boxes ticked: level 2 is scored, level 4
    is displayed. *)
Lemma b3_aggravanti_solo_informativi_witness :
  _aggiorna_b3_livello_finale
    (set_check_b3 Esempio.app_sconosciuto true false true)
    = Ok (B3_livelli 2 4 2) /\
  exists b3 b6,
    _get_automatic_sections_B Esempio.cfg
      (set_check_b3 Esempio.app_sconosciuto true false true) (Some 80000.5%float)
      = [b3; b6] /\
    a_level b3 = 2.
Proof.
  pose proof (b3_aggravanti_solo_informativi Esempio.cfg Esempio.app_sconosciuto
                true false true) as (Hmostra & _ & Hsezioni & _).
  split.
  - refine (Hmostra 80000.5%float eq_refl _). vm_compute. reflexivity.
  - destruct (Hsezioni 80000.5%float) as (b3 & b6 & HB & _ & Hl).
    exists b3, b6. split; [exact HB | exact Hl].
Defined.

(** The registry of the example against the query " INTESA ". *)
Lemma cerca_natura_giuridica_tiers_witness :
  Forall (fun e => fst (snd e) <> 0)
         (get_natura_giuridica_database Esempio.cfg) /\
  (2 <= String.length (PyStr.strip (PyStr.lower " INTESA ")))%nat /\
  exists ordinati,
    RiskCalculator.cerca_natura_giuridica Esempio.cfg " INTESA "
      = firstn 10 ordinati /\
    StronglySorted ordine_spec ordinati.
Proof.
  assert (Hdb : Forall (fun e => fst (snd e) <> 0)
                       (get_natura_giuridica_database Esempio.cfg))
    by (repeat constructor; discriminate).
  assert (Hq : (2 <= String.length (PyStr.strip (PyStr.lower " INTESA ")))%nat)
    by (vm_compute; lia).
  split; [exact Hdb |]. split; [exact Hq |].
  destruct (proj1 (proj2 (cerca_natura_giuridica_tiers Esempio.cfg " INTESA " Hdb)) Hq)
    as (ordinati & Hcerca & _ & Hsorted).
  exists ordinati. split; assumption.
Defined.

(** "Mario Rossi" is in no registry name and holds no keyword: A.1 is
    scored 3, A.4 is scored 1, no manual factor is ticked, and [total_A]
    is 4.0. *)
Lemma natura_default_livello_3_witness :
  combo_natura_fallback Esempio.app_sconosciuto = "" /\
  (exists d,
     valuta_calcoli Esempio.cfg Esempio.app_sconosciuto = Ok d /\
     sections_A_auto d =
       [ {| a_name := "A.1 - Natura giuridica";
            a_value := "Mario Rossi (Livello default - verificare manualmente)";
            a_level := 3 |};
         {| a_name := "A.4 - Area geografica cliente";
            a_value := "Non specificato";
            a_level := 1 |} ] /\
     sub_medias_A d = [Int 3; Int 1; Float 0; Float 0] /\
     total_A d = 4%float) /\
  _get_automatic_sections_A Esempio.cfg Esempio.app_sconosciuto =
    [ {| a_name := "A.1 - Natura giuridica";
         a_value := "Mario Rossi (Livello default - verificare manualmente)";
         a_level := 3 |};
      {| a_name := "A.4 - Area geografica cliente";
         a_value := "Non specificato";
         a_level := 1 |} ].
Proof.
  split; [reflexivity |].
  split.
  { eexists. split; [vm_compute; reflexivity |].
    split; [reflexivity |]. split; reflexivity. }
  refine (proj1 (natura_default_livello_3 Esempio.cfg Esempio.app_sconosciuto _ _ _)).
  - intros nome lvl desc [[= <- <- <-] | [[= <- <- <-] | [[= <- <- <-] | []]]];
      vm_compute; reflexivity.
  - intros lvl kws kw
      [[= <- <-] | [[= <- <-] | [[= <- <-] | [[= <- <-] | []]]]] Hkw;
      repeat (destruct Hkw as [<- | Hkw]; [vm_compute; reflexivity |]);
      destruct Hkw.
  - reflexivity.
Defined.

End Esempi.

(* ================================================================== *)
(** ** Case mapping *)






(* ================================================================== *)
(** ** The search of places *)

Section Luoghi.
Import RiskCalculator.

Lemma string_leb_antisym (a b : string) :
  String.leb a b = true -> String.leb b a = true -> a = b.
Proof.
  unfold String.leb. rewrite (String.compare_antisym a b).
  destruct (String.compare b a) eqn:Hc; cbn; try discriminate.
  intros _ _. symmetry. now apply String.compare_eq_iff.
Qed.

Lemma chiave_le_antisym (a b : bool * Z * string) :
  chiave_le a b -> chiave_le b a -> a = b.
Proof.
  destruct a as [[a3 a1] a0], b as [[b3 b1] b0]. unfold chiave_le.
  intros Hab Hba.
  assert (H3 : a3 = b3)
    by (destruct Hab as [[? ?] | [? _]], Hba as [[? ?] | [? _]]; congruence).
  subst b3.
  destruct Hab as [[? ?] | [_ Hab]]; [congruence |].
  destruct Hba as [[? ?] | [_ Hba]]; [congruence |].
  assert (H1 : a1 = b1) by lia. subst b1.
  destruct Hab as [? | [_ Hab]]; [lia |].
  destruct Hba as [? | [_ Hba]]; [lia |].
  now rewrite (string_leb_antisym a0 b0).
Qed.

(** Two sorted arrangements of the same elements are the same list when
    the order tells the elements apart. *)
Lemma StronglySorted_Permutation_eq {A : Type} (R : A -> A -> Prop)
    (l1 l2 : list A) :
  (forall x y, In x l1 -> In y l1 -> R x y -> R y x -> x = y) ->
  StronglySorted R l1 -> StronglySorted R l2 -> Permutation l1 l2 ->
  l1 = l2.
Proof.
  revert l2. induction l1 as [|x l1 IH]; intros l2 Hanti H1 H2 Hp.
  - now apply Permutation_nil in Hp.
  - destruct l2 as [|y l2];
      [symmetry in Hp; now apply Permutation_nil in Hp |].
    apply StronglySorted_inv in H1, H2.
    destruct H1 as [H1 Hx], H2 as [H2 Hy].
    rewrite Forall_forall in Hx, Hy.
    assert (Hxy : x = y).
    { assert (Hx2 : In x (y :: l2))
        by (eapply Permutation_in; [exact Hp | now left]).
      assert (Hy1 : In y (x :: l1))
        by (eapply Permutation_in; [symmetry; exact Hp | now left]).
      destruct Hx2 as [-> | Hx2]; [reflexivity |].
      destruct Hy1 as [-> | Hy1]; [reflexivity |].
      apply Hanti; [now left | now right | |].
      - apply Hx. now apply list_elem_of_In.
      - apply Hy. now apply list_elem_of_In. }
    subst y. f_equal. apply IH; try assumption.
    + intros a b Ha Hb. apply Hanti; now right.
    + now apply Permutation_cons_inv in Hp.
Qed.

Lemma In_firstn {A : Type} (n : nat) (l : list A) (x : A) :
  In x (firstn n l) -> In x l.
Proof.
  intros Hx. rewrite <- (firstn_skipn n l). apply in_or_app. now left.
Qed.

Lemma filter_Permutation_bool {A : Type} (f : A -> bool) (l1 l2 : list A) :
  Permutation l1 l2 -> Permutation (List.filter f l1) (List.filter f l2).
Proof.
  induction 1 as [| x l1 l2 _ IH | x y l | l1 l2 l3 _ IH1 _ IH2]; cbn.
  - constructor.
  - destruct (f x); [now constructor | exact IH].
  - destruct (f x), (f y); try reflexivity. apply perm_swap.
  - now transitivity (List.filter f l2).
Qed.

Lemma NoDup_fst_In {A B : Type} (l : list (A * B)) (x y : A * B) :
  NoDup l.*1 -> In x l -> In y l -> fst x = fst y -> x = y.
Proof.
  induction l as [|z l IH]; intros Hnd Hx Hy Hxy; [destruct Hx |].
  cbn in Hnd. apply NoDup_cons in Hnd. destruct Hnd as [Hz Hnd].
  destruct Hx as [-> | Hx], Hy as [-> | Hy]; auto.
  - destruct Hz. rewrite Hxy. apply list_elem_of_fmap_2, list_elem_of_In, Hy.
  - destruct Hz. rewrite <- Hxy. apply list_elem_of_fmap_2, list_elem_of_In, Hx.
Qed.

Lemma sort_chiave_luogo_sorted (q : string) (l : list (string * Z)) :
  StronglySorted (ordine_luogo q)
                 (PyList.sort (chiave_luogo q) chiave_ltb l).
Proof.
  apply (StronglySorted_on (non_dopo (chiave_luogo q) chiave_ltb) _
           (fun _ => True)).
  - intros x y _ _. apply chiave_ltb_false.
  - apply Forall_forall. intros; exact I.
  - apply sort_StronglySorted.
    + apply chiave_ltb_asym.
    + intros x y z Hxy Hyz. unfold non_dopo in *.
      rewrite chiave_ltb_false in *.
      now apply (chiave_le_trans _ (chiave_luogo q y)).
Qed.

Lemma cerca_luogo_eq (luoghi : list (string * Z)) (testo : string) :
  let q := PyStr.strip (PyStr.lower testo) in
  cerca_luogo luoghi testo =
  if (String.length q <? 2)%nat then []
  else firstn 10 (PyList.sort (chiave_luogo q) chiave_ltb
         (List.filter (fun x => PyStr.contains (PyStr.lower (fst x)) q)
                      luoghi)).
Proof. reflexivity. Qed.

Lemma cerca_luogo_In (luoghi : list (string * Z)) (testo : string)
    (x : string * Z) :
  In x (cerca_luogo luoghi testo) ->
  In x luoghi /\
  PyStr.contains (PyStr.lower (fst x)) (PyStr.strip (PyStr.lower testo)) = true.
Proof.
  rewrite cerca_luogo_eq. cbn zeta.
  destruct (String.length _ <? 2)%nat; [intros [] |].
  intros Hin. apply In_firstn in Hin.
  eapply Permutation_in in Hin; [| apply sort_Permutation].
  now apply filter_In in Hin.
Qed.

(** X1. [cerca_luogo] on a trimmed, lower-cased query of fewer than two
    characters returns nothing; otherwise it returns the first ten of the
    places whose lower-cased name contains the query, ranked with the names
    that start with the query first, then by level, then by name. *)
Theorem cerca_luogo_ordinati (luoghi : list (string * Z)) (testo : string) :
  let q := PyStr.strip (PyStr.lower testo) in
  ((String.length q < 2)%nat -> cerca_luogo luoghi testo = []) /\
  ((2 <= String.length q)%nat ->
   exists ordinati,
     cerca_luogo luoghi testo = firstn 10 ordinati /\
     StronglySorted (ordine_luogo q) ordinati /\
     Permutation ordinati
       (List.filter (fun x => PyStr.contains (PyStr.lower (fst x)) q) luoghi) /\
     forall x, In x ordinati <->
               In x luoghi /\ sottostringa q (PyStr.lower (fst x))) /\
  (length (cerca_luogo luoghi testo) <= 10)%nat /\
  (forall x, In x (cerca_luogo luoghi testo) ->
             In x luoghi /\ sottostringa q (PyStr.lower (fst x))).
Proof.
  intros q.
  repeat match goal with |- _ /\ _ => split end.
  - intros Hq. rewrite cerca_luogo_eq. fold q.
    apply Nat.ltb_lt in Hq. now rewrite Hq.
  - intros Hq. rewrite cerca_luogo_eq. fold q.
    apply Nat.ltb_ge in Hq. rewrite Hq.
    eexists. split; [reflexivity |]. split; [apply sort_chiave_luogo_sorted |].
    split; [apply sort_Permutation |].
    intros x. unfold sottostringa.
    rewrite <- contains_spec,
      <- (filter_In (fun x => PyStr.contains (PyStr.lower (fst x)) q)).
    split; apply Permutation_in;
      [| symmetry]; apply sort_Permutation.
  - rewrite cerca_luogo_eq. fold q.
    destruct (String.length q <? 2)%nat; cbn [length]; [lia |].
    apply firstn_le_length.
  - intros x Hx. apply cerca_luogo_In in Hx. destruct Hx as [Hx Hc].
    split; [exact Hx |]. now apply contains_spec.
Qed.

(** X2. The suggestions do not depend on the order in which the places
    are stored: the names are the keys of a dictionary, so the ranking
    tells any two places apart. *)
Theorem cerca_luogo_ordine_indifferente
    (luoghi luoghi' : list (string * Z)) (testo : string) :
  NoDup luoghi.*1 ->
  Permutation luoghi luoghi' ->
  cerca_luogo luoghi testo = cerca_luogo luoghi' testo.
Proof.
  intros Hnd Hp. rewrite !cerca_luogo_eq. cbn zeta.
  set (q := PyStr.strip (PyStr.lower testo)).
  destruct (String.length q <? 2)%nat; [reflexivity |]. f_equal.
  set (f := fun x : string * Z => PyStr.contains (PyStr.lower (fst x)) q).
  apply (StronglySorted_Permutation_eq (ordine_luogo q)).
  - intros x y Hx Hy Hxy Hyx.
    pose proof (chiave_le_antisym _ _ Hxy Hyx) as Hk.
    assert (Hin : forall z, In z (PyList.sort (chiave_luogo q) chiave_ltb
                                    (List.filter f luoghi)) -> In z luoghi).
    { intros z Hz.
      eapply Permutation_in in Hz; [| apply sort_Permutation].
      now apply filter_In in Hz. }
    apply (NoDup_fst_In luoghi); auto. congruence.
  - apply sort_chiave_luogo_sorted.
  - apply sort_chiave_luogo_sorted.
  - rewrite !sort_Permutation. now apply filter_Permutation_bool.
Qed.

Lemma voci_luoghi_livello (cfg : Config) (luoghi : list (string * Z))
    (luogo : string) (lvl : Z) :
  voci_luoghi cfg luoghi ->
  In (luogo, lvl) luoghi ->
  PyStr.title (PyStr.strip luogo) = luogo ->
  get_livello_paese cfg luogo = lvl.
Proof.
  intros [Hnd Hmap] Hl Ht. unfold get_livello_paese. cbn zeta. rewrite Ht.
  apply list_elem_of_In in Hl.
  apply (elem_of_list_to_map_1 (M := gmap string)) in Hl; [| exact Hnd].
  rewrite Hmap in Hl. now rewrite Hl.
Qed.

(** X3. A suggested place whose name is its own title-case form is found
    by [get_livello_paese] with the level the suggestion shows. *)
Theorem luogo_suggerito_livello (cfg : Config) (luoghi : list (string * Z))
    (testo luogo : string) (lvl : Z) :
  voci_luoghi cfg luoghi ->
  In (luogo, lvl) (cerca_luogo luoghi testo) ->
  PyStr.title (PyStr.strip luogo) = luogo ->
  get_livello_paese cfg luogo = lvl.
Proof.
  intros Hvoci Hin Ht.
  apply cerca_luogo_In in Hin. destruct Hin as [Hl _].
  now apply (voci_luoghi_livello cfg luoghi).
Qed.



End Luoghi.

(* ================================================================== *)
(** ** Averages and totals *)

Section Medie.
Import RiskCalculator.

Lemma selected_levels_from_insert (j : nat) (vs : list bool) (lvs : list Z)
    (i : nat) (z : Z) :
  (forall k, (j + k)%nat = i -> vs !! k <> Some true) ->
  selected_levels_from j vs (<[i := z]> lvs) = selected_levels_from j vs lvs.
Proof.
  revert j. induction vs as [|var vs IH]; intros j Hi; [reflexivity |].
  cbn [selected_levels_from].
  rewrite (IH (S j)) by (intros k Hk; apply (Hi (S k)); lia).
  destruct var; [| reflexivity].
  rewrite list_lookup_insert_ne; [reflexivity |].
  intros <-. now apply (Hi O); [lia |].
Qed.

(** X6. The average of a section does not depend on the level chosen for
    a factor whose box is not ticked. *)
Theorem calcola_media_sezione_non_spuntato (sec : SectionVars) (i : nat)
    (z : Z) :
  vars sec !! i <> Some true ->
  calcola_media_sezione (con_livello sec i z) = calcola_media_sezione sec.
Proof.
  intros Hi. unfold calcola_media_sezione. cbn [con_livello vars level_vars].
  rewrite selected_levels_from_insert; [reflexivity |].
  intros k Hk. cbn in Hk. now subst k.
Qed.

Lemma selected_levels_from_nessuno (j : nat) (vs : list bool) (lvs : list Z) :
  Forall (fun var => var = false) vs -> selected_levels_from j vs lvs = Ok [].
Proof.
  intros Hvs. revert j.
  induction Hvs as [|var vs -> _ IH]; intros j; [reflexivity |].
  cbn [selected_levels_from]. apply IH.
Qed.

(** X7. A section with no box ticked has the average 0.0, whatever its
    level menus hold, and also when it has fewer level menus than boxes. *)
Theorem calcola_media_sezione_nessuna_spunta (sec : SectionVars) :
  Forall (fun var => var = false) (vars sec) ->
  calcola_media_sezione sec = Ok 0%float.
Proof.
  intros Hvs. unfold calcola_media_sezione.
  now rewrite selected_levels_from_nessuno.
Qed.

Lemma loop_auto_fold (auto_sections : list AutoSection) (t0 : float)
    (sm0 : list Numero) (t : float) (sm : list Numero) :
  loop_auto auto_sections (t0, sm0) = Ok (t, sm) ->
  exists livelli,
    Forall2 (fun sec f => PyNum.float_of_int (a_level sec) = Ok f)
            auto_sections livelli /\
    t = fold_left (fun acc f => (acc + f)%float) livelli t0 /\
    sm = (sm0 ++ map (fun sec => Int (a_level sec)) auto_sections)%list.
Proof.
  revert t0 sm0. induction auto_sections as [|sec rest IH]; intros t0 sm0 Hl.
  - cbn in Hl. injection Hl as -> ->. exists [].
    split; [constructor |]. split; [reflexivity | now rewrite app_nil_r].
  - cbn [loop_auto fst snd add_media] in Hl. inv_bind Hl. inv_bind Hm.
    injection Hm as <-.
    apply IH in Hl. destruct Hl as (livelli & Hliv & -> & ->).
    exists (a0 :: livelli). split; [now constructor |].
    cbn [fold_left map]. split; [reflexivity | now rewrite <- app_assoc].
Qed.

(** X8. What [calcola_totale_sezioni] returns: [sub_medias] lists the
    levels of the automatic sections, then the averages of the manual
    sections, each in the order given, and [totale] is their sum from left
    to right, starting from 0.0. *)
Theorem calcola_totale_sezioni_somma (sections : list SectionVars)
    (auto_sections : list AutoSection) (totale : float)
    (sub_medias : list Numero) :
  calcola_totale_sezioni sections auto_sections = Ok (totale, sub_medias) ->
  exists livelli medie,
    Forall2 (fun sec f => PyNum.float_of_int (a_level sec) = Ok f)
            auto_sections livelli /\
    Forall2 (fun sec m => calcola_media_sezione sec = Ok m) sections medie /\
    sub_medias =
      (map (fun sec => Int (a_level sec)) auto_sections
         ++ map Float medie)%list /\
    totale = fold_left (fun acc f => (acc + f)%float) (livelli ++ medie) 0%float.
Proof.
  unfold calcola_totale_sezioni. intros Ht. inv_bind Ht. destruct a as [t1 sm1].
  apply loop_auto_fold in Hm. destruct Hm as (livelli & Hliv & -> & ->).
  apply loop_manual_fold in Ht. destruct Ht as (medie & Hmedie & -> & ->).
  exists livelli, medie. split; [exact Hliv |]. split; [exact Hmedie |].
  split; [reflexivity |]. now rewrite fold_left_app.
Qed.

End Medie.

(* ================================================================== *)
(** ** The bands of the weighted sum *)

Lemma SFcompare_antisym (a b : spec_float) :
  SFcompare b a = option_map CompOpp (SFcompare a b).
Proof.
  destruct a as [sa | sa | | sa ma ea], b as [sb | sb | | sb mb eb];
    try reflexivity;
    try (destruct sa; reflexivity); try (destruct sb; reflexivity);
    try (destruct sa, sb; reflexivity).
  cbn [SFcompare option_map].
  destruct sa, sb; try reflexivity;
    rewrite (Z.compare_antisym ea eb);
    destruct (ea ?= eb); cbn [CompOpp]; try reflexivity;
    rewrite (Pos.compare_cont_antisym ma mb Eq); cbn [CompOpp];
    now rewrite ?CompOpp_involutive.
Qed.

Lemma is_nan_SFcompare (x : float) :
  is_nan x = false -> exists c, SFcompare (Prim2SF x) (Prim2SF x) = Some c.
Proof.
  unfold is_nan. rewrite FloatAxioms.eqb_spec. unfold SFeqb.
  destruct (SFcompare (Prim2SF x) (Prim2SF x)) as [c|]; [eauto | discriminate].
Qed.

(** On numbers, [x <= y] is [not (y < x)]. *)
Lemma leb_negb_ltb (x y : float) :
  is_nan x = false -> is_nan y = false ->
  (x <=? y)%float = negb (y <? x)%float.
Proof.
  intros Hx Hy. rewrite FloatAxioms.leb_spec, FloatAxioms.ltb_spec.
  unfold SFleb, SFltb.
  rewrite (SFcompare_antisym (Prim2SF x) (Prim2SF y)).
  apply is_nan_SFcompare in Hx, Hy. destruct Hx as [cx Hx], Hy as [cy Hy].
  destruct (Prim2SF x) as [sx | sx | | sx mx ex]; try discriminate;
    destruct (Prim2SF y) as [sy | sy | | sy my ey]; try discriminate;
    cbn [SFcompare option_map];
    try (destruct sx; reflexivity); try (destruct sy; reflexivity);
    try (destruct sx, sy; reflexivity).
  destruct sx, sy; try reflexivity;
    destruct (ex ?= ey); cbn [CompOpp]; try reflexivity;
    destruct (Pos.compare_cont Eq mx my); reflexivity.
Qed.

Lemma SFltb_finite_pos (m1 m2 : positive) (e : Z) (x : spec_float) :
  (m2 < m1)%positive ->
  SFltb (S754_finite false m1 e) x = true ->
  SFltb (S754_finite false m2 e) x = true.
Proof.
  intros Hm. unfold SFltb.
  destruct x as [sx | sx | | sx mx ex]; cbn [SFcompare].
  - destruct sx; intros Hx; exact Hx.
  - destruct sx; intros Hx; exact Hx.
  - intros Hx; exact Hx.
  - destruct sx; [intros Hx; exact Hx |].
    destruct (e ?= ex); [| reflexivity | intros Hx; exact Hx].
    change (Pos.compare_cont Eq m1 mx) with (Pos.compare m1 mx).
    change (Pos.compare_cont Eq m2 mx) with (Pos.compare m2 mx).
    destruct (Pos.compare_spec m1 mx); try discriminate.
    intros _.
    destruct (Pos.compare_spec m2 mx); [lia | reflexivity | lia].
Qed.

(** Above 3.5 is above 2.5. *)
Lemma ltb_soglie (x : float) :
  (3.5 <? x)%float = true -> (2.5 <? x)%float = true.
Proof.
  rewrite !FloatAxioms.ltb_spec.
  apply (SFltb_finite_pos 7881299347898368 5629499534213120 (-51)).
  reflexivity.
Qed.

Lemma ltb_is_nan (x y : float) : (x <? y)%float = true -> is_nan y = false.
Proof.
  unfold is_nan. rewrite FloatAxioms.ltb_spec, FloatAxioms.eqb_spec.
  unfold SFltb, SFeqb.
  destruct (Prim2SF y) as [sy | sy | | sy my ey].
  - reflexivity.
  - now destruct sy.
  - now destruct (Prim2SF x).
  - intros _. cbn [SFcompare]. destruct sy; rewrite Z.compare_refl;
      change (Pos.compare_cont Eq my my) with (Pos.compare my my);
      now rewrite Pos.compare_refl.
Qed.

(** The band of a sum is the highest one exactly when the sum is above
    3.5 or is not a number. *)
Lemma calcola_livello_rischio_rafforzato (somma : float) :
  RiskCalculator.calcola_livello_rischio somma
    = "MOLTO SIGNIFICATIVO - Adeguata Verifica Rafforzata"
  <-> (3.5 <? somma)%float = true \/ is_nan somma = true.
Proof.
  unfold RiskCalculator.calcola_livello_rischio.
  destruct (is_nan somma) eqn:Hn.
  - assert (H25 : (somma <=? 2.5)%float = false).
    { rewrite FloatAxioms.leb_spec. unfold SFleb.
      unfold is_nan in Hn. rewrite FloatAxioms.eqb_spec in Hn.
      unfold SFeqb in Hn.
      destruct (Prim2SF somma) as [s | s | | s m e]; try reflexivity.
      - discriminate Hn.
      - now destruct s.
      - cbn [SFcompare] in Hn. destruct s; rewrite Z.compare_refl in Hn;
          change (Pos.compare_cont Eq m m) with (Pos.compare m m) in Hn;
          now rewrite Pos.compare_refl in Hn. }
    assert (H35 : (somma <=? 3.5)%float = false).
    { rewrite FloatAxioms.leb_spec. unfold SFleb.
      unfold is_nan in Hn. rewrite FloatAxioms.eqb_spec in Hn.
      unfold SFeqb in Hn.
      destruct (Prim2SF somma) as [s | s | | s m e]; try reflexivity.
      - discriminate Hn.
      - now destruct s.
      - cbn [SFcompare] in Hn. destruct s; rewrite Z.compare_refl in Hn;
          change (Pos.compare_cont Eq m m) with (Pos.compare m m) in Hn;
          now rewrite Pos.compare_refl in Hn. }
    rewrite H25, H35. split; auto.
  - rewrite (leb_negb_ltb somma 3.5 Hn eq_refl).
    rewrite (leb_negb_ltb somma 2.5 Hn eq_refl).
    destruct (3.5 <? somma)%float eqn:H35; cbn [negb].
    + rewrite (ltb_soglie somma H35). cbn [negb]. split; auto.
    + destruct (2.5 <? somma)%float; cbn [negb];
        (split; [discriminate | intros [Hf | Hf]; discriminate Hf]).
Qed.

(** X9. The three bands: up to 2.5, up to 3.5, above; a sum that is not
    a number falls into the highest band although it is not above 3.5. *)
Theorem calcola_livello_rischio_fasce (somma : float) :
  (RiskCalculator.calcola_livello_rischio somma
     = "BASSO/POCO SIGNIFICATIVO - Adeguata Verifica Semplificata"
   <-> (somma <=? 2.5)%float = true) /\
  (RiskCalculator.calcola_livello_rischio somma
     = "ABBASTANZA SIGNIFICATIVO - Adeguata Verifica Ordinaria"
   <-> (2.5 <? somma)%float = true /\ (somma <=? 3.5)%float = true) /\
  (RiskCalculator.calcola_livello_rischio somma
     = "MOLTO SIGNIFICATIVO - Adeguata Verifica Rafforzata"
   <-> (3.5 <? somma)%float = true \/ is_nan somma = true) /\
  RiskCalculator.calcola_livello_rischio nan
    = "MOLTO SIGNIFICATIVO - Adeguata Verifica Rafforzata" /\
  (3.5 <? nan)%float = false.
Proof.
  split; [| split; [| split; [apply calcola_livello_rischio_rafforzato |
                              split; reflexivity]]].
  - unfold RiskCalculator.calcola_livello_rischio.
    destruct (somma <=? 2.5)%float; [tauto |].
    destruct (somma <=? 3.5)%float; split; discriminate.
  - pose proof (calcola_livello_rischio_rafforzato somma) as Hr.
    unfold RiskCalculator.calcola_livello_rischio in *.
    destruct (is_nan somma) eqn:Hn.
    + destruct (somma <=? 2.5)%float eqn:H25;
        [split; [discriminate | intros [H1 H2]] |].
      * rewrite (leb_negb_ltb somma 2.5) in H25.
        -- rewrite H1 in H25. discriminate H25.
        -- now apply (ltb_is_nan 2.5).
        -- reflexivity.
      * destruct (somma <=? 3.5)%float eqn:H35.
        -- assert (Hf : "ABBASTANZA SIGNIFICATIVO - Adeguata Verifica Ordinaria"
                         = "MOLTO SIGNIFICATIVO - Adeguata Verifica Rafforzata")
             by (apply Hr; now right).
           discriminate Hf.
        -- split; [discriminate | intros [_ Hf]; discriminate Hf].
    + rewrite (leb_negb_ltb somma 2.5 Hn eq_refl) in *.
      destruct (2.5 <? somma)%float; cbn [negb] in *.
      * destruct (somma <=? 3.5)%float; split; try tauto; try discriminate.
        intros [_ Hf]. discriminate Hf.
      * split; [discriminate | intros [Hf _]; discriminate Hf].
Qed.

(* ================================================================== *)
(** ** How valuta_rischio ends *)

Lemma bind_Raise {A B : Type} (m : py A) (k : A -> py B) (e : Eccezione) :
  (m ≫= k) = Raise e ->
  m = Raise e \/ exists a, m = Ok a /\ k a = Raise e.
Proof.
  destruct m as [a|e']; cbn; intros Hk; [right; eauto | left; congruence].
Qed.

Lemma float_of_int_non_ValueError (z : Z) :
  PyNum.float_of_int z <> Raise ValueError.
Proof. unfold PyNum.float_of_int. now destruct (_ <=? _). Qed.

Lemma int_truediv_non_ValueError (a : Z) (b : positive) :
  PyNum.int_truediv a b <> Raise ValueError.
Proof. unfold PyNum.int_truediv. now destruct (_ <=? _). Qed.

Lemma truediv_int_non_ValueError (a : float) (b : Z) :
  PyNum.truediv_int a b <> Raise ValueError.
Proof.
  unfold PyNum.truediv_int. intros Hr. apply bind_Raise in Hr.
  destruct Hr as [Hr | (n & _ & Hr)].
  - now apply float_of_int_non_ValueError in Hr.
  - now destruct (b =? 0).
Qed.

Lemma selected_levels_from_non_ValueError (i : nat) (vs : list bool)
    (lvs : list Z) :
  RiskCalculator.selected_levels_from i vs lvs <> Raise ValueError.
Proof.
  revert i. induction vs as [|var vs IH]; intros i;
    cbn [RiskCalculator.selected_levels_from]; [discriminate |].
  destruct var; [| apply IH].
  destruct (lvs !! i); [| discriminate].
  intros Hr. apply bind_Raise in Hr.
  destruct Hr as [Hr | (rest & _ & Hr)]; [now apply IH in Hr | discriminate Hr].
Qed.

Lemma calcola_media_sezione_non_ValueError (sec : SectionVars) :
  RiskCalculator.calcola_media_sezione sec <> Raise ValueError.
Proof.
  unfold RiskCalculator.calcola_media_sezione. intros Hr.
  apply bind_Raise in Hr. destruct Hr as [Hr | (sel & _ & Hr)].
  - now apply selected_levels_from_non_ValueError in Hr.
  - destruct sel; [discriminate Hr |].
    apply bind_Raise in Hr. destruct Hr as [Hr | (q & _ & Hr)];
      [now apply int_truediv_non_ValueError in Hr | discriminate Hr].
Qed.

Lemma add_media_non_ValueError (totale : float) (media : Numero) :
  RiskCalculator.add_media totale media <> Raise ValueError.
Proof.
  destruct media as [z | f]; cbn [RiskCalculator.add_media]; [| discriminate].
  intros Hr. apply bind_Raise in Hr. destruct Hr as [Hr | (q & _ & Hr)];
    [now apply float_of_int_non_ValueError in Hr | discriminate Hr].
Qed.

Lemma loop_auto_non_ValueError (auto_sections : list AutoSection)
    (acc : float * list Numero) :
  RiskCalculator.loop_auto auto_sections acc <> Raise ValueError.
Proof.
  revert acc. induction auto_sections as [|sec rest IH]; intros acc;
    cbn [RiskCalculator.loop_auto]; [discriminate |].
  intros Hr. apply bind_Raise in Hr. destruct Hr as [Hr | (t & _ & Hr)];
    [now apply add_media_non_ValueError in Hr | now apply IH in Hr].
Qed.

Lemma loop_manual_non_ValueError (sections : list SectionVars)
    (acc : float * list Numero) :
  RiskCalculator.loop_manual sections acc <> Raise ValueError.
Proof.
  revert acc. induction sections as [|sec rest IH]; intros acc;
    cbn [RiskCalculator.loop_manual]; [discriminate |].
  intros Hr. apply bind_Raise in Hr. destruct Hr as [Hr | (m & _ & Hr)];
    [now apply calcola_media_sezione_non_ValueError in Hr |].
  apply bind_Raise in Hr. destruct Hr as [Hr | (t & _ & Hr)];
    [now apply add_media_non_ValueError in Hr | now apply IH in Hr].
Qed.

Lemma calcola_totale_sezioni_non_ValueError (sections : list SectionVars)
    (auto_sections : list AutoSection) :
  RiskCalculator.calcola_totale_sezioni sections auto_sections
    <> Raise ValueError.
Proof.
  unfold RiskCalculator.calcola_totale_sezioni. intros Hr.
  apply bind_Raise in Hr. destruct Hr as [Hr | (acc & _ & Hr)];
    [now apply loop_auto_non_ValueError in Hr
    | now apply loop_manual_non_ValueError in Hr].
Qed.

Section Esiti.
Context `{Runtime}.
Variable cfg : Config.

(** The computation raises [ValueError] exactly when the amount is not
    empty and [float] rejects it. *)
Lemma valuta_calcoli_ValueError (self : AMLRiskApp.App) :
  AMLRiskApp.valuta_calcoli cfg self = Raise ValueError <->
  PyStr.truthy (AMLRiskApp.importo_str self) = true /\
  py_float (AMLRiskApp.importo_str self) = Raise ValueError.
Proof.
  unfold AMLRiskApp.valuta_calcoli.
  destruct (PyStr.truthy (AMLRiskApp.importo_str self)) eqn:Hstr.
  - destruct (py_float (AMLRiskApp.importo_str self)) as [f | e] eqn:Hf.
    + rewrite !bind_Ok_l. split; [| intros [_ Hr]; discriminate Hr].
      intros Hr. exfalso. revert Hr.
      match goal with |- ?m = _ -> _ => change (m <> Raise ValueError) end.
      intros Hr. apply bind_Raise in Hr.
      destruct Hr as [Hr | ([tA smA] & _ & Hr)];
        [now apply calcola_totale_sezioni_non_ValueError in Hr |].
      apply bind_Raise in Hr.
      destruct Hr as [Hr | ([[[tB smB] rs] nf] & _ & Hr)].
      * destruct (bool_decide _).
        -- apply bind_Raise in Hr. destruct Hr as [Hr | (q & _ & Hr)];
             [now apply truediv_int_non_ValueError in Hr | discriminate Hr].
        -- apply bind_Raise in Hr. destruct Hr as [Hr | ([tB smB] & _ & Hr)];
             [now apply calcola_totale_sezioni_non_ValueError in Hr
             | discriminate Hr].
      * apply bind_Raise in Hr. destruct Hr as [Hr | (ri & _ & Hr)];
          [now apply float_of_int_non_ValueError in Hr | discriminate Hr].
    + cbn. split; [intros [= ->]; auto | intros [_ [= ->]]; reflexivity].
  - rewrite !bind_Ok_l. split; [| intros [Hf _]; discriminate Hf].
    intros Hr. exfalso. revert Hr.
    match goal with |- ?m = _ -> _ => change (m <> Raise ValueError) end.
    intros Hr. apply bind_Raise in Hr.
    destruct Hr as [Hr | ([tA smA] & _ & Hr)];
      [now apply calcola_totale_sezioni_non_ValueError in Hr |].
    apply bind_Raise in Hr.
    destruct Hr as [Hr | ([[[tB smB] rs] nf] & _ & Hr)].
    * destruct (bool_decide _).
      -- apply bind_Raise in Hr. destruct Hr as [Hr | (q & _ & Hr)];
           [now apply truediv_int_non_ValueError in Hr | discriminate Hr].
      -- apply bind_Raise in Hr. destruct Hr as [Hr | ([tB smB] & _ & Hr)];
           [now apply calcola_totale_sezioni_non_ValueError in Hr
           | discriminate Hr].
    * apply bind_Raise in Hr. destruct Hr as [Hr | (ri & _ & Hr)];
        [now apply float_of_int_non_ValueError in Hr | discriminate Hr].
Qed.

(** X10. How [valuta_rischio] reports the errors. A blank date gives the
    date warning, whatever else the form holds; with a date, a blank client
    name gives the client warning; "Controlla gli input" appears exactly
    when the amount is not empty and [float] rejects it; every other
    exception of the computation is reported as unexpected. *)
Theorem valuta_rischio_esiti (self : AMLRiskApp.App)
    (eventi : list AMLRiskApp.Evento) :
  let esito := snd (AMLRiskApp.valuta_rischio cfg self eventi) in
  let data := PyStr.truthy (PyStr.strip (AMLRiskApp.entry_data self)) in
  let cliente := PyStr.truthy (PyStr.strip (AMLRiskApp.entry_cliente self)) in
  (esito = AMLRiskApp.Avviso "Inserire la data di valutazione!"
   <-> data = false) /\
  (esito = AMLRiskApp.Avviso "Inserire il nome del cliente!"
   <-> data = true /\ cliente = false) /\
  (esito = AMLRiskApp.Errore_input
   <-> data = true /\ cliente = true /\
       PyStr.truthy (AMLRiskApp.importo_str self) = true /\
       py_float (AMLRiskApp.importo_str self) = Raise ValueError) /\
  (esito = AMLRiskApp.Errore_imprevisto
   <-> data = true /\ cliente = true /\
       exists e, e <> ValueError /\
                 AMLRiskApp.valuta_calcoli cfg self = Raise e).
Proof.
  intros esito data cliente.
  pose proof (valuta_calcoli_ValueError self) as HVE.
  unfold esito, AMLRiskApp.valuta_rischio. fold data cliente.
  destruct data; cbn [negb snd].
  2: { split; [tauto |]. split; [split; [discriminate | now intros [Hf _]] |].
       split; (split; [discriminate | now intros [Hf _]]). }
  destruct cliente; cbn [negb snd].
  2: { split; [split; discriminate |]. split; [tauto |].
       split; (split; [discriminate | now intros (_ & Hf & _)]). }
  destruct (AMLRiskApp.valuta_calcoli cfg self) as [d | e] eqn:Hd.
  - match goal with |- context [snd ?p] => set (r := snd p) end.
    assert (Hesito : r = AMLRiskApp.In_attesa \/ r = AMLRiskApp.Annullata
                     \/ r = AMLRiskApp.Successo).
    { unfold r. destruct (3.5 <? _)%float; [| auto].
      destruct (AMLRiskApp._mostra_dialog_rischio_rafforzato _ _ _)
        as [[?|]|]; auto. }
    assert (Hno : forall r', r = r' ->
              r' <> AMLRiskApp.In_attesa -> r' <> AMLRiskApp.Annullata ->
              r' <> AMLRiskApp.Successo -> False)
      by (intros r' <-; tauto).
    split; [split; [intros Hr; exfalso; now apply (Hno _ Hr) | discriminate] |].
    split; [split; [intros Hr; exfalso; now apply (Hno _ Hr) | now intros [_ Hf]] |].
    split; split; try (intros Hr; exfalso; now apply (Hno _ Hr)).
    + intros (_ & _ & Ht & Hf).
      assert (Hr : @Ok AMLRiskApp.DatiExport d = Raise ValueError)
        by (apply HVE; now split).
      discriminate Hr.
    + intros (_ & _ & e & _ & Hf). discriminate Hf.
  - split; [split; [destruct e; discriminate | discriminate] |].
    split; [split; [destruct e; discriminate | now intros [_ Hf]] |].
    split; split.
    + intros Hr. destruct e; try discriminate Hr.
      split; [reflexivity |]. split; [reflexivity |]. now apply HVE.
    + intros (_ & _ & Ht & Hf).
      assert (Hr : @Raise AMLRiskApp.DatiExport e = Raise ValueError)
        by (apply HVE; now split).
      now injection Hr as ->.
    + intros Hr. split; [reflexivity |]. split; [reflexivity |].
      exists e. split; [| reflexivity]. intros ->. discriminate Hr.
    + intros (_ & _ & e' & He & Hf). injection Hf as <-.
      destruct e; try reflexivity. now destruct He.
Qed.

End Esiti.

Section Memoria.
Context `{Runtime}.
Variable cfg : Config.

Lemma stessi_valori_con_dichiarazione (d : AMLRiskApp.DatiExport)
    (dich : option AMLRiskApp.Dichiarazione) :
  stessi_valori d (AMLRiskApp.con_dichiarazione d dich).
Proof. unfold stessi_valori. cbn. tauto. Qed.

(** X11. The band and the dialog agree. For a sum that is a number, the
    band is the highest one exactly when the sum is above 3.5. At or below
    3.5 no dialog opens: the result is stored at once without a
    declaration, whatever the user would do. Above 3.5 a result is stored
    only with a declaration whose [accepted] is true and which names the
    highest band. *)
Theorem fascia_rafforzata_dichiarazione (self : AMLRiskApp.App)
    (d : AMLRiskApp.DatiExport) :
  PyStr.truthy (PyStr.strip (AMLRiskApp.entry_data self)) = true ->
  PyStr.truthy (PyStr.strip (AMLRiskApp.entry_cliente self)) = true ->
  AMLRiskApp.valuta_calcoli cfg self = Ok d ->
  is_nan (AMLRiskApp.somma d) = false ->
  (AMLRiskApp.livello d = "MOLTO SIGNIFICATIVO - Adeguata Verifica Rafforzata"
   <-> (3.5 <? AMLRiskApp.somma d)%float = true) /\
  ((3.5 <? AMLRiskApp.somma d)%float = false ->
   forall eventi,
     snd (AMLRiskApp.valuta_rischio cfg self eventi) = AMLRiskApp.Successo /\
     exists memorizzato,
       AMLRiskApp.dati_export (fst (AMLRiskApp.valuta_rischio cfg self eventi))
         = Some memorizzato /\
       AMLRiskApp.dichiarazione_rafforzata memorizzato = None /\
       stessi_valori d memorizzato) /\
  ((3.5 <? AMLRiskApp.somma d)%float = true ->
   forall eventi,
     snd (AMLRiskApp.valuta_rischio cfg self eventi) = AMLRiskApp.Successo ->
     exists memorizzato dich,
       AMLRiskApp.dati_export (fst (AMLRiskApp.valuta_rischio cfg self eventi))
         = Some memorizzato /\
       AMLRiskApp.dichiarazione_rafforzata memorizzato = Some dich /\
       AMLRiskApp.accepted dich = true /\
       AMLRiskApp.d_livello dich
         = "MOLTO SIGNIFICATIVO - Adeguata Verifica Rafforzata" /\
       stessi_valori d memorizzato).
Proof.
  intros Hdata Hcliente Hd Hn.
  destruct (valuta_calcoli_Ok cfg self d Hd)
    as (_ & _ & _ & _ & _ & _ & _ & _ & _ & Hliv & _).
  assert (Hfascia :
    AMLRiskApp.livello d = "MOLTO SIGNIFICATIVO - Adeguata Verifica Rafforzata"
    <-> (3.5 <? AMLRiskApp.somma d)%float = true).
  { rewrite Hliv, calcola_livello_rischio_rafforzato, Hn.
    split; [intros [Hs | Hf]; [exact Hs | discriminate Hf] | now left]. }
  split; [exact Hfascia |]. split.
  - intros Hs eventi. unfold AMLRiskApp.valuta_rischio.
    rewrite Hdata, Hcliente, Hd, Hs. cbn [negb fst snd].
    split; [reflexivity |].
    exists (AMLRiskApp.con_dichiarazione d None).
    split; [reflexivity |]. split; [reflexivity |].
    apply stessi_valori_con_dichiarazione.
  - intros Hs eventi. unfold AMLRiskApp.valuta_rischio.
    rewrite Hdata, Hcliente, Hd, Hs. cbn [negb].
    unfold AMLRiskApp._mostra_dialog_rischio_rafforzato,
      AMLRiskApp.esegui_dialog.
    destruct (fold_left _ eventi _) as [cb | [dich|]] eqn:Hrun;
      cbn [fst snd]; try discriminate.
    intros _.
    destruct (dialog_accettato _ _ _ _ _ Hrun)
      as (prima & adesso & dopo & _ & _ & Hdich).
    exists (AMLRiskApp.con_dichiarazione d (Some dich)), dich.
    split; [reflexivity |]. split; [reflexivity |].
    split; [now rewrite Hdich |].
    split; [rewrite Hdich; cbn; now apply Hfascia |].
    apply stessi_valori_con_dichiarazione.
Qed.


End Memoria.

(* ================================================================== *)
(** ** The automatic detection and the evaluation *)

Lemma append_assoc (a b c : string) : (a +:+ b) +:+ c = a +:+ (b +:+ c).
Proof.
  induction a as [|x a IH]; [reflexivity | exact (f_equal (String x) IH)].
Qed.

Lemma append_nil_r (a : string) : a +:+ "" = a.
Proof.
  induction a as [|x a IH]; [reflexivity | exact (f_equal (String x) IH)].
Qed.

Lemma lower_app (a b : string) :
  PyStr.lower (a +:+ b) = PyStr.lower a +:+ PyStr.lower b.
Proof.
  induction a as [|x a IH];
    [reflexivity | exact (f_equal (String (PyStr.to_lower x)) IH)].
Qed.

Lemma to_lower_idem (c : ascii) :
  PyStr.to_lower (PyStr.to_lower c) = PyStr.to_lower c.
Proof. destruct c as [[] [] [] [] [] [] [] []]; reflexivity. Qed.

Lemma lower_idem (s : string) : PyStr.lower (PyStr.lower s) = PyStr.lower s.
Proof.
  induction s as [|c s IH]; cbn; [reflexivity |].
  now rewrite to_lower_idem, IH.
Qed.

Lemma is_space_to_lower (c : ascii) :
  PyStr.is_space (PyStr.to_lower c) = PyStr.is_space c.
Proof. destruct c as [[] [] [] [] [] [] [] []]; reflexivity. Qed.

Lemma lstrip_lower (s : string) :
  PyStr.lstrip (PyStr.lower s) = PyStr.lower (PyStr.lstrip s).
Proof.
  induction s as [|c s IH]; cbn [PyStr.lower PyStr.lstrip]; [reflexivity |].
  rewrite is_space_to_lower. now destruct (PyStr.is_space c).
Qed.

Lemma rstrip_lower (s : string) :
  PyStr.rstrip (PyStr.lower s) = PyStr.lower (PyStr.rstrip s).
Proof.
  induction s as [|c s IH]; cbn [PyStr.lower PyStr.rstrip]; [reflexivity |].
  rewrite IH, is_space_to_lower.
  destruct (PyStr.rstrip s); cbn [PyStr.lower]; [| reflexivity].
  now destruct (PyStr.is_space c).
Qed.

(** [s.lower().strip()] is [s.strip().lower()]. *)
Lemma strip_lower (s : string) :
  PyStr.strip (PyStr.lower s) = PyStr.lower (PyStr.strip s).
Proof. unfold PyStr.strip. now rewrite lstrip_lower, rstrip_lower. Qed.

Lemma lstrip_suffisso (s : string) : exists pre, s = pre +:+ PyStr.lstrip s.
Proof.
  induction s as [|c s [pre IH]]; cbn [PyStr.lstrip]; [now exists "" |].
  destruct (PyStr.is_space c); [| now exists ""].
  exists (String c pre). exact (f_equal (String c) IH).
Qed.

Lemma rstrip_prefisso (s : string) : exists post, s = PyStr.rstrip s +:+ post.
Proof.
  induction s as [|c s [post IH]]; cbn [PyStr.rstrip]; [now exists "" |].
  destruct (PyStr.rstrip s) as [|c' t] eqn:Hr.
  - destruct (PyStr.is_space c).
    + now exists (String c s).
    + exists post. exact (f_equal (String c) IH).
  - exists post. exact (f_equal (String c) IH).
Qed.

Lemma strip_sottostringa (s : string) : sottostringa (PyStr.strip s) s.
Proof.
  unfold sottostringa, PyStr.strip.
  destruct (lstrip_suffisso s) as [pre Hpre].
  destruct (rstrip_prefisso (PyStr.lstrip s)) as [post Hpost].
  exists pre, post. now rewrite <- Hpost.
Qed.

Lemma sottostringa_trans (a b c : string) :
  sottostringa a b -> sottostringa b c -> sottostringa a c.
Proof.
  intros (p1 & q1 & ->) (p2 & q2 & ->).
  exists (p2 +:+ p1), (q1 +:+ q2). now rewrite !append_assoc.
Qed.

Section Rilevamento.
Import AMLRiskApp.

Lemma senza_punteggiatura_app (a b : string) :
  senza_punteggiatura (a +:+ b)
  = senza_punteggiatura a +:+ senza_punteggiatura b.
Proof.
  induction a as [|x a IH]; [reflexivity |].
  change (String x a +:+ b) with (String x (a +:+ b)).
  cbn [senza_punteggiatura]. rewrite IH. now destruct (_ || _).
Qed.

Lemma senza_punteggiatura_sottostringa (a b : string) :
  sottostringa a b ->
  sottostringa (senza_punteggiatura a) (senza_punteggiatura b).
Proof.
  intros (p & q & ->). rewrite !senza_punteggiatura_app. now eexists _, _.
Qed.

Lemma lower_sottostringa (a b : string) :
  sottostringa a b -> sottostringa (PyStr.lower a) (PyStr.lower b).
Proof.
  intros (p & q & ->). rewrite !lower_app. now eexists _, _.
Qed.

(** A name or keyword that the evaluation finds in the text, is found by
    the detection in the normal form of the text. *)
Lemma contenuto_normalizza (testo parola : string) :
  PyStr.contains (PyStr.lower (PyStr.strip testo)) (PyStr.lower parola) = true ->
  PyStr.contains (normalizza testo) (normalizza parola) = true.
Proof.
  rewrite !contains_spec. intros Hc. fold (sottostringa (PyStr.lower parola)
                                             (PyStr.lower (PyStr.strip testo))) in Hc.
  fold (sottostringa (normalizza parola) (normalizza testo)).
  unfold normalizza. apply senza_punteggiatura_sottostringa.
  rewrite (strip_lower testo).
  eapply sottostringa_trans; [apply strip_sottostringa | exact Hc].
Qed.

Lemma rileva_database_None (database : list (string * (Z * string)))
    (testo : string) :
  rileva_database database (normalizza testo) = None ->
  forall nome lvl desc, In (nome, (lvl, desc)) database ->
    PyStr.contains (PyStr.lower (PyStr.strip testo)) (PyStr.lower nome) = false.
Proof.
  induction database as [|[n [l d]] rest IH]; intros Hr nome lvl desc Hin;
    [destruct Hin |].
  cbn [rileva_database] in Hr.
  destruct (PyStr.contains (normalizza testo) (normalizza n)) eqn:Hc;
    [discriminate Hr |].
  destruct Hin as [[= -> -> ->] | Hin]; [| now apply (IH Hr nome lvl desc)].
  destruct (PyStr.contains _ (PyStr.lower nome)) eqn:Hc'; [| reflexivity].
  apply contenuto_normalizza in Hc'. congruence.
Qed.

Lemma rileva_keyword_list_false (keyword_list : list string) (testo : string) :
  rileva_keyword_list keyword_list (normalizza testo) = false ->
  forall kw, In kw keyword_list ->
    PyStr.contains (PyStr.lower (PyStr.strip testo)) kw = false.
Proof.
  induction keyword_list as [|k rest IH]; intros Hr kw Hin; [destruct Hin |].
  cbn [rileva_keyword_list] in Hr.
  destruct (PyStr.contains (normalizza testo) (normalizza k)) eqn:Hc;
    [discriminate Hr |].
  destruct Hin as [-> | Hin]; [| now apply IH].
  destruct (PyStr.contains _ kw) eqn:Hc'; [| reflexivity].
  assert (Hl : PyStr.contains (PyStr.lower (PyStr.strip testo))
                 (PyStr.lower kw) = true).
  { apply contains_spec. apply contains_spec in Hc'.
    rewrite <- (lower_idem (PyStr.strip testo)).
    now apply lower_sottostringa. }
  apply contenuto_normalizza in Hl. congruence.
Qed.

Lemma rileva_keywords_None (keywords : list (Z * list string))
    (testo : string) :
  rileva_keywords keywords (normalizza testo) = None ->
  forall lvl kws kw, In (lvl, kws) keywords -> In kw kws ->
    PyStr.contains (PyStr.lower (PyStr.strip testo)) kw = false.
Proof.
  induction keywords as [|[l ks] rest IH]; intros Hr lvl kws kw Hin Hkw;
    [destruct Hin |].
  cbn [rileva_keywords] in Hr.
  destruct (rileva_keyword_list ks (normalizza testo)) eqn:Hk;
    [discriminate Hr |].
  destruct Hin as [[= -> ->] | Hin]; [| now apply (IH Hr lvl kws kw)].
  now apply (rileva_keyword_list_false kws testo).
Qed.

Context `{Runtime}.
Variable cfg : Config.

(** X13. When the detection run on the text of the client-nature field
    reports no match, it clears the category menu, and an evaluation of the
    form it leaves scores A.1 with the default level 3: what the detection
    does not find, the evaluation does not find in the registry or among
    the keywords either. *)
Theorem auto_detect_nessun_match (categorie_manuali : list (string * Z))
    (self self' : App) :
  _auto_detect_natura_giuridica cfg categorie_manuali self
    (entry_natura_giuridica self) = Some (self', Natura_nessun_match) ->
  self' = set_combo_natura_fallback self "" /\
  combo_natura_fallback self' = "" /\
  _get_automatic_sections_A cfg self' =
    [ {| a_name := "A.1 - Natura giuridica";
         a_value := PyStr.strip (entry_natura_giuridica self)
                      +:+ " (Livello default - verificare manualmente)";
         a_level := 3 |};
      sezione_area cfg "A.4 - Area geografica cliente"
        (entry_area_cliente self) ].
Proof.
  unfold _auto_detect_natura_giuridica. cbn zeta.
  destruct (rileva_database _ _) as [l|] eqn:Hdb.
  { destruct (livello_text l); cbn; intros Hr; [| discriminate Hr].
    injection Hr as _ Hr. discriminate Hr. }
  destruct (rileva_keywords _ _) as [l|] eqn:Hkw.
  { destruct (livello_text l); cbn; intros Hr; [| discriminate Hr].
    injection Hr as _ Hr. discriminate Hr. }
  intros [= <-]. split; [reflexivity |]. split; [reflexivity |].
  unfold _get_automatic_sections_A.
  cbn [set_combo_natura_fallback entry_natura_giuridica combo_natura_fallback
       entry_area_cliente].
  rewrite (loop_database_no_match _ _
             (rileva_database_None _ _ Hdb)).
  cbn [Z.eqb].
  rewrite (loop_keywords_no_match _ _
             (rileva_keywords_None _ _ Hkw)).
  reflexivity.
Qed.

Lemma rileva_keywords_livello (testo_norm : string) (l : Z) :
  rileva_keywords (get_natura_giuridica_keywords cfg) testo_norm = Some l ->
  1 <= l <= 4.
Proof.
  unfold get_natura_giuridica_keywords. cbn [rileva_keywords].
  repeat (destruct (rileva_keyword_list _ _); [intros [= <-]; lia |]).
  discriminate.
Qed.

Lemma rileva_database_In (database : list (string * (Z * string)))
    (testo_norm : string) (l : Z) :
  rileva_database database testo_norm = Some l ->
  exists nome desc, In (nome, (l, desc)) database.
Proof.
  induction database as [|[n [lvl d]] rest IH]; cbn [rileva_database];
    [discriminate |].
  destruct (PyStr.contains _ _).
  - intros [= <-]. exists n, d. now left.
  - intros Hr. destruct (IH Hr) as (nome & desc & Hin).
    exists nome, desc. now right.
Qed.

Lemma livello_text_Some (l : Z) :
  1 <= l <= 4 -> exists t, livello_text l = Some t.
Proof.
  intros Hl.
  assert (Hcases : l = 1 \/ l = 2 \/ l = 3 \/ l = 4) by lia.
  destruct Hcases as [-> | [-> | [-> | ->]]]; cbn; eauto.
Qed.

Lemma get_dropdown_text_for_level_In (categorie_manuali : list (string * Z))
    (l : Z) :
  get_dropdown_text_for_level categorie_manuali l = "" \/
  In (get_dropdown_text_for_level categorie_manuali l, l) categorie_manuali.
Proof.
  induction categorie_manuali as [|[k v] rest IH];
    cbn [get_dropdown_text_for_level]; [now left |].
  destruct (Z.eqb_spec v l) as [-> | _]; [right; now left |].
  destruct IH as [IH | IH]; [now left | right; now right].
Qed.

(** X14. With registry levels from 1 to 4 the detection always completes:
    no label dictionary is read outside its keys.  It changes nothing in
    the form but the category menu, which it sets to the empty text or to
    a category of the level it shows. *)
Theorem auto_detect_completa (categorie_manuali : list (string * Z))
    (self : App) (testo : string) :
  Forall (fun e => 1 <= fst (snd e) <= 4) (get_natura_giuridica_database cfg) ->
  exists scelta etichetta,
    _auto_detect_natura_giuridica cfg categorie_manuali self testo
      = Some (set_combo_natura_fallback self scelta, etichetta) /\
    match etichetta with
    | Natura_rilevato_database l t | Natura_rilevato_keyword l t =>
        1 <= l <= 4 /\ livello_text l = Some t /\
        (scelta = "" \/ In (scelta, l) categorie_manuali)
    | Natura_nessun_match => scelta = ""
    end.
Proof.
  intros Hdb. unfold _auto_detect_natura_giuridica. cbn zeta.
  destruct (rileva_database _ _) as [l|] eqn:Hr.
  - assert (Hl : 1 <= l <= 4).
    { destruct (rileva_database_In _ _ _ Hr) as (nome & desc & Hin).
      rewrite Forall_forall in Hdb. apply list_elem_of_In in Hin.
      exact (Hdb _ Hin). }
    destruct (livello_text_Some l Hl) as (t & Ht). rewrite Ht. cbn.
    eexists _, _. split; [reflexivity |]. cbn.
    split; [exact Hl |]. split; [exact Ht |].
    apply get_dropdown_text_for_level_In.
  - destruct (rileva_keywords _ _) as [l|] eqn:Hk.
    + pose proof (rileva_keywords_livello _ _ Hk) as Hl.
      destruct (livello_text_Some l Hl) as (t & Ht). rewrite Ht. cbn.
      eexists _, _. split; [reflexivity |]. cbn.
      split; [exact Hl |]. split; [exact Ht |].
      apply get_dropdown_text_for_level_In.
    + eexists _, _. split; [reflexivity |]. reflexivity.
Qed.

End Rilevamento.

(* ================================================================== *)
(** ** A registry name typed in full *)

Lemma prefix_refl (s : string) : String.prefix s s = true.
Proof.
  induction s as [|c s IH]; cbn; [reflexivity |].
  destruct (ascii_dec c c); [exact IH | contradiction].
Qed.

Lemma contains_refl (s : string) : PyStr.contains s s = true.
Proof. destruct s; cbn [PyStr.contains]; now rewrite prefix_refl. Qed.

Section Registro.
Import AMLRiskApp.
Variable cfg : Config.

Lemma loop_database_primo (prima dopo : list (string * (Z * string)))
    (nome : string) (lvl : Z) (desc : string) (natura_text : string) :
  (forall n l d, In (n, (l, d)) prima ->
     PyStr.contains (PyStr.lower natura_text) (PyStr.lower n) = false) ->
  PyStr.contains (PyStr.lower natura_text) (PyStr.lower nome) = true ->
  loop_database (prima ++ (nome, (lvl, desc)) :: dopo) natura_text
    = (lvl, desc).
Proof.
  intros Hprima Hnome. induction prima as [|[n [l d]] prima IH];
    cbn [loop_database app].
  - now rewrite Hnome.
  - rewrite (Hprima n l d) by now left.
    apply IH. intros n' l' d' Hin. apply (Hprima n' l' d'). now right.
Qed.

(** X15. A registry name typed in full (or chosen from the suggestions)
    is scored in A.1 with the level of its registry entry and shown with
    its description, unless an earlier entry of the registry has a name
    contained in it: the evaluation takes the first entry whose name the
    text contains. *)
Theorem registro_nome_esatto (self : App)
    (prima dopo : list (string * (Z * string)))
    (nome : string) (lvl : Z) (desc : string) :
  get_natura_giuridica_database cfg = (prima ++ (nome, (lvl, desc)) :: dopo)%list ->
  (forall n l d, In (n, (l, d)) prima ->
     PyStr.contains (PyStr.lower nome) (PyStr.lower n) = false) ->
  PyStr.strip (entry_natura_giuridica self) = nome ->
  lvl <> 0 ->
  _get_automatic_sections_A cfg self =
    [ {| a_name := "A.1 - Natura giuridica";
         a_value := if PyStr.truthy desc
                    then nome +:+ " (" +:+ desc +:+ ")" else nome;
         a_level := lvl |};
      sezione_area cfg "A.4 - Area geografica cliente"
        (entry_area_cliente self) ].
Proof.
  intros Hdb Hprima Hnome Hlvl. unfold _get_automatic_sections_A.
  rewrite Hnome, Hdb.
  rewrite (loop_database_primo prima dopo nome lvl desc nome Hprima
             (contains_refl _)).
  assert (Hz : (lvl =? 0) = false) by now apply Z.eqb_neq.
  cbv beta iota zeta. repeat (rewrite Hz; cbv beta iota zeta).
  reflexivity.
Qed.

End Registro.

(* ================================================================== *)
(** ** The form as it is built *)

Section Pannelli.
Import AMLRiskApp.

Lemma nuova_sezione_regolare (sec : SectionDef) :
  sezione_regolare (nuova_sezione sec) /\
  Forall (fun var => var = false) (vars (nuova_sezione sec)) /\
  length (vars (nuova_sezione sec)) = length (sd_factors sec) /\
  factors (nuova_sezione sec) = sd_factors sec /\
  name (nuova_sezione sec) = sd_name sec.
Proof.
  unfold nuova_sezione, _create_factors_ui, sezione_regolare. cbn.
  rewrite !length_map. repeat split.
  - induction (sd_factors sec); constructor; [lia | assumption].
  - induction (sd_factors sec); constructor; [reflexivity | assumption].
Qed.

(** X16. The manual sections of a form as [_create_section_panel_A] and
    [_create_section_panel_B] build them: one unticked box and one level
    menu set to 1 per factor of the definition, so that each section is
    regular and has the average 0.0; panel B has one section per
    definition, in order. *)
Theorem pannelli_regolari (sections_a sections_b : list SectionDef) :
  Forall (fun sec =>
            sezione_regolare sec /\
            RiskCalculator.calcola_media_sezione sec = Ok 0%float /\
            exists def, In def sections_a /\
                        name sec = sd_name def /\
                        factors sec = sd_factors def /\
                        length (vars sec) = length (sd_factors def))
         (_create_section_panel_A sections_a) /\
  Forall2 (fun def sec =>
             sezione_regolare sec /\
             RiskCalculator.calcola_media_sezione sec = Ok 0%float /\
             name sec = sd_name def /\
             factors sec = sd_factors def /\
             length (vars sec) = length (sd_factors def))
          sections_b (_create_section_panel_B sections_b).
Proof.
  split.
  - induction sections_a as [|def rest IH]; cbn [_create_section_panel_A];
      [constructor |].
    assert (IH' : Forall (fun sec =>
              sezione_regolare sec /\
              RiskCalculator.calcola_media_sezione sec = Ok 0%float /\
              exists d, In d (def :: rest) /\
                        name sec = sd_name d /\
                        factors sec = sd_factors d /\
                        length (vars sec) = length (sd_factors d))
             (_create_section_panel_A rest)).
    { eapply Forall_impl; [exact IH |].
      intros sec (Hr & Hm & d & Hin & Hd).
      split; [exact Hr |]. split; [exact Hm |].
      exists d. split; [now right | exact Hd]. }
    destruct (PyStr.contains (sd_name def) "A.1"); [exact IH' |].
    constructor; [| exact IH'].
    destruct (nuova_sezione_regolare def) as (Hr & Hv & Hl & Hf & Hn).
    split; [exact Hr |].
    split; [unfold RiskCalculator.calcola_media_sezione;
            now rewrite selected_levels_from_nessuno |].
    exists def. split; [now left |]. auto.
  - unfold _create_section_panel_B.
    induction sections_b as [|def rest IH]; cbn [map]; constructor; [| exact IH].
    destruct (nuova_sezione_regolare def) as (Hr & Hv & Hl & Hf & Hn).
    split; [exact Hr |].
    split; [unfold RiskCalculator.calcola_media_sezione;
            now rewrite selected_levels_from_nessuno |]. auto.
Qed.

End Pannelli.

(* ================================================================== *)
(** ** The dictionary of places *)

Lemma senza_chiavi_riservate_lookup (d : gmap string Z) (k : string) :
  senza_chiavi_riservate d !! k =
  if PyStr.startswith k "_" then None else d !! k.
Proof.
  unfold senza_chiavi_riservate. rewrite map_lookup_filter.
  destruct (d !! k) as [v|]; cbn; [| now destruct (PyStr.startswith k "_")].
  destruct (PyStr.startswith k "_") eqn:Hk.
  - rewrite option_guard_False; [reflexivity |].
    unfold PyStr.startswith in Hk. congruence.
  - rewrite option_guard_True; [reflexivity | exact Hk].
Qed.

(** X17. The dictionary of places that [inizializza_luoghi] builds: a name
    that starts with an underscore is left out; a name listed among the
    countries has the level of the country, also when it is listed among
    the provinces; any other name has the level of the province. *)
Theorem inizializza_luoghi_lookup (province paesi : gmap string Z)
    (k : string) :
  inizializza_luoghi province paesi !! k =
  if PyStr.startswith k "_" then None
  else match paesi !! k with
       | Some livello => Some livello
       | None => province !! k
       end.
Proof.
  unfold inizializza_luoghi, dict_update, get_paesi_rischio,
    get_province_italiane_rischio. cbn zeta.
  rewrite !lookup_union, !senza_chiavi_riservate_lookup, lookup_empty.
  destruct (PyStr.startswith k "_"); [reflexivity |].
  destruct (paesi !! k), (province !! k); reflexivity.
Qed.

(* ================================================================== *)
(** ** The geography fields *)

Section CampiLuogo.
Import RiskCalculator AMLRiskApp.

(** A line of the list box gives back the name it starts with. *)
Lemma split_0_riga (luogo resto : string) :
  PyStr.contains luogo " [" = false ->
  PyStr.split_0 (luogo +:+ " [" +:+ resto) " [" = luogo.
Proof.
  induction luogo as [|c t IH]; intros Hc; [now destruct resto |].
  cbn [PyStr.contains] in Hc. apply orb_false_iff in Hc.
  destruct Hc as [Hp Hc].
  change (String c t +:+ " [" +:+ resto)
    with (String c (t +:+ " [" +:+ resto)).
  cbn [PyStr.split_0].
  assert (Hp' : String.prefix " [" (String c (t +:+ " [" +:+ resto)) = false).
  { cbn [String.prefix] in Hp |- *.
    destruct (ascii_dec " " c) as [<- | _]; [| reflexivity].
    destruct t as [|c' t']; [reflexivity |].
    change (String c' t' +:+ " [" +:+ resto)
      with (String c' (t' +:+ " [" +:+ resto)).
    cbn [String.prefix] in Hp |- *.
    destruct (ascii_dec "[" c'); [| reflexivity].
    destruct t'; discriminate Hp. }
  rewrite Hp'. f_equal. now apply IH.
Qed.

Lemma inserisci_righe_false (suggerimenti : list (string * Z))
    (righe righe' : list string) :
  inserisci_righe suggerimenti righe = (righe', false) ->
  exists nuove,
    righe' = (righe ++ nuove)%list /\
    Forall2 (fun x riga =>
               exists t, livello_text_luogo (snd x) = Some t /\
                         riga = fst x +:+ " [Livello " +:+ PyNum.str_int (snd x)
                                      +:+ " - " +:+ t +:+ "]")
            suggerimenti nuove.
Proof.
  revert righe. induction suggerimenti as [|[luogo livello] rest IH];
    intros righe Hr; cbn [inserisci_righe] in Hr.
  - injection Hr as <-. exists []. split; [now rewrite app_nil_r | constructor].
  - destruct (livello_text_luogo livello) as [t|] eqn:Ht; [| discriminate Hr].
    apply IH in Hr. destruct Hr as (nuove & -> & Hn).
    eexists (_ :: nuove). split; [now rewrite <- app_assoc |].
    constructor; [| exact Hn]. exists t. now split.
Qed.

Variable cfg : Config.

(** X18. What is listed is what is scored. When the places of the
    dictionary are stored under trimmed title-case names without " [" and
    with levels from 1 to 4, every line that [_on_location_keyrelease]
    shows stands for a suggestion of [cerca_luogo]; choosing it,
    [_on_location_select] puts the name of the place into the entry and
    its level into the label, and the evaluation scores the geography
    section of that entry with that level. *)
Theorem luogo_selezionato_valutato (luoghi : list (string * Z))
    (event : option Tasto) (s s1 : SezioneLuogo) (i : nat) (riga : string)
    (nome_sezione : string) :
  voci_luoghi cfg luoghi ->
  Forall (fun x => PyStr.strip (fst x) = fst x /\
                   PyStr.title (fst x) = fst x /\
                   PyStr.contains (fst x) " [" = false /\
                   1 <= snd x <= 4) luoghi ->
  _on_location_keyrelease luoghi event s = Completato s1 ->
  luogo_listbox_visibile s1 = true ->
  luogo_listbox s1 !! i = Some riga ->
  exists luogo livello testo_livello,
    In (luogo, livello) (cerca_luogo luoghi (luogo_entry s)) /\
    String.prefix (luogo +:+ " [Livello " +:+ PyNum.str_int livello) riga = true /\
    livello_text livello = Some testo_livello /\
    _on_location_select cfg [i] s1 =
      {| luogo_entry := luogo; luogo_listbox := luogo_listbox s1;
         luogo_listbox_visibile := false;
         luogo_label := Luogo_rilevato livello testo_livello |} /\
    sezione_area cfg nome_sezione luogo =
      {| a_name := nome_sezione; a_value := luogo; a_level := livello |}.
Proof.
  intros Hvoci Hluoghi Hkey Hvis Hriga.
  unfold _on_location_keyrelease in Hkey. cbn zeta in Hkey.
  assert (Hramo :
    exists righe,
      inserisci_righe (cerca_luogo luoghi (luogo_entry s)) [] = (righe, false) /\
      luogo_listbox s1 = righe).
  { destruct event as [[| |]|];
      try (injection Hkey as <-; discriminate Hvis);
      (destruct (String.length (luogo_entry s) <? 2)%nat;
       [injection Hkey as <-; discriminate Hvis |];
       destruct (PyList.truthy _);
       [| injection Hkey as <-; discriminate Hvis];
       destruct (inserisci_righe _ _) as [righe [|]];
       [discriminate Hkey |];
       injection Hkey as <-; now exists righe). }
  destruct Hramo as (righe & Hins & Hlist). clear Hkey.
  apply inserisci_righe_false in Hins. destruct Hins as (nuove & -> & Hn).
  cbn [app] in Hlist. rewrite Hlist in Hriga.
  destruct (Forall2_lookup_r _ _ _ _ _ Hn Hriga)
    as ([luogo livello] & Hsug & t & Ht & ->).
  cbn [fst snd] in *.
  apply list_elem_of_lookup_2, list_elem_of_In in Hsug.
  pose proof (cerca_luogo_In _ _ _ Hsug) as [Hin Hcont].
  rewrite Forall_forall in Hluoghi.
  destruct (Hluoghi (luogo, livello) (proj2 (list_elem_of_In _ _) Hin))
    as (Hstrip & Htitle & Hsep & Hliv).
  cbn [fst snd] in *.
  assert (Hlookup : RiskCalculator.get_livello_paese cfg luogo = livello).
  { apply (voci_luoghi_livello cfg luoghi luogo livello Hvoci Hin).
    now rewrite Hstrip. }
  destruct (livello_text_Some livello Hliv) as (tl & Htl).
  exists luogo, livello, tl.
  split; [exact Hsug |].
  split.
  { apply prefix_spec. eexists. rewrite !append_assoc. reflexivity. }
  split; [exact Htl |].
  split.
  - unfold _on_location_select. rewrite Hlist, Hriga.
    cbv [default from_option id].
    match goal with
    | |- context [luogo +:+ " [Livello " +:+ ?x] =>
        change (luogo +:+ " [Livello " +:+ x)
          with (luogo +:+ " [" +:+ "Livello " +:+ x)
    end.
    rewrite (split_0_riga luogo _ Hsep), Hlookup, Htl. reflexivity.
  - unfold sezione_area. rewrite Hstrip, Hlookup.
    assert (Hne : PyStr.truthy luogo = true).
    { destruct luogo; [| reflexivity].
      cbn in Hcont. rewrite orb_false_r in Hcont.
      rewrite cerca_luogo_eq in Hsug. cbn zeta in Hsug.
      destruct (PyStr.strip (PyStr.lower (luogo_entry s))) as [|c q];
        [destruct Hsug | discriminate Hcont]. }
    rewrite Hne.
    destruct (Z.eqb_spec livello 0); [lia | reflexivity].
Qed.

End CampiLuogo.

(* ================================================================== *)
(** ** The further properties on the example forms *)

Section AltriEsempi.
#[local] Existing Instance Esempio.runtime.
Import RiskCalculator AMLRiskApp.

Lemma voci_luoghi_esempio : voci_luoghi Esempio.cfg Esempio.luoghi.
Proof.
  split; [| reflexivity].
  apply (bool_decide_unpack _). vm_compute. exact I.
Defined.

(** The places with "no" in their name, listed in either order of the
    dictionary. *)
Lemma cerca_luogo_ordine_indifferente_witness :
  cerca_luogo Esempio.luoghi "NO" = cerca_luogo (rev Esempio.luoghi) "NO" /\
  cerca_luogo Esempio.luoghi "NO" = [("Genova", 1); ("Milano", 4)].
Proof.
  split; [| vm_compute; reflexivity].
  apply cerca_luogo_ordine_indifferente.
  - apply (bool_decide_unpack _). vm_compute. exact I.
  - apply Permutation_rev.
Defined.

(** "Milano" is suggested for "mil" with level 4 and found with it. *)
Lemma luogo_suggerito_livello_witness :
  cerca_luogo Esempio.luoghi "mil" = [("Milano", 4)] /\
  get_livello_paese Esempio.cfg "Milano" = 4.
Proof.
  split; [vm_compute; reflexivity |].
  apply (luogo_suggerito_livello Esempio.cfg Esempio.luoghi "mil").
  - exact voci_luoghi_esempio.
  - vm_compute. left. reflexivity.
  - vm_compute. reflexivity.
Defined.



(** The level 1 of the unticked second factor raised to 3: the average
    stays 4.0. *)
Lemma calcola_media_sezione_non_spuntato_witness :
  let sec := Esempio.sezione "A.3 - Comportamento tenuto"
               ["Reticenza"; "Scarsa collaborazione"] [true; false] [4; 1] in
  calcola_media_sezione (con_livello sec 1 3) = calcola_media_sezione sec /\
  level_vars (con_livello sec 1 3) = [4; 3] /\
  calcola_media_sezione sec = Ok 4%float.
Proof.
  intros sec. split; [| split; reflexivity].
  apply calcola_media_sezione_non_spuntato. discriminate.
Defined.

(** Two unticked boxes and no level menu at all. *)
Lemma calcola_media_sezione_nessuna_spunta_witness :
  calcola_media_sezione
    (Esempio.sezione "B.2 - Modalita" ["Contante"; "Interposti"]
                     [false; false] [])
  = Ok 0%float.
Proof.
  apply calcola_media_sezione_nessuna_spunta. repeat constructor.
Defined.

(** Two automatic sections of levels 4 and 3 and a manual section of
    average 2.5: the total is 9.5. *)
Lemma calcola_totale_sezioni_somma_witness :
  let sections :=
    [Esempio.sezione "A.2 - Prevalente attivita svolta"
       ["Uso di contante"; "Settore a rischio"] [true; true] [1; 4]] in
  let auto_sections :=
    [ {| a_name := "A.1 - Natura giuridica"; a_value := "Trust"; a_level := 4 |};
      {| a_name := "A.4 - Area geografica cliente"; a_value := "Napoli";
         a_level := 3 |} ] in
  calcola_totale_sezioni sections auto_sections
    = Ok (9.5%float, [Int 4; Int 3; Float 2.5]) /\
  exists livelli medie,
    Forall2 (fun sec f => PyNum.float_of_int (a_level sec) = Ok f)
            auto_sections livelli /\
    Forall2 (fun sec m => calcola_media_sezione sec = Ok m) sections medie /\
    [Int 4; Int 3; Float 2.5] =
      (map (fun sec => Int (a_level sec)) auto_sections
         ++ map Float medie)%list /\
    9.5%float
      = fold_left (fun acc f => (acc + f)%float) (livelli ++ medie) 0%float.
Proof.
  intros sections auto_sections.
  split; [vm_compute; reflexivity |].
  apply calcola_totale_sezioni_somma. vm_compute. reflexivity.
Defined.

(** A sum of 0.62: the result is stored at once, without a declaration,
    whatever the user would do in a dialog. *)
Lemma fascia_rafforzata_dichiarazione_witness :
  exists d,
    valuta_calcoli Esempio.cfg Esempio.app_arrotondamento = Ok d /\
    somma d = 0.62%float /\
    snd (valuta_rischio Esempio.cfg Esempio.app_arrotondamento
           [premi_annulla true]) = Successo /\
    exists memorizzato,
      dati_export
        (fst (valuta_rischio Esempio.cfg Esempio.app_arrotondamento
                [premi_annulla true])) = Some memorizzato /\
      dichiarazione_rafforzata memorizzato = None /\
      stessi_valori d memorizzato.
Proof.
  eexists. split; [vm_compute; reflexivity |]. split; [reflexivity |].
  lazymatch goal with
  | |- _ /\ exists m, _ /\ _ /\ stessi_valori ?d m =>
      assert (Hd : valuta_calcoli Esempio.cfg Esempio.app_arrotondamento = Ok d)
        by (vm_compute; reflexivity);
      exact (proj1 (proj2 (fascia_rafforzata_dichiarazione Esempio.cfg
                             Esempio.app_arrotondamento d
                             eq_refl eq_refl Hd eq_refl))
               eq_refl [premi_annulla true])
  end.
Defined.

(** " Mario Rossi " is detected as nothing, and evaluated at level 3. *)
Lemma auto_detect_nessun_match_witness :
  _auto_detect_natura_giuridica Esempio.cfg Esempio.categorie_manuali
    Esempio.app_sconosciuto " Mario Rossi "
  = Some (set_combo_natura_fallback Esempio.app_sconosciuto "",
          Natura_nessun_match) /\
  _get_automatic_sections_A Esempio.cfg
    (set_combo_natura_fallback Esempio.app_sconosciuto "") =
    [ {| a_name := "A.1 - Natura giuridica";
         a_value := "Mario Rossi (Livello default - verificare manualmente)";
         a_level := 3 |};
      {| a_name := "A.4 - Area geografica cliente";
         a_value := "Non specificato";
         a_level := 1 |} ].
Proof.
  split; [vm_compute; reflexivity |].
  refine (proj2 (proj2 (auto_detect_nessun_match Esempio.cfg
                          Esempio.categorie_manuali Esempio.app_sconosciuto
                          _ _))).
  vm_compute. reflexivity.
Defined.

(** "Intesa San-Paolo S.p.A." is detected as the registry entry "Intesa
    Sanpaolo" of level 1, and the menu is set to the category of level
    1. *)
Lemma auto_detect_completa_witness :
  _auto_detect_natura_giuridica Esempio.cfg Esempio.categorie_manuali
    Esempio.app "Intesa San-Paolo S.p.A."
  = Some (set_combo_natura_fallback Esempio.app "Societa quotata",
          Natura_rilevato_database 1 "NON SIGNIFICATIVO") /\
  exists scelta etichetta,
    _auto_detect_natura_giuridica Esempio.cfg Esempio.categorie_manuali
      Esempio.app "Intesa San-Paolo S.p.A."
      = Some (set_combo_natura_fallback Esempio.app scelta, etichetta) /\
    match etichetta with
    | Natura_rilevato_database l t | Natura_rilevato_keyword l t =>
        1 <= l <= 4 /\ livello_text l = Some t /\
        (scelta = "" \/ In (scelta, l) Esempio.categorie_manuali)
    | Natura_nessun_match => scelta = ""
    end.
Proof.
  split; [vm_compute; reflexivity |].
  apply auto_detect_completa.
  repeat constructor; cbn; lia.
Defined.

(** "Trust Intesa Fiduciaria" holds no earlier registry name: level 4. *)
Lemma registro_nome_esatto_witness :
  _get_automatic_sections_A Esempio.cfg Esempio.app =
    [ {| a_name := "A.1 - Natura giuridica";
         a_value := "Trust Intesa Fiduciaria (Trust)";
         a_level := 4 |};
      sezione_area Esempio.cfg "A.4 - Area geografica cliente" "milano" ].
Proof.
  refine (registro_nome_esatto Esempio.cfg Esempio.app
            [ ("Intesa Sanpaolo", (1, "Banca italiana"));
              ("Generali", (1, "Assicurazione")) ] []
            "Trust Intesa Fiduciaria" 4 "Trust" eq_refl _ eq_refl _).
  - intros n l d [[= <- <- <-] | [[= <- <- <-] | []]]; vm_compute; reflexivity.
  - discriminate.
Defined.

(** Typing "mi" lists "Milano [Livello 4 - ALTO]"; choosing the line puts
    "Milano" into the entry, and the section is scored 4. *)
Lemma luogo_selezionato_valutato_witness :
  let s := {| luogo_entry := "mi"; luogo_listbox := [];
              luogo_listbox_visibile := false;
              luogo_label := Luogo_etichetta_vuota |} in
  let s1 := {| luogo_entry := "mi";
               luogo_listbox := ["Milano [Livello 4 - ALTO]"];
               luogo_listbox_visibile := true;
               luogo_label := Luogo_etichetta_vuota |} in
  _on_location_keyrelease Esempio.luoghi (Some Tasto_altro) s = Completato s1 /\
  _on_location_select Esempio.cfg [0%nat] s1 =
    {| luogo_entry := "Milano";
       luogo_listbox := ["Milano [Livello 4 - ALTO]"];
       luogo_listbox_visibile := false;
       luogo_label := Luogo_rilevato 4 "MOLTO SIGNIFICATIVO" |} /\
  exists luogo livello testo_livello,
    In (luogo, livello) (cerca_luogo Esempio.luoghi "mi") /\
    String.prefix (luogo +:+ " [Livello " +:+ PyNum.str_int livello)
                  "Milano [Livello 4 - ALTO]" = true /\
    livello_text livello = Some testo_livello /\
    _on_location_select Esempio.cfg [0%nat] s1 =
      {| luogo_entry := luogo; luogo_listbox := luogo_listbox s1;
         luogo_listbox_visibile := false;
         luogo_label := Luogo_rilevato livello testo_livello |} /\
    sezione_area Esempio.cfg "A.4 - Area geografica cliente" luogo =
      {| a_name := "A.4 - Area geografica cliente"; a_value := luogo;
         a_level := livello |}.
Proof.
  intros s s1. split; [vm_compute; reflexivity |].
  split; [vm_compute; reflexivity |].
  apply (luogo_selezionato_valutato Esempio.cfg Esempio.luoghi
           (Some Tasto_altro) s s1 0 "Milano [Livello 4 - ALTO]").
  - exact voci_luoghi_esempio.
  - repeat constructor; vm_compute; congruence.
  - vm_compute. reflexivity.
  - reflexivity.
  - reflexivity.
Defined.

(** The form of the unknown client satisfies what the computation needs
    to return. *)
Lemma valuta_calcoli_restituisce_witness :
  config_regolare Esempio.cfg /\
  Forall sezione_regolare (section_vars_A_manual Esempio.app_sconosciuto) /\
  Forall sezione_regolare (section_vars_B_manual Esempio.app_sconosciuto) /\
  exists d, valuta_calcoli Esempio.cfg Esempio.app_sconosciuto = Ok d.
Proof.
  assert (HA : Forall sezione_regolare
                 (section_vars_A_manual Esempio.app_sconosciuto))
    by (repeat constructor; cbn; lia).
  assert (HB : Forall sezione_regolare
                 (section_vars_B_manual Esempio.app_sconosciuto))
    by (repeat constructor; cbn; lia).
  split; [exact config_esempio_regolare |].
  split; [exact HA |]. split; [exact HB |].
  apply valuta_calcoli_restituisce.
  - exact config_esempio_regolare.
  - intros _. eexists. vm_compute. reflexivity.
  - exact HA.
  - intros _. exact HB.
  - apply rappresentabile_small. cbn. lia.
Defined.

End AltriEsempi.

